(** * KORBUX-IA middleware: authentication, metrics, validation, errors

    A shallow embedding of the Express middleware of the repository:
    - [Middleware/auth.js]        ([Module Auth]),
    - the metrics module          ([Module Metrics]),
    - [Middleware/validacion.js]  ([Module Validacion] and [Module Errores]).

    JavaScript values are embedded as the inductive type [JS.JSValue];
    strings are Rocq strings holding the UTF-8 encoding of the text;
    object literals are association lists from property names to values,
    in the order the source writes the properties. *)

From Stdlib Require Import ZArith QArith Bool List String Ascii Lia.
From Stdlib Require Import DecimalString DecimalZ DecimalPos Qround.
Import ListNotations.

Local Open Scope string_scope.
Local Open Scope Z_scope.
Local Open Scope list_scope.

(* ================================================================== *)
(** * The JavaScript values the middleware handles *)
(* ================================================================== *)

Module JS.

(** A JavaScript [number]: a finite value (every double is a rational),
    [NaN], or an infinity. *)
Inductive number : Type :=
| Finite (q : Q)
| NaN
| Infinity (negative : bool).

Definition Int (z : Z) : number := Finite (inject_Z z).

(** [a < b], [a >= b] of JavaScript on numbers: every comparison that
    involves [NaN] is false. *)
Definition lt (a b : number) : bool :=
  match a, b with
  | NaN, _ | _, NaN => false
  | Finite x, Finite y => negb (Qle_bool y x)
  | Finite _, Infinity neg => negb neg
  | Infinity neg, Finite _ => neg
  | Infinity n1, Infinity n2 => n1 && negb n2
  end.

Definition ge (a b : number) : bool :=
  match a, b with
  | NaN, _ | _, NaN => false
  | Finite x, Finite y => Qle_bool y x
  | Finite _, Infinity neg => neg
  | Infinity neg, Finite _ => negb neg
  | Infinity n1, Infinity n2 => negb n1 || n2
  end.

(** [Math.max(a, b)]. *)
Definition Math_max (a b : number) : number :=
  match a, b with
  | NaN, _ | _, NaN => NaN
  | _, _ => if lt a b then b else a
  end.

#[warnings="-register-all"]
Inductive JSValue : Type :=
| VUndefined
| VNull
| VBool (b : bool)
| VNumber (n : number)
| VString (s : string)
| VObject (props : list (string * JSValue)).

(** [typeof v] *)
Definition typeof (v : JSValue) : string :=
  match v with
  | VUndefined => "undefined"
  | VNull => "object"
  | VBool _ => "boolean"
  | VNumber _ => "number"
  | VString _ => "string"
  | VObject _ => "object"
  end.

(** Truthiness ([ToBoolean]): [undefined], [null], [false], [0], [NaN]
    and the empty string are falsy. *)
Definition number_truthy (n : number) : bool :=
  match n with
  | Finite q => negb (Qeq_bool q 0)
  | NaN => false
  | Infinity _ => true
  end.

Definition string_truthy (s : string) : bool :=
  match s with EmptyString => false | _ => true end.

Definition truthy (v : JSValue) : bool :=
  match v with
  | VUndefined | VNull => false
  | VBool b => b
  | VNumber n => number_truthy n
  | VString s => string_truthy s
  | VObject _ => true
  end.

(** A header or an environment variable: a string or [undefined]. *)
Definition opt_truthy (o : option string) : bool :=
  match o with Some s => string_truthy s | None => false end.

(** Property read [o.k] on an object literal; a missing property reads
    as [undefined]. *)
Fixpoint lookup {A : Type} (k : string) (props : list (string * A)) : option A :=
  match props with
  | [] => None
  | (k', v) :: rest => if String.eqb k k' then Some v else lookup k rest
  end.

Definition keys (props : list (string * JSValue)) : list string :=
  map fst props.

(** Property [k] of an object. *)
Definition prop (k : string) (v : JSValue) : option JSValue :=
  match v with VObject props => lookup k props | _ => None end.

(** The property names of an object, in order. *)
Definition shape (v : JSValue) : list string :=
  match v with VObject props => keys props | _ => [] end.

(** ** Strings *)

(** [s.split(c)] for a one-character separator. *)
Fixpoint split (c : ascii) (s : string) : list string :=
  match s with
  | EmptyString => [EmptyString]
  | String a rest =>
      if Ascii.eqb a c then EmptyString :: split c rest
      else match split c rest with
           | [] => [String a EmptyString]
           | w :: ws => String a w :: ws
           end
  end.

Definition startsWith (s p : string) : bool := String.prefix p s.

(** [s.toLowerCase()] on the ASCII letters. *)
Definition lowerChar (a : ascii) : ascii :=
  let n := nat_of_ascii a in
  if (65 <=? n)%nat && (n <=? 90)%nat then ascii_of_nat (n + 32) else a.

Fixpoint toLowerCase (s : string) : string :=
  match s with
  | EmptyString => EmptyString
  | String a rest => String (lowerChar a) (toLowerCase rest)
  end.

(** The UTF-8 encodings of the characters [trim] removes: the
    WhiteSpace and LineTerminator code points of ECMAScript. *)
Definition bytes (l : list nat) : string :=
  string_of_list_ascii (map ascii_of_nat l).

Definition whitespace : list string :=
  map bytes
    [ [9]; [10]; [11]; [12]; [13]; [32];
      [194; 160];
      [225; 154; 128];
      [226; 128; 128]; [226; 128; 129]; [226; 128; 130]; [226; 128; 131];
      [226; 128; 132]; [226; 128; 133]; [226; 128; 134]; [226; 128; 135];
      [226; 128; 136]; [226; 128; 137]; [226; 128; 138];
      [226; 128; 168]; [226; 128; 169]; [226; 128; 175];
      [226; 129; 159];
      [227; 128; 128];
      [239; 187; 191] ]%nat.

Fixpoint strip_prefix (p s : string) : option string :=
  match p, s with
  | EmptyString, _ => Some s
  | String a p', String b s' => if Ascii.eqb a b then strip_prefix p' s' else None
  | String _ _, EmptyString => None
  end.

Fixpoint strip_any (ps : list string) (s : string) : option string :=
  match ps with
  | [] => None
  | p :: ps' =>
      match strip_prefix p s with
      | Some r => Some r
      | None => strip_any ps' s
      end
  end.

Fixpoint trimStart_fuel (fuel : nat) (ws : list string) (s : string) : string :=
  match fuel with
  | O => s
  | S f =>
      match strip_any ws s with
      | Some r => trimStart_fuel f ws r
      | None => s
      end
  end.

Definition string_rev (s : string) : string :=
  string_of_list_ascii (rev (list_ascii_of_string s)).

Definition trimStart (s : string) : string :=
  trimStart_fuel (String.length s) whitespace s.

Definition trimEnd (s : string) : string :=
  string_rev
    (trimStart_fuel (String.length s) (map string_rev whitespace) (string_rev s)).

(** [s.trim()] *)
Definition trim (s : string) : string := trimEnd (trimStart s).

(** ** Dates

    The time value of a valid [Date]: milliseconds since the epoch, at
    most 8.64e15 in magnitude.  [new Date()] always is a valid date. *)
Record TimeValue : Type := mkTime {
  ms : Z;
  ms_valid : (Z.abs ms <=? 8640000000000000) = true
}.

(** The day of a 400-year era (day 0 is a first of March) to the year
    within the era, the month and the day of the month. *)
Definition civil_of_doe (doe : Z) : Z * Z * Z :=
  let yoe := (doe - doe / 1460 + doe / 36524 - doe / 146096) / 365 in
  let doy := doe - (365 * yoe + yoe / 4 - yoe / 100) in
  let mp := (5 * doy + 2) / 153 in
  let d := doy - (153 * mp + 2) / 5 + 1 in
  let m := if mp <? 10 then mp + 3 else mp - 9 in
  (yoe + (if m <=? 2 then 1 else 0), m, d).

(** Day number (days since 1970-01-01) to the civil date
    [(year, month, day)] of the proleptic Gregorian calendar. *)
Definition civil_from_days (days : Z) : Z * Z * Z :=
  let z := days + 719468 in
  let era := z / 146097 in
  let '(y, m, d) := civil_of_doe (z mod 146097) in
  (y + era * 400, m, d).

Definition digit (n : Z) : ascii := ascii_of_nat (48 + Z.to_nat (n mod 10)).

Definition pad2 (n : Z) (k : string) : string :=
  String (digit (n / 10)) (String (digit n) k).

Definition pad3 (n : Z) (k : string) : string :=
  String (digit (n / 100)) (pad2 n k).

Definition pad4 (n : Z) (k : string) : string :=
  String (digit (n / 1000)) (pad3 n k).

Definition pad6 (n : Z) (k : string) : string :=
  String (digit (n / 100000)) (String (digit (n / 10000)) (pad4 n k)).

(** The year of [toISOString]: four digits for the years 0 to 9999, a
    sign and six digits otherwise. *)
Definition isoYear (y : Z) (k : string) : string :=
  if (0 <=? y) && (y <=? 9999) then pad4 y k
  else if y <? 0 then String "-" (pad6 (- y) k)
  else String "+" (pad6 y k).

(** [new Date(t).toISOString()]: [YYYY-MM-DDTHH:mm:ss.sssZ]. *)
Definition toISOString (t : TimeValue) : string :=
  let days := ms t / 86400000 in
  let msInDay := ms t mod 86400000 in
  let '(y, m, d) := civil_from_days days in
  isoYear y
    (String "-" (pad2 m
    (String "-" (pad2 d
    (String "T" (pad2 (msInDay / 3600000)
    (String ":" (pad2 (msInDay / 60000 mod 60)
    (String ":" (pad2 (msInDay / 1000 mod 60)
    (String "." (pad3 (msInDay mod 1000) "Z")))))))))))).

(** Recogniser of the ISO-8601 date-time strings of the form above: a
    year of four digits, or of six digits with a sign, a month from 01 to
    12, a day from 01 to 31, the time of day to the millisecond and [Z]. *)
Definition isDigit (a : ascii) : bool :=
  let n := Z.of_nat (nat_of_ascii a) in (48 <=? n) && (n <=? 57).

Definition digitVal (a : ascii) : Z := Z.of_nat (nat_of_ascii a) - 48.

Definition twoDigits (a b : ascii) (lo hi : Z) : bool :=
  isDigit a && isDigit b &&
  (lo <=? 10 * digitVal a + digitVal b) && (10 * digitVal a + digitVal b <=? hi).

Definition isoRest (l : list ascii) : bool :=
  match l with
  | [c0; m1; m2; c1; d1; d2; cT; h1; h2; c2; i1; i2; c3; s1; s2; c4; f1; f2; f3; cZ] =>
      Ascii.eqb c0 "-" && twoDigits m1 m2 1 12 &&
      Ascii.eqb c1 "-" && twoDigits d1 d2 1 31 &&
      Ascii.eqb cT "T" && twoDigits h1 h2 0 23 &&
      Ascii.eqb c2 ":" && twoDigits i1 i2 0 59 &&
      Ascii.eqb c3 ":" && twoDigits s1 s2 0 59 &&
      Ascii.eqb c4 "." && isDigit f1 && isDigit f2 && isDigit f3 &&
      Ascii.eqb cZ "Z"
  | _ => false
  end.

Definition isISO8601 (s : string) : bool :=
  match list_ascii_of_string s with
  | y1 :: y2 :: y3 :: y4 :: rest =>
      if isDigit y1 then isDigit y2 && isDigit y3 && isDigit y4 && isoRest rest
      else
        match rest with
        | y5 :: y6 :: y7 :: rest' =>
            (Ascii.eqb y1 "+" || Ascii.eqb y1 "-") &&
            isDigit y2 && isDigit y3 && isDigit y4 &&
            isDigit y5 && isDigit y6 && isDigit y7 && isoRest rest'
        | _ => false
        end
  | _ => false
  end.

(** ** Conversions

    [ToString] on the values whose conversion is modelled: the
    primitive values, with the finite numbers restricted to the
    integers below 10^21 in magnitude, which print in plain decimal
    notation.  [None] stands for a value outside this domain. *)
Definition ToString (v : JSValue) : option string :=
  match v with
  | VUndefined => Some "undefined"
  | VNull => Some "null"
  | VBool b => Some (if b then "true" else "false")
  | VString s => Some s
  | VNumber NaN => Some "NaN"
  | VNumber (Infinity neg) => Some (if neg then "-Infinity" else "Infinity")
  | VNumber (Finite q) =>
      let r := Qred q in
      if (Zpos (Qden r) =? 1) && (Z.abs (Qnum r) <? 10 ^ 21)
      then Some (NilZero.string_of_int (Z.to_int (Qnum r)))
      else None
  | VObject _ => None
  end.

(** The value of the leading decimal digits of a string, and whether
    there is at least one digit. *)
Fixpoint leadingDigits (s : string) (acc : Z) (seen : bool) : Z * bool :=
  match s with
  | String a rest =>
      if isDigit a then leadingDigits rest (10 * acc + digitVal a) true
      else (acc, seen)
  | EmptyString => (acc, seen)
  end.

(** [parseInt(s, 10)] on a string: leading white space is skipped, a
    sign is read, then the longest run of decimal digits; [NaN] when
    there is no digit.  (The integer is kept exact, where JavaScript
    rounds an integer above 2^53 to the nearest double.) *)
Definition parseInt_string (s : string) : number :=
  let t := trimStart s in
  let '(negative, body) :=
    match t with
    | String "-" rest => (true, rest)
    | String "+" rest => (false, rest)
    | _ => (false, t)
    end in
  match leadingDigits body 0 false with
  | (n, true) => Int (if negative then - n else n)
  | (_, false) => NaN
  end.

(** [parseInt(v, 10)] *)
Definition parseInt (v : JSValue) : option number :=
  option_map parseInt_string (ToString v).

(** [a || b] on numbers. *)
Definition or_else (a b : number) : number :=
  if number_truthy a then a else b.

(** [ToIntegerOrInfinity] of a finite number: truncation towards zero. *)
Definition truncate (q : Q) : Z := Z.quot (Qnum q) (Zpos (Qden q)).

(** [arr.slice(start)] for an array held as a list. *)
Definition slice {A : Type} (start : number) (arr : list A) : list A :=
  let len := Z.of_nat (List.length arr) in
  let k :=
    match start with
    | NaN => 0
    | Infinity true => 0
    | Infinity false => len
    | Finite q =>
        let rel := truncate q in
        if rel <? 0 then Z.max (len + rel) 0 else Z.min rel len
    end in
  skipn (Z.to_nat k) arr.

(** Unary minus. *)
Definition neg (a : number) : number :=
  match a with
  | Finite q => Finite (Qopp q)
  | NaN => NaN
  | Infinity b => Infinity (negb b)
  end.

(** ** Objects *)

(** [obj[k] = v] on an object that has the own properties [props]: the
    property is overwritten where it is, or added at the end. *)
Fixpoint setProp (k : string) (v : JSValue) (props : list (string * JSValue))
  : list (string * JSValue) :=
  match props with
  | [] => [(k, v)]
  | (k', v') :: rest =>
      if String.eqb k' k then (k', v) :: rest else (k', v') :: setProp k v rest
  end.

(** [obj[k] = v] on a plain object, for a value [v] that is a number: the
    name [__proto__] is the accessor of [Object.prototype], whose setter
    ignores a value that is not an object, so no property is created. *)
Definition assign (props : list (string * JSValue)) (k : string) (v : JSValue)
  : list (string * JSValue) :=
  if String.eqb k "__proto__" then props else setProp k v props.

(** [v?.k]: [undefined] on [undefined] and [null]; the property of an
    object, which is given with the properties a read finds on it;
    [undefined] where there is none, as on a string, a number or a
    boolean for the names read here. *)
Definition optionalProp (v : JSValue) (k : string) : JSValue :=
  match v with
  | VObject props =>
      match lookup k props with Some x => x | None => VUndefined end
  | _ => VUndefined
  end.

(** The character [c] occurs in [s]. *)
Fixpoint hasChar (c : ascii) (s : string) : bool :=
  match s with
  | EmptyString => false
  | String a rest => Ascii.eqb a c || hasChar c rest
  end.

(** ** JSON *)










End JS.

(* ================================================================== *)
(** * Middleware/auth.js *)
(* ================================================================== *)

Module Auth.
Import JS.

(** [process.env], as far as the module reads it. *)
Record ProcessEnv : Type := mkEnv {
  env_API_KEYS : option string;
  env_JWT_SECRET : option string;
  env_NODE_ENV : option string
}.

Definition opt_eqb (o : option string) (s : string) : bool :=
  match o with Some x => String.eqb x s | None => false end.

(** [process.env.API_KEYS?.split(",").filter(Boolean) || []] *)
Definition API_KEYS (env : ProcessEnv) : list string :=
  match env_API_KEYS env with
  | Some s => filter string_truthy (split "," s)
  | None => []
  end.

Definition DEFAULT_DEV_JWT_SECRET : string :=
  "super_insecure_dev_key_PLEASE_CHANGE".

(** Loading the module: the security check of [JWT_SECRET].  Either the
    process exits, or the module is loaded with its whitelist and
    [process.env] possibly completed by the development secret. *)
Inductive LoadResult : Type :=
| ProcessExit (code : Z)
| Loaded (keys : list string) (env : ProcessEnv).

Definition loadModule (env : ProcessEnv) : LoadResult :=
  let JWT_SECRET := env_JWT_SECRET env in
  if negb (opt_truthy JWT_SECRET) || opt_eqb JWT_SECRET DEFAULT_DEV_JWT_SECRET then
    if opt_eqb (env_NODE_ENV env) "production" then ProcessExit 1
    else if negb (opt_truthy JWT_SECRET) then
      Loaded (API_KEYS env)
        (mkEnv (env_API_KEYS env) (Some DEFAULT_DEV_JWT_SECRET) (env_NODE_ENV env))
    else Loaded (API_KEYS env) env
  else Loaded (API_KEYS env) env.

(** An incoming request: Node's [req.headers], names in lower case. *)
Record Request : Type := mkRequest {
  headers : list (string * string)
}.

(** [req.header(name)] *)
Definition header (req : Request) (name : string) : option string :=
  lookup (toLowerCase name) (headers req).

(** What [jwt.verify] does: it returns the decoded claims or throws an
    error that has a [name] and a [message]. *)
Inductive VerifyResult : Type :=
| Verified (decoded : JSValue)
| VerifyThrows (name message : string).

(** What the middleware does with a request: it sets [req.auth] and
    calls [next()], or it sends [res.status(status).json(body)]. *)
Inductive Outcome : Type :=
| Next (auth : JSValue)
| Respond (status : Z) (body : JSValue).

Definition errorBody (code : Z) (message : string) (now : TimeValue) : JSValue :=
  VObject [ ("status", VString "error");
            ("code", VNumber (Int code));
            ("message", VString message);
            ("timestamp", VString (toISOString now)) ].

Section Middleware.

(** [jsonwebtoken]'s [verify(token, secret)]. *)
Variable jwt_verify : string -> string -> VerifyResult.

(** The whitelist the module computed when it was loaded. *)
Variable keys : list string.

(** The [Authorization: Bearer <token>] branch, entered with the header
    value [h] that starts with ["Bearer "]. *)
Definition verifyBearer (env : ProcessEnv) (now : TimeValue) (h : string) : Outcome :=
  let notProvided :=
    Respond 401 (errorBody 401 "Token de autenticación no proporcionado." now) in
  let noSecret :=
    Respond 500
      (errorBody 500
         "Error de configuración del servidor: clave secreta JWT no disponible." now) in
  match nth_error (split " " h) 1 with
  | Some token =>
      if string_truthy token then
        match env_JWT_SECRET env with
        | Some secret =>
            if string_truthy secret then
              match jwt_verify token secret with
              | Verified decoded =>
                  Next (VObject [("method", VString "jwt"); ("user", decoded)])
              | VerifyThrows name _ =>
                  let errorMessage :=
                    if String.eqb name "TokenExpiredError" then
                      "Token expirado. Por favor, vuelva a autenticarse."
                    else if String.eqb name "JsonWebTokenError" then
                      "Token JWT mal formado o inválido."
                    else "Token inválido." in
                  let statusCode := 401 in
                  Respond statusCode (errorBody statusCode errorMessage now)
              end
            else noSecret
        | None => noSecret
        end
      else notProvided
  | None => notProvided
  end.

Definition accessDenied (now : TimeValue) : Outcome :=
  Respond 403
    (errorBody 403
       "Acceso denegado. Proporcione una API Key válida o un token JWT en el encabezado 'Authorization'."
       now).

(** [authenticateRequest(req, res, next)].  No operation of the body
    throws outside the inner [try] around [jwt.verify], so the outer
    [catch] (the 500 of an unexpected error) is not entered. *)
Definition authenticateRequest
    (env : ProcessEnv) (now : TimeValue) (req : Request) : Outcome :=
  let apiKey := header req "X-API-KEY" in
  let authHeader := header req "Authorization" in
  let withoutApiKey :=
    match authHeader with
    | Some h => if startsWith h "Bearer " then verifyBearer env now h
                else accessDenied now
    | None => accessDenied now
    end in
  match apiKey with
  | Some k =>
      if string_truthy k then
        if existsb (String.eqb k) keys then
          Next (VObject [("method", VString "apiKey"); ("apiKey", VString k)])
        else Respond 401 (errorBody 401 "API Key inválida." now)
      else withoutApiKey
  | None => withoutApiKey
  end.

End Middleware.

(** A verifier to run the middleware on examples: the token ["good"]
    carries the claims [{sub: "u1"}], the token ["old"] has expired,
    every other token is malformed. *)
Definition sample_verify (token secret : string) : VerifyResult :=
  if String.eqb token "good" then Verified (VObject [("sub", VString "u1")])
  else if String.eqb token "old" then VerifyThrows "TokenExpiredError" "jwt expired"
  else VerifyThrows "JsonWebTokenError" "jwt malformed".

Definition sample_env : ProcessEnv :=
  mkEnv (Some "validkey123,,otherkey") (Some "s3cret") None.

Definition epoch : TimeValue := mkTime 0 eq_refl.

End Auth.

(* ================================================================== *)
(** * The metrics module *)
(* ================================================================== *)

Module Metrics.
Import JS.

(** [metricsStore].  The counters are numbers that start at 0 and only
    ever are incremented: they are integers, exact as long as they stay
    below 2^53, and are held as integers here. *)
Record MetricsStore : Type := mkStore {
  totalRequests : Z;
  successfulResponses : Z;
  failedResponses : Z;
  customCounters : list (string * Z);
  requestLog : list JSValue
}.

(** The initial [metricsStore]. *)
Definition metricsStore : MetricsStore := mkStore 0 0 0 [] [].

Definition MAX_LOG_ENTRIES : Z := 1000.

(** The fields of the Express request the middleware reads. *)
Record Request : Type := mkRequest {
  method : string;
  originalUrl : string
}.

(** The object literal [logEntry]. *)
Definition logEntry
    (req : Request) (statusCode : number) (durationMs : Z) (now : TimeValue)
  : JSValue :=
  VObject [ ("method", VString (method req));
            ("path", VString (originalUrl req));
            ("status", VNumber statusCode);
            ("durationMs", VNumber (Int durationMs));
            ("timestamp", VString (toISOString now)) ].

(** The listener of ["finish"], closed over [req] and [startTime], run
    when the clock reads [endTime], the response has [statusCode] and the
    date is [now].  It returns the new store and the entry it passes to
    [debug].  [durationNs / 1_000_000n] is the division of BigInt, which
    truncates; [toFixed(2)] and [parseFloat] give that integer back. *)
Definition onFinish
    (st : MetricsStore) (req : Request) (startTime endTime : Z)
    (statusCode : number) (now : TimeValue) : MetricsStore * JSValue :=
  let durationNs := endTime - startTime in
  let durationMs := Z.quot durationNs 1000000 in
  let success := ge statusCode (Int 200) && lt statusCode (Int 400) in
  let entry := logEntry req statusCode durationMs now in
  let pushed := requestLog st ++ [entry] in
  let log :=
    if Z.of_nat (List.length pushed) >? MAX_LOG_ENTRIES then tl pushed else pushed in
  (mkStore (totalRequests st)
           (if success then successfulResponses st + 1 else successfulResponses st)
           (if success then failedResponses st else failedResponses st + 1)
           (customCounters st)
           log,
   entry).

(** ** The process: requests come in, responses finish

    The world is the store, the monotonic clock [process.hrtime.bigint()]
    and the listeners registered on responses that have not finished. *)
Record Listener : Type := mkListener {
  l_res : nat;
  l_req : Request;
  l_startTime : Z
}.

Record World : Type := mkWorld {
  store : MetricsStore;
  hrtime : Z;
  listeners : list Listener
}.

Definition initial : World := mkWorld metricsStore 0 [].

(** [metricsMiddleware(req, res, next)] *)
Definition metricsMiddleware (w : World) (res : nat) (req : Request) : World :=
  let st := store w in
  mkWorld
    (mkStore (totalRequests st + 1) (successfulResponses st) (failedResponses st)
             (customCounters st) (requestLog st))
    (hrtime w)
    (listeners w ++ [mkListener res req (hrtime w)]).

(** The response [res] emits ["finish"]: its listeners run in the order
    of registration.  A response finishes once, so its listeners are
    dropped afterwards. *)
Fixpoint runListeners
    (ls : list Listener) (st : MetricsStore) (endTime : Z)
    (statusCode : number) (now : TimeValue) : MetricsStore * list JSValue :=
  match ls with
  | [] => (st, [])
  | l :: rest =>
      let '(st1, entry) :=
        onFinish st (l_req l) (l_startTime l) endTime statusCode now in
      let '(st2, entries) := runListeners rest st1 endTime statusCode now in
      (st2, entry :: entries)
  end.

Definition emitFinish
    (w : World) (res : nat) (statusCode : number) (now : TimeValue)
  : World * list JSValue :=
  let mine := filter (fun l => Nat.eqb (l_res l) res) (listeners w) in
  let others := filter (fun l => negb (Nat.eqb (l_res l) res)) (listeners w) in
  let '(st, entries) := runListeners mine (store w) (hrtime w) statusCode now in
  (mkWorld st (hrtime w) others, entries).

Inductive Event : Type :=
| Incoming (elapsed : N) (res : nat) (req : Request)
| Finish (elapsed : N) (res : nat) (statusCode : number) (now : TimeValue).

Definition tick (w : World) (elapsed : N) : World :=
  mkWorld (store w) (hrtime w + Z.of_N elapsed) (listeners w).

(** One event: the world after it and the entries logged during it. *)
Definition step (w : World) (e : Event) : World * list JSValue :=
  match e with
  | Incoming elapsed res req => (metricsMiddleware (tick w elapsed) res req, [])
  | Finish elapsed res statusCode now => emitFinish (tick w elapsed) res statusCode now
  end.

Fixpoint run (w : World) (es : list Event) : World * list JSValue :=
  match es with
  | [] => (w, [])
  | e :: rest =>
      let '(w1, logged1) := step w e in
      let '(w2, logged2) := run w1 rest in
      (w2, logged1 ++ logged2)
  end.

(** [count(eventName)]: the store after the call and whether the
    warning was written. *)
Definition count (st : MetricsStore) (eventName : JSValue) : MetricsStore * bool :=
  match eventName with
  | VString name =>
      if String.eqb (trim name) "" then (st, true)
      else
        let currentCount :=
          match lookup name (customCounters st) with
          | Some c => if c =? 0 then 0 else c
          | None => 0
          end in
        let fix set (m : list (string * Z)) : list (string * Z) :=
          match m with
          | [] => [(name, currentCount + 1)]
          | (k, v) :: rest =>
              if String.eqb k name then (k, currentCount + 1) :: rest
              else (k, v) :: set rest
          end in
        (mkStore (totalRequests st) (successfulResponses st) (failedResponses st)
                 (set (customCounters st)) (requestLog st),
         false)
  | _ => (st, true)
  end.

(** [getLastRequests(limit = 10)] *)
Definition getLastRequests (st : MetricsStore) (limit : JSValue)
  : option (list JSValue) :=
  let limit := match limit with VUndefined => VNumber (Int 10) | v => v end in
  match parseInt limit with
  | Some parsed =>
      let effectiveLimit := Math_max (Int 1) (or_else parsed (Int 10)) in
      match requestLog st with
      | [] => Some []
      | log => Some (rev (slice (neg effectiveLimit) log))
      end
  | None => None
  end.

(** ** Vocabulary of the properties *)

(** The limits on which [getLastRequests] is modelled, those [ToString]
    converts: every primitive value, a finite number being an integer
    below 10^21 in magnitude.  Left out: the objects, the numbers with a
    fraction and the numbers from 10^21 on. *)
Definition modelledLimit (limit : JSValue) : Prop :=
  match limit with
  | VObject _ => False
  | VNumber (Finite q) => exists z : Z, Qeq q (inject_Z z) /\ Z.abs z < 10 ^ 21
  | _ => True
  end.

(** The number of requests that came in. *)
Definition incoming (es : list Event) : nat :=
  List.length (filter (fun e => match e with Incoming _ _ _ => true | _ => false end) es).

(** A status code in [200, 400). *)
Definition inSuccessRange (n : number) : Prop :=
  match n with
  | Finite q => (200 <= q /\ q < 400)%Q
  | _ => False
  end.

(** The logged entry records a status code in [200, 400). *)
Definition entrySuccess (entry : JSValue) : bool :=
  match entry with
  | VObject props =>
      match lookup "status" props with
      | Some (VNumber n) => ge n (Int 200) && lt n (Int 400)
      | _ => false
      end
  | _ => false
  end.

Definition successes (entries : list JSValue) : Z :=
  Z.of_nat (List.length (filter entrySuccess entries)).

Definition failures (entries : list JSValue) : Z :=
  Z.of_nat (List.length (filter (fun e => negb (entrySuccess e)) entries)).

(** The last [n] elements of a list, in their order. *)
Definition lastn {A : Type} (n : nat) (l : list A) : list A :=
  skipn (List.length l - n) l.

(** An entry of the log: the five properties of [logEntry], a duration
    that is not negative and a timestamp in ISO-8601 form. *)
Definition wellFormedEntry (entry : JSValue) : Prop :=
  exists (m p t : string) (statusCode : number) (durationMs : Z),
    entry = VObject [ ("method", VString m); ("path", VString p);
                      ("status", VNumber statusCode);
                      ("durationMs", VNumber (Int durationMs));
                      ("timestamp", VString t) ]
    /\ 0 <= durationMs
    /\ isISO8601 t = true.

(** The listeners start no later than the clock reads. *)
Definition clockInv (w : World) : Prop :=
  Forall (fun l => l_startTime l <= hrtime w) (listeners w).

(** ** The snapshot and the custom counters *)

(** The conversion of the [Map] of counters to a plain object, by
    [customCounters[key] = value] on [{}] in the order of the map.  (The
    properties are kept in that order; JavaScript enumerates the names
    that are array indices first.) *)
Definition customCountersObject (m : list (string * Z)) : list (string * JSValue) :=
  fold_left (fun obj kv => assign obj (fst kv) (VNumber (Int (snd kv)))) m [].

(** [getMetrics()], when [process.uptime()] is [uptime].  The four
    figures of [memoryUsageMB], which the source rounds to two decimals
    from [process.memoryUsage()], are taken as they were computed. *)
Definition getMetrics
    (st : MetricsStore) (uptime : Q) (memoryUsageMB : JSValue) (now : TimeValue)
  : JSValue :=
  VObject [ ("totalRequests", VNumber (Int (totalRequests st)));
            ("successfulResponses", VNumber (Int (successfulResponses st)));
            ("failedResponses", VNumber (Int (failedResponses st)));
            ("uptimeSeconds", VNumber (Int (Qfloor uptime)));
            ("memoryUsageMB", memoryUsageMB);
            ("customCounters", VObject (customCountersObject (customCounters st)));
            ("timestamp", VString (toISOString now)) ].

(** [count] called with each of [names] in turn. *)
Definition countAll (st : MetricsStore) (names : list JSValue) : MetricsStore :=
  fold_left (fun s name => fst (count s name)) names st.

(** The number of calls of [count] with the string [name]. *)
Definition timesCalled (name : string) (names : list JSValue) : Z :=
  Z.of_nat
    (List.length
       (filter (fun v => match v with VString s => String.eqb s name | _ => false end)
               names)).

(** The time the clock advances over a sequence of events. *)
Definition elapsedOf (e : Event) : Z :=
  match e with
  | Incoming elapsed _ _ => Z.of_N elapsed
  | Finish elapsed _ _ _ => Z.of_N elapsed
  end.

Definition elapsedTotal (es : list Event) : Z :=
  fold_right (fun e acc => elapsedOf e + acc) 0 es.

(** The event is about the response [res]. *)
Definition touches (res : nat) (e : Event) : bool :=
  match e with
  | Incoming _ r _ => Nat.eqb r res
  | Finish _ r _ _ => Nat.eqb r res
  end.

(** ** Sample runs *)

Definition sample_time : TimeValue := mkTime 1751740200000 eq_refl.

(** Three requests; the second finishes first. *)
Definition sample_trace : list Event :=
  [ Incoming 10 1 (mkRequest "GET" "/api/metrics");
    Incoming 250 2 (mkRequest "POST" "/api/interactuar");
    Finish 3000000 2 (Int 400) sample_time;
    Incoming 40 3 (mkRequest "GET" "/missing?x=1");
    Finish 1200000 1 (Int 200) sample_time;
    Finish 999999 3 (Int 304) sample_time ].

Definition sample_run : World * list JSValue := run initial sample_trace.

(** [n] requests, each finished before the next one comes in. *)
Fixpoint burst (n : nat) : list Event :=
  match n with
  | O => []
  | S k =>
      burst k ++
      [ Incoming 1000 k (mkRequest "GET" "/");
        Finish 2000000 k (Int (Z.of_nat k)) sample_time ]
  end.

End Metrics.

(* ================================================================== *)
(** * Middleware/validacion.js: the validator of the chat interaction *)
(* ================================================================== *)

Module Validacion.
Import JS.

(** The middleware calls [next()], sends [res.status(status).json(body)],
    or throws (the destructuring of a [req.body] that is [undefined] or
    [null] is a [TypeError]). *)
Inductive Outcome : Type :=
| Next
| Respond (status : Z) (body : JSValue)
| Throws (error : string).

(** [const { k } = body] for a body that is neither [undefined] nor
    [null]: the property, or [undefined]. *)
Definition field (body : JSValue) (k : string) : JSValue :=
  match body with
  | VObject props =>
      match lookup k props with Some v => v | None => VUndefined end
  | _ => VUndefined
  end.

(** [!v || typeof v !== "string" || v.trim() === ""] *)
Definition invalid (v : JSValue) : bool :=
  negb (truthy v)
  || negb (String.eqb (typeof v) "string")
  || match v with VString s => String.eqb (trim s) "" | _ => true end.

Definition rejection (parameter message : string) (now : TimeValue) : Outcome :=
  Respond 400
    (VObject [ ("status", VString "error");
               ("code", VNumber (Int 400));
               ("message", VString message);
               ("details", VObject [("parameter", VString parameter)]);
               ("timestamp", VString (toISOString now)) ]).

(** [validarInteraccion(req, res, next)] on [req.body]. *)
Definition validarInteraccion (now : TimeValue) (body : JSValue) : Outcome :=
  match body with
  | VUndefined | VNull => Throws "TypeError"
  | _ =>
      let usuarioId := field body "usuarioId" in
      let mensajeUsuario := field body "mensajeUsuario" in
      if invalid usuarioId then
        rejection "usuarioId"
          "El campo 'usuarioId' es obligatorio y debe ser una cadena válida no vacía."
          now
      else if invalid mensajeUsuario then
        rejection "mensajeUsuario"
          "El campo 'mensajeUsuario' es obligatorio y debe ser una cadena válida no vacía."
          now
      else Next
  end.

(** [body.details.parameter] of a response, when there is one. *)
Definition details_parameter (o : Outcome) : option JSValue :=
  match o with
  | Respond _ (VObject props) =>
      match lookup "details" props with
      | Some (VObject d) => lookup "parameter" d
      | _ => None
      end
  | _ => None
  end.

Definition status_of (o : Outcome) : option Z :=
  match o with Respond st _ => Some st | _ => None end.

End Validacion.

(* ================================================================== *)
(** * Middleware/validacion.js: the application errors *)
(* ================================================================== *)

Module Errores.
Import JS.

(** An [AppError]; the stack trace of the [Error] is left out. *)
Record AppError : Type := mkAppError {
  name : string;
  message : string;
  code : JSValue;
  details : JSValue;
  timestamp : string
}.

(** What the module writes to the console. *)
Inductive ConsoleLine : Type :=
| ConsoleError (e : AppError)        (* [console.error] of the constructor *)
| ConsoleWarn (invalidCode : JSValue). (* [console.warn] of [Custom] *)

(** [new AppError(message, code, details = {}, shouldLog = false)] *)
Definition newAppError
    (now : TimeValue) (message : string) (code details shouldLog : JSValue)
  : AppError * list ConsoleLine :=
  let details := match details with VUndefined => VObject [] | d => d end in
  let shouldLog := match shouldLog with VUndefined => VBool false | v => v end in
  let e := mkAppError "AppError" message code details (toISOString now) in
  (e, if truthy shouldLog then [ConsoleError e] else []).

(** [toJSON()] *)
Definition toJSON (e : AppError) : JSValue :=
  VObject [ ("status", VString "error");
            ("code", code e);
            ("message", VString (message e));
            ("details", details e);
            ("timestamp", VString (timestamp e)) ].

(** A call of a factory returns an error, with what it wrote to the
    console, or throws. *)
Inductive Result : Type :=
| Returned (e : AppError) (console : list ConsoleLine)
| Threw (errorMessage : string).

(** [code < 100 || code >= 600] on a value of type number. *)
Definition outOfRange (n : number) : bool :=
  lt n (Int 100) || ge n (Int 600).

(** [Errores.Custom(message, code = 500, details = {}, shouldLog = false)] *)
Definition Custom
    (now : TimeValue) (message code details shouldLog : JSValue) : Result :=
  let code := match code with VUndefined => VNumber (Int 500) | c => c end in
  match message with
  | VString m =>
      if String.eqb (trim m) "" then
        Threw "❌ 'message' debe ser una cadena no vacía para Errores.Custom."
      else
        let invalidCode :=
          match code with
          | VNumber n => outOfRange n
          | _ => true
          end in
        let warned := if invalidCode then [ConsoleWarn code] else [] in
        let code := if invalidCode then VNumber (Int 500) else code in
        let '(e, logged) := newAppError now m code details shouldLog in
        Returned e (warned ++ logged)
  | _ => Threw "❌ 'message' debe ser una cadena no vacía para Errores.Custom."
  end.

(** The names [messages[language]] finds on [Object.prototype]: there the
    lookup gives a function or an object, not a message. *)
Definition inheritedNames : list string :=
  [ "constructor"; "__proto__"; "hasOwnProperty"; "isPrototypeOf";
    "propertyIsEnumerable"; "toString"; "toLocaleString"; "valueOf";
    "__defineGetter__"; "__defineSetter__"; "__lookupGetter__";
    "__lookupSetter__" ].

(** [messages[language] || messages["es"]] for the object
    [{es: es, en: en}] and a [language] that is a string or is left out
    ([language = "es"]).  [None]: the name is one of [inheritedNames],
    for which the conversion of the value found is not modelled. *)
Definition selectMessage (es en : string) (language : option string) : option string :=
  let key := match language with Some l => l | None => "es" end in
  if String.eqb key "es" then Some es
  else if String.eqb key "en" then Some en
  else if existsb (String.eqb key) inheritedNames then None
  else Some es.

(** [Errores.Unauthorized(language = "es")] *)
Definition Unauthorized (now : TimeValue) (language : option string)
  : option (AppError * list ConsoleLine) :=
  option_map
    (fun message =>
       newAppError now message (VNumber (Int 401))
         (VObject [ ("type", VString "authentication_error");
                    ("description",
                     VString "La solicitud no ha sido autenticada o la autenticación es inválida.") ])
         VUndefined)
    (selectMessage "Acceso no autorizado. Se requiere autenticación válida."
                   "Unauthorized access. Valid authentication is required."
                   language).

(** [Errores.Forbidden(language = "es")] *)
Definition Forbidden (now : TimeValue) (language : option string)
  : option (AppError * list ConsoleLine) :=
  option_map
    (fun message =>
       newAppError now message (VNumber (Int 403))
         (VObject [ ("type", VString "authorization_error");
                    ("description",
                     VString "El usuario está autenticado pero no tiene los privilegios para acceder a este recurso.") ])
         VUndefined)
    (selectMessage
       "Acceso denegado. No tiene los permisos necesarios para realizar esta acción."
       "Access denied. You do not have the necessary permissions to perform this action."
       language).

(** [Errores.InternalServerError(originalError, language = "es")] *)
Definition InternalServerError
    (now : TimeValue) (originalError : JSValue) (language : option string)
  : option (AppError * list ConsoleLine) :=
  option_map
    (fun message =>
       newAppError now message (VNumber (Int 500))
         (VObject [ ("type", VString "internal_server_error");
                    ("originalMessage", optionalProp originalError "message");
                    ("stack", optionalProp originalError "stack");
                    ("description",
                     VString "Ha ocurrido un problema interno que impide completar la solicitud. Por favor, inténtelo de nuevo más tarde.") ])
         (VBool true))
    (selectMessage "Ocurrió un error inesperado en el servidor."
                   "An unexpected server error occurred."
                   language).


(** The code of a number value lies in [100, 600). *)
Definition inRange (v : JSValue) : Prop :=
  match v with
  | VNumber (Finite q) => (100 <= q /\ q < 600)%Q
  | _ => False
  end.

End Errores.

(* ================================================================== *)
(** * Middleware/validacion.js: the routes of the chat interaction *)
(* ================================================================== *)

Module Rutas.
Import JS.

(** What a call of the chat controller settles to. *)
Inductive Settled : Type :=
| Resolved (value : JSValue)
| Rejected (error : JSValue).

(** How a route ends: a response is sent, an error is passed to
    [next], with what was written to the console, or the validator threw.
    [OutsideModel] stands for an error whose message is not modelled. *)
Inductive RouteOutcome : Type :=
| Sent (status : Z) (body : JSValue)
| NextError (e : Errores.AppError) (console : list Errores.ConsoleLine)
| Thrown (error : string)
| OutsideModel.

(** What the rate limiter of [config/security] does with the request at
    hand: it calls [next()] and the route goes on, or it ends the request
    itself (a 429 response, in the documentation of the routes) and what
    follows it on the route is not run.  The limiter is not of these
    files: its decision is a parameter of the routes. *)
Inductive Limiter : Type :=
| CallsNext
| Ends (outcome : RouteOutcome).

(** [next(Errores.InternalServerError(err))] *)
Definition passInternalServerError (now : TimeValue) (err : JSValue) : RouteOutcome :=
  match Errores.InternalServerError now err None with
  | Some (e, console) => NextError e console
  | None => OutsideModel
  end.

Section Controller.

(** [apiLimiter], on the request at hand. *)
Variable apiLimiter : Limiter.

(** [chatController.manejarInteraccion] and [chatController.obtenerHistorial]. *)
Variable manejarInteraccion : JSValue -> Settled.
Variable obtenerHistorial : string -> Settled.

(** The handler of [POST /interactuar], after the rate limiter and the
    validator. *)
Definition interactuar (now : TimeValue) (body : JSValue) : RouteOutcome :=
  match manejarInteraccion body with
  | Resolved respuesta =>
      Sent 200
        (VObject [ ("status", VString "success");
                   ("data", respuesta);
                   ("timestamp", VString (toISOString now)) ])
  | Rejected err => passInternalServerError now err
  end.

(** [POST /interactuar]: [apiLimiter], then [validarInteraccion], then
    the handler ([now] is the date read on the way taken). *)
Definition postInteractuar (now : TimeValue) (body : JSValue) : RouteOutcome :=
  match apiLimiter with
  | Ends outcome => outcome
  | CallsNext =>
      match Validacion.validarInteraccion now body with
      | Validacion.Next => interactuar now body
      | Validacion.Respond status response => Sent status response
      | Validacion.Throws error => Thrown error
      end
  end.

(** The handler of [GET /interactuar/historial/:usuarioId] on
    [req.params.usuarioId], after the rate limiter. *)
Definition historial (now : TimeValue) (usuarioId : JSValue) : RouteOutcome :=
  let rejected :=
    match Errores.Custom now
            (VString "El parámetro 'usuarioId' es obligatorio y debe ser una cadena válida no vacía.")
            (VNumber (Int 400))
            (VObject [("parameter", VString "usuarioId")])
            VUndefined with
    | Errores.Returned e console => NextError e console
    | Errores.Threw message =>
        passInternalServerError now (VObject [("message", VString message)])
    end in
  match usuarioId with
  | VString s =>
      if Validacion.invalid usuarioId then rejected
      else
        match obtenerHistorial (trim s) with
        | Resolved h =>
            Sent 200
              (VObject [ ("status", VString "success");
                         ("usuarioId", VString (trim s));
                         ("historial", h);
                         ("timestamp", VString (toISOString now)) ])
        | Rejected err => passInternalServerError now err
        end
  | _ => rejected
  end.

(** [GET /interactuar/historial/:usuarioId]: [apiLimiter], then the
    handler. *)
Definition getHistorial (now : TimeValue) (usuarioId : JSValue) : RouteOutcome :=
  match apiLimiter with
  | Ends outcome => outcome
  | CallsNext => historial now usuarioId
  end.

End Controller.

(** A controller to run the routes on examples: it answers an echo of
    the message, fails on the user ["boom"], and keeps no history. *)
Definition sample_manejar (body : JSValue) : Settled :=
  match optionalProp body "usuarioId" with
  | VString "boom" =>
      Rejected (VObject [ ("message", VString "db down");
                          ("stack", VString "Error: db down at chatController.js:1") ])
  | _ => Resolved (VObject [("respuestaAsistente", optionalProp body "mensajeUsuario")])
  end.

Definition sample_historial (usuarioId : string) : Settled :=
  if String.eqb usuarioId "boom"
  then Rejected (VString "db down")
  else Resolved (VObject [("de", VString usuarioId)]).

End Rutas.

(* ================================================================== *)
(** * Dates print in ISO-8601 form *)
(* ================================================================== *)

Section DateFacts.
Import JS.

Lemma civil_of_doe_bounds (doe : Z) :
  0 <= doe < 146097 ->
  let '(y, m, d) := civil_of_doe doe in
  0 <= y <= 400 /\ 1 <= m <= 12 /\ 1 <= d <= 31.
Proof.
  intros H. unfold civil_of_doe.
  set (yoe := (doe - doe / 1460 + doe / 36524 - doe / 146096) / 365).
  set (doy := doe - (365 * yoe + yoe / 4 - yoe / 100)).
  assert (Hyoe : 0 <= yoe <= 399) by (subst yoe; Z.div_mod_to_equations; lia).
  assert (Hdoy : 0 <= doy <= 365) by (subst doy yoe; Z.div_mod_to_equations; lia).
  clearbody doy. clearbody yoe.
  set (mp := (5 * doy + 2) / 153).
  assert (Hmp : 0 <= mp <= 11) by (subst mp; Z.div_mod_to_equations; lia).
  assert (Hd : 1 <= doy - (153 * mp + 2) / 5 + 1 <= 31)
    by (subst mp; Z.div_mod_to_equations; lia).
  clearbody mp.
  destruct (mp <? 10) eqn:E1.
  - apply Z.ltb_lt in E1. destruct (mp + 3 <=? 2); lia.
  - apply Z.ltb_ge in E1. destruct (mp - 9 <=? 2); lia.
Qed.

Lemma civil_from_days_bounds (days : Z) :
  - 100000000 <= days <= 100000000 ->
  let '(y, m, d) := civil_from_days days in
  - 999999 <= y <= 999999 /\ 1 <= m <= 12 /\ 1 <= d <= 31.
Proof.
  intros H. unfold civil_from_days.
  pose proof (civil_of_doe_bounds ((days + 719468) mod 146097)
                (Z.mod_pos_bound _ 146097 eq_refl)) as Hb.
  destruct (civil_of_doe ((days + 719468) mod 146097)) as [[y m] d].
  destruct Hb as (Hy & Hm & Hd).
  split; [|split; assumption].
  assert (- 700 <= (days + 719468) / 146097 <= 700)
    by (Z.div_mod_to_equations; lia).
  lia.
Qed.

Lemma digit_code (n : Z) :
  Z.of_nat (nat_of_ascii (digit n)) = 48 + n mod 10.
Proof.
  unfold digit. pose proof (Z.mod_pos_bound n 10 eq_refl) as H.
  rewrite nat_ascii_embedding by lia. lia.
Qed.

Lemma isDigit_digit (n : Z) : isDigit (digit n) = true.
Proof.
  unfold isDigit. rewrite digit_code.
  pose proof (Z.mod_pos_bound n 10 eq_refl) as H.
  apply andb_true_iff. split; apply Z.leb_le; lia.
Qed.

Lemma digitVal_digit (n : Z) : digitVal (digit n) = n mod 10.
Proof. unfold digitVal. rewrite digit_code. lia. Qed.

Lemma twoDigits_pad (n lo hi : Z) :
  0 <= n < 100 -> lo <= n <= hi ->
  twoDigits (digit (n / 10)) (digit n) lo hi = true.
Proof.
  intros Hn Hr. unfold twoDigits.
  rewrite !isDigit_digit, !digitVal_digit.
  replace (10 * ((n / 10) mod 10) + n mod 10) with n
    by (Z.div_mod_to_equations; lia).
  cbn [andb]. apply andb_true_iff. split; apply Z.leb_le; lia.
Qed.

Lemma isoRest_ok (m d h i sec f : Z) :
  1 <= m <= 12 -> 1 <= d <= 31 -> 0 <= h <= 23 -> 0 <= i <= 59 -> 0 <= sec <= 59 ->
  isoRest
    (list_ascii_of_string
       (String "-" (pad2 m
       (String "-" (pad2 d
       (String "T" (pad2 h
       (String ":" (pad2 i
       (String ":" (pad2 sec
       (String "." (pad3 f "Z"))))))))))))) = true.
Proof.
  intros Hm Hd Hh Hi Hs.
  cbn [list_ascii_of_string pad2 pad3 isoRest].
  rewrite !twoDigits_pad, !isDigit_digit by lia.
  reflexivity.
Qed.

(** Every valid date prints as an ISO-8601 string. *)
Lemma toISOString_isISO8601 (t : TimeValue) : isISO8601 (toISOString t) = true.
Proof.
  destruct t as [ms Hvalid]. unfold toISOString. cbn [JS.ms].
  apply Z.leb_le in Hvalid.
  assert (Hdays : - 100000000 <= ms / 86400000 <= 100000000)
    by (Z.div_mod_to_equations; lia).
  pose proof (civil_from_days_bounds _ Hdays) as Hb.
  destruct (civil_from_days (ms / 86400000)) as [[y m] d].
  destruct Hb as (Hy & Hm & Hd).
  pose proof (Z.mod_pos_bound ms 86400000 eq_refl) as Hday.
  set (msInDay := ms mod 86400000) in *.
  assert (Hh : 0 <= msInDay / 3600000 <= 23) by (Z.div_mod_to_equations; lia).
  assert (Hi : 0 <= msInDay / 60000 mod 60 <= 59) by (Z.div_mod_to_equations; lia).
  assert (Hs : 0 <= msInDay / 1000 mod 60 <= 59) by (Z.div_mod_to_equations; lia).
  pose proof (isoRest_ok m d _ _ _ (msInDay mod 1000) Hm Hd Hh Hi Hs) as Hrest.
  unfold isISO8601, isoYear.
  destruct ((0 <=? y) && (y <=? 9999)).
  - cbn [pad4 pad3 pad2 list_ascii_of_string].
    rewrite !isDigit_digit. cbn [andb]. exact Hrest.
  - destruct (y <? 0).
    + cbn [pad6 pad4 pad3 pad2 list_ascii_of_string].
      change (isDigit "-") with false. cbv iota.
      rewrite !isDigit_digit. cbn [andb]. exact Hrest.
    + cbn [pad6 pad4 pad3 pad2 list_ascii_of_string].
      change (isDigit "+") with false. cbv iota.
      rewrite !isDigit_digit. cbn [andb]. exact Hrest.
Qed.

End DateFacts.

(* ================================================================== *)
(** * Properties of the authentication middleware *)
(* ================================================================== *)

Section AuthFacts.
Import JS Auth.

Variable jwt_verify : string -> string -> VerifyResult.
Variable keys : list string.

(** [keys.includes(k)] is membership. *)
Lemma includes_In (k : string) :
  existsb (String.eqb k) keys = true <-> In k keys.
Proof.
  rewrite existsb_exists. split.
  - intros [x [Hin Heq]]. apply String.eqb_eq in Heq. now subst.
  - intros Hin. exists k. split; [assumption | apply String.eqb_refl].
Qed.

Lemma string_truthy_nonempty (s : string) :
  s <> "" -> string_truthy s = true.
Proof. destruct s; [congruence | reflexivity]. Qed.

(** With a non-empty [X-API-KEY] the middleware returns from its first
    branch. *)
Lemma apiKey_branch (env : ProcessEnv) (now : TimeValue) (req : Request) (k : string) :
  header req "X-API-KEY" = Some k ->
  k <> "" ->
  authenticateRequest jwt_verify keys env now req =
    if existsb (String.eqb k) keys
    then Next (VObject [("method", VString "apiKey"); ("apiKey", VString k)])
    else Respond 401 (errorBody 401 "API Key inválida." now).
Proof.
  intros Hk Hne. unfold authenticateRequest.
  rewrite Hk, (string_truthy_nonempty k Hne). reflexivity.
Qed.

(** Without a usable [X-API-KEY] the decision is left to the
    [Authorization] header. *)
Lemma no_apiKey_branch (env : ProcessEnv) (now : TimeValue) (req : Request) :
  opt_truthy (header req "X-API-KEY") = false ->
  authenticateRequest jwt_verify keys env now req =
    match header req "Authorization" with
    | Some h => if startsWith h "Bearer " then verifyBearer jwt_verify env now h
                else accessDenied now
    | None => accessDenied now
    end.
Proof.
  intros Hk. unfold authenticateRequest.
  destruct (header req "X-API-KEY") as [k|]; [|reflexivity].
  simpl in Hk. rewrite Hk. reflexivity.
Qed.

Lemma bearer_verified
    (env : ProcessEnv) (now : TimeValue) (h token secret : string) :
  nth_error (split " " h) 1 = Some token -> token <> "" ->
  env_JWT_SECRET env = Some secret -> secret <> "" ->
  verifyBearer jwt_verify env now h =
    match jwt_verify token secret with
    | Verified decoded =>
        Next (VObject [("method", VString "jwt"); ("user", decoded)])
    | VerifyThrows name _ =>
        Respond 401
          (errorBody 401
             (if String.eqb name "TokenExpiredError" then
                "Token expirado. Por favor, vuelva a autenticarse."
              else if String.eqb name "JsonWebTokenError" then
                "Token JWT mal formado o inválido."
              else "Token inválido.") now)
    end.
Proof.
  intros Ht Hne Hs Hsne. unfold verifyBearer.
  rewrite Ht, Hs, (string_truthy_nonempty _ Hne), (string_truthy_nonempty _ Hsne).
  reflexivity.
Qed.

End AuthFacts.

(** Once the module is loaded, [process.env.JWT_SECRET] is set. *)
Lemma loaded_secret_available (env0 env1 : Auth.ProcessEnv) (keys : list string) :
  Auth.loadModule env0 = Auth.Loaded keys env1 ->
  JS.opt_truthy (Auth.env_JWT_SECRET env1) = true /\ keys = Auth.API_KEYS env0.
Proof.
  unfold Auth.loadModule. intros H.
  destruct (JS.opt_truthy (Auth.env_JWT_SECRET env0)) eqn:Ht; simpl in H.
  - destruct (Auth.opt_eqb (Auth.env_JWT_SECRET env0) Auth.DEFAULT_DEV_JWT_SECRET);
      [destruct (Auth.opt_eqb (Auth.env_NODE_ENV env0) "production"); [discriminate|]|];
      injection H as <- <-; auto.
  - destruct (Auth.opt_eqb (Auth.env_NODE_ENV env0) "production"); [discriminate|].
    injection H as <- <-. auto.
Qed.

(** The whitelist holds no empty key. *)
Lemma API_KEYS_nonempty (env : Auth.ProcessEnv) (k : string) :
  In k (Auth.API_KEYS env) -> k <> "".
Proof.
  unfold Auth.API_KEYS. destruct (Auth.env_API_KEYS env); [|intros []].
  intros H. apply filter_In in H. destruct H as [_ H]. intros ->. discriminate.
Qed.

(** C1 (as amended): for every request whose X-API-KEY header is present
    with a non-empty value, the whitelist being the one computed from the
    environment when the module was loaded ([env0]; the environment [env]
    at the time of the request plays no part): a key of the whitelist
    makes the middleware attach [{method: "apiKey", apiKey}] and proceed;
    any other key is rejected with 401 and the message
    "API Key inválida.".  A header that is present with an empty value is
    treated as if it were absent: the request has the outcome of the
    request without the header and with the same Authorization header. *)
Theorem apiKey_decides_when_nonempty
    (jwt_verify : string -> string -> Auth.VerifyResult)
    (env0 env : Auth.ProcessEnv) (now : JS.TimeValue) :
  (forall (req : Auth.Request) (k : string),
      Auth.header req "X-API-KEY" = Some k ->
      k <> "" ->
      (In k (Auth.API_KEYS env0) ->
         Auth.authenticateRequest jwt_verify (Auth.API_KEYS env0) env now req =
           Auth.Next (JS.VObject [("method", JS.VString "apiKey");
                                  ("apiKey", JS.VString k)]))
      /\
      (~ In k (Auth.API_KEYS env0) ->
         Auth.authenticateRequest jwt_verify (Auth.API_KEYS env0) env now req =
           Auth.Respond 401 (Auth.errorBody 401 "API Key inválida." now)))
  /\
  (forall req req' : Auth.Request,
      Auth.header req "X-API-KEY" = Some "" ->
      Auth.header req' "X-API-KEY" = None ->
      Auth.header req "Authorization" = Auth.header req' "Authorization" ->
      Auth.authenticateRequest jwt_verify (Auth.API_KEYS env0) env now req =
        Auth.authenticateRequest jwt_verify (Auth.API_KEYS env0) env now req').
Proof.
  split.
  - intros req k Hk Hne.
    rewrite (apiKey_branch jwt_verify _ env now req k Hk Hne).
    split; intros Hin.
    + apply includes_In in Hin. now rewrite Hin.
    + destruct (existsb (String.eqb k) (Auth.API_KEYS env0)) eqn:E; [|reflexivity].
      apply includes_In in E. contradiction.
  - intros req req' Hk Hk' Ha.
    rewrite (no_apiKey_branch jwt_verify _ env now req) by (rewrite Hk; reflexivity).
    rewrite (no_apiKey_branch jwt_verify _ env now req') by (rewrite Hk'; reflexivity).
    rewrite Ha. reflexivity.
Qed.

Lemma apiKey_decides_when_nonempty_witness :
  let req := Auth.mkRequest [("x-api-key", "validkey123")] in
  let req' := Auth.mkRequest [("x-api-key", "guess")] in
  let empty := Auth.mkRequest [("x-api-key", ""); ("authorization", "Bearer good")] in
  let absent := Auth.mkRequest [("authorization", "Bearer good")] in
  Auth.header req "X-API-KEY" = Some "validkey123" /\
  Auth.header req' "X-API-KEY" = Some "guess" /\
  Auth.authenticateRequest Auth.sample_verify (Auth.API_KEYS Auth.sample_env)
    Auth.sample_env Auth.epoch req =
  Auth.Next (JS.VObject [("method", JS.VString "apiKey");
                         ("apiKey", JS.VString "validkey123")]) /\
  Auth.authenticateRequest Auth.sample_verify (Auth.API_KEYS Auth.sample_env)
    Auth.sample_env Auth.epoch req' =
  Auth.Respond 401 (Auth.errorBody 401 "API Key inválida." Auth.epoch) /\
  Auth.authenticateRequest Auth.sample_verify (Auth.API_KEYS Auth.sample_env)
    Auth.sample_env Auth.epoch empty =
  Auth.authenticateRequest Auth.sample_verify (Auth.API_KEYS Auth.sample_env)
    Auth.sample_env Auth.epoch absent.
Proof.
  destruct (apiKey_decides_when_nonempty Auth.sample_verify
              Auth.sample_env Auth.sample_env Auth.epoch) as [Hkey Hempty].
  split; [reflexivity|]. split; [reflexivity|]. split; [|split].
  - apply (Hkey (Auth.mkRequest [("x-api-key", "validkey123")]) "validkey123").
    + reflexivity.
    + discriminate.
    + simpl. left. reflexivity.
  - apply (Hkey (Auth.mkRequest [("x-api-key", "guess")]) "guess").
    + reflexivity.
    + discriminate.
    + simpl. intros [H|[H|[]]]; discriminate.
  - apply Hempty; reflexivity.
Defined.

(** C1, the case that fails: an X-API-KEY header that is present with an
    empty value is not in the whitelist, and yet the request is not
    rejected with 401: the middleware goes on to the Authorization
    header and, there being none, answers 403. *)
Lemma apiKey_present_but_empty :
  let req := Auth.mkRequest [("x-api-key", "")] in
  let keys := Auth.API_KEYS Auth.sample_env in
  Auth.header req "X-API-KEY" = Some "" /\
  ~ In "" keys /\
  Auth.authenticateRequest Auth.sample_verify keys Auth.sample_env Auth.epoch req =
    Auth.accessDenied Auth.epoch /\
  Auth.authenticateRequest Auth.sample_verify keys Auth.sample_env Auth.epoch req <>
    Auth.Respond 401 (Auth.errorBody 401 "API Key inválida." Auth.epoch).
Proof.
  repeat split.
  - intros H. apply API_KEYS_nonempty in H. congruence.
  - discriminate.
Qed.

(** C2: the module being loaded, and the environment being the one the
    load left (so that the secret is there): for every request without an
    X-API-KEY header whose Authorization header is [Bearer <token>] with a
    non-empty token: when the verification fails by expiry the request is
    rejected with 401 and the message of the expired token; when it fails
    as malformed or badly signed it is rejected with 401 and the message
    of the malformed token; the two messages differ.  And every request
    with neither credential (no X-API-KEY header, and no Authorization
    header that starts with "Bearer ") is rejected with 403. *)
Theorem bearer_failures_and_no_credentials
    (jwt_verify : string -> string -> Auth.VerifyResult)
    (env0 env : Auth.ProcessEnv) (keys : list string) (now : JS.TimeValue) :
  Auth.loadModule env0 = Auth.Loaded keys env ->
  (forall (req : Auth.Request) (h token secret message : string),
      Auth.header req "X-API-KEY" = None ->
      Auth.header req "Authorization" = Some h ->
      JS.startsWith h "Bearer " = true ->
      nth_error (JS.split " " h) 1 = Some token -> token <> "" ->
      Auth.env_JWT_SECRET env = Some secret ->
      (jwt_verify token secret = Auth.VerifyThrows "TokenExpiredError" message ->
         Auth.authenticateRequest jwt_verify keys env now req =
           Auth.Respond 401
             (Auth.errorBody 401 "Token expirado. Por favor, vuelva a autenticarse." now))
      /\
      (jwt_verify token secret = Auth.VerifyThrows "JsonWebTokenError" message ->
         Auth.authenticateRequest jwt_verify keys env now req =
           Auth.Respond 401
             (Auth.errorBody 401 "Token JWT mal formado o inválido." now)))
  /\
  Auth.errorBody 401 "Token expirado. Por favor, vuelva a autenticarse." now <>
    Auth.errorBody 401 "Token JWT mal formado o inválido." now
  /\
  (forall req : Auth.Request,
      Auth.header req "X-API-KEY" = None ->
      (forall h, Auth.header req "Authorization" = Some h ->
                 JS.startsWith h "Bearer " = false) ->
      Auth.authenticateRequest jwt_verify keys env now req =
        Auth.Respond 403
          (Auth.errorBody 403
             "Acceso denegado. Proporcione una API Key válida o un token JWT en el encabezado 'Authorization'."
             now)).
Proof.
  intros Hload. apply loaded_secret_available in Hload. destruct Hload as [Hsecret _].
  split; [|split].
  - intros req h token secret message Hk Ha Hb Ht Hne Hs.
    assert (Hsne : secret <> "").
    { rewrite Hs in Hsecret. intros ->. discriminate Hsecret. }
    rewrite (no_apiKey_branch jwt_verify keys env now req)
      by (rewrite Hk; reflexivity).
    rewrite Ha, Hb.
    rewrite (bearer_verified jwt_verify env now h token secret Ht Hne Hs Hsne).
    split; intros Hv; rewrite Hv; reflexivity.
  - unfold Auth.errorBody. intros H. injection H as H. discriminate H.
  - intros req Hk Ha.
    rewrite (no_apiKey_branch jwt_verify keys env now req)
      by (rewrite Hk; reflexivity).
    destruct (Auth.header req "Authorization") as [h|]; [|reflexivity].
    rewrite (Ha h eq_refl). reflexivity.
Qed.

Lemma bearer_failures_and_no_credentials_witness :
  let old := Auth.mkRequest [("authorization", "Bearer old")] in
  let bad := Auth.mkRequest [("authorization", "Bearer x.y.z")] in
  let basic := Auth.mkRequest [("authorization", "Basic dTE6cHc=")] in
  let keys := Auth.API_KEYS Auth.sample_env in
  Auth.loadModule Auth.sample_env = Auth.Loaded keys Auth.sample_env /\
  Auth.authenticateRequest Auth.sample_verify keys Auth.sample_env Auth.epoch old =
    Auth.Respond 401
      (Auth.errorBody 401 "Token expirado. Por favor, vuelva a autenticarse." Auth.epoch)
  /\
  Auth.authenticateRequest Auth.sample_verify keys Auth.sample_env Auth.epoch bad =
    Auth.Respond 401
      (Auth.errorBody 401 "Token JWT mal formado o inválido." Auth.epoch)
  /\
  Auth.authenticateRequest Auth.sample_verify keys Auth.sample_env Auth.epoch basic =
    Auth.Respond 403
      (Auth.errorBody 403
         "Acceso denegado. Proporcione una API Key válida o un token JWT en el encabezado 'Authorization'."
         Auth.epoch).
Proof.
  split; [reflexivity|].
  destruct (bearer_failures_and_no_credentials Auth.sample_verify
              Auth.sample_env Auth.sample_env
              (Auth.API_KEYS Auth.sample_env) Auth.epoch eq_refl)
    as [Hbearer [_ Hnone]].
  split; [|split].
  - apply (Hbearer (Auth.mkRequest [("authorization", "Bearer old")])
             "Bearer old" "old" "s3cret" "jwt expired");
      try reflexivity; discriminate.
  - apply (Hbearer (Auth.mkRequest [("authorization", "Bearer x.y.z")])
             "Bearer x.y.z" "x.y.z" "s3cret" "jwt malformed");
      try reflexivity; discriminate.
  - apply Hnone; [reflexivity|].
    intros h Hh. injection Hh as <-. reflexivity.
Defined.

(** C10 (as amended): for every request whose X-API-KEY header is present
    with a non-empty value, the outcome is that of the API-key branch
    alone: it is the same whatever the other headers (the Authorization
    header among them), the token verifier and the environment; so a key
    outside the whitelist is rejected with 401 even when the request also
    carries a Bearer token that verifies.  A header that is present with
    an empty value is treated as if it were absent, and the Authorization
    header then decides: among the requests whose X-API-KEY header is
    empty or absent, those with the same Authorization header have the
    same outcome, and an empty key with a Bearer token that verifies goes
    through as a JWT request. *)
Theorem apiKey_branch_alone
    (jwt_verify jwt_verify' : string -> string -> Auth.VerifyResult)
    (keys : list string) (env env' : Auth.ProcessEnv) (now : JS.TimeValue) :
  (forall (req req' : Auth.Request) (k : string),
      Auth.header req "X-API-KEY" = Some k ->
      Auth.header req' "X-API-KEY" = Some k ->
      k <> "" ->
      Auth.authenticateRequest jwt_verify keys env now req =
        Auth.authenticateRequest jwt_verify' keys env' now req'
      /\
      (~ In k keys ->
       forall token secret decoded,
         Auth.header req "Authorization" = Some ("Bearer " ++ token)%string ->
         Auth.env_JWT_SECRET env = Some secret ->
         jwt_verify token secret = Auth.Verified decoded ->
         Auth.authenticateRequest jwt_verify keys env now req =
           Auth.Respond 401 (Auth.errorBody 401 "API Key inválida." now)))
  /\
  (forall req req' : Auth.Request,
      Auth.header req "X-API-KEY" = Some "" ->
      (Auth.header req' "X-API-KEY" = Some "" \/ Auth.header req' "X-API-KEY" = None) ->
      Auth.header req "Authorization" = Auth.header req' "Authorization" ->
      Auth.authenticateRequest jwt_verify keys env now req =
        Auth.authenticateRequest jwt_verify keys env now req')
  /\
  (forall (req : Auth.Request) (h token secret : string) (decoded : JS.JSValue),
      Auth.header req "X-API-KEY" = Some "" ->
      Auth.header req "Authorization" = Some h ->
      JS.startsWith h "Bearer " = true ->
      nth_error (JS.split " " h) 1 = Some token -> token <> "" ->
      Auth.env_JWT_SECRET env = Some secret -> secret <> "" ->
      jwt_verify token secret = Auth.Verified decoded ->
      Auth.authenticateRequest jwt_verify keys env now req =
        Auth.Next (JS.VObject [("method", JS.VString "jwt"); ("user", decoded)])).
Proof.
  split; [|split].
  - intros req req' k Hk Hk' Hne.
    rewrite (apiKey_branch jwt_verify keys env now req k Hk Hne).
    rewrite (apiKey_branch jwt_verify' keys env' now req' k Hk' Hne).
    split; [reflexivity|].
    intros Hin _ _ _ _ _ _.
    destruct (existsb (String.eqb k) keys) eqn:E; [|reflexivity].
    apply includes_In in E. contradiction.
  - intros req req' Hk Hk' Ha.
    rewrite (no_apiKey_branch jwt_verify keys env now req) by (rewrite Hk; reflexivity).
    rewrite (no_apiKey_branch jwt_verify keys env now req')
      by (destruct Hk' as [Hk'|Hk']; rewrite Hk'; reflexivity).
    rewrite Ha. reflexivity.
  - intros req h token secret decoded Hk Ha Hb Ht Hne Hs Hsne Hv.
    rewrite (no_apiKey_branch jwt_verify keys env now req) by (rewrite Hk; reflexivity).
    rewrite Ha, Hb.
    rewrite (bearer_verified jwt_verify env now h token secret Ht Hne Hs Hsne), Hv.
    reflexivity.
Qed.

Lemma apiKey_branch_alone_witness :
  let req := Auth.mkRequest [("x-api-key", "guess"); ("authorization", "Bearer good")] in
  let req' := Auth.mkRequest [("x-api-key", "guess")] in
  let empty := Auth.mkRequest [("x-api-key", ""); ("authorization", "Bearer good")] in
  let absent := Auth.mkRequest [("authorization", "Bearer good")] in
  let keys := Auth.API_KEYS Auth.sample_env in
  Auth.sample_verify "good" "s3cret" = Auth.Verified (JS.VObject [("sub", JS.VString "u1")]) /\
  Auth.authenticateRequest Auth.sample_verify keys Auth.sample_env Auth.epoch req =
    Auth.authenticateRequest Auth.sample_verify keys Auth.sample_env Auth.epoch req' /\
  Auth.authenticateRequest Auth.sample_verify keys Auth.sample_env Auth.epoch req =
    Auth.Respond 401 (Auth.errorBody 401 "API Key inválida." Auth.epoch) /\
  Auth.authenticateRequest Auth.sample_verify keys Auth.sample_env Auth.epoch empty =
    Auth.authenticateRequest Auth.sample_verify keys Auth.sample_env Auth.epoch absent /\
  Auth.authenticateRequest Auth.sample_verify keys Auth.sample_env Auth.epoch empty =
    Auth.Next (JS.VObject [("method", JS.VString "jwt");
                           ("user", JS.VObject [("sub", JS.VString "u1")])]).
Proof.
  destruct (apiKey_branch_alone Auth.sample_verify Auth.sample_verify
              (Auth.API_KEYS Auth.sample_env) Auth.sample_env Auth.sample_env Auth.epoch)
    as (Hkey & Hempty & Hjwt).
  destruct (Hkey (Auth.mkRequest [("x-api-key", "guess"); ("authorization", "Bearer good")])
              (Auth.mkRequest [("x-api-key", "guess")]) "guess")
    as [Hsame Hreject].
  - reflexivity.
  - reflexivity.
  - discriminate.
  - split; [reflexivity|]. split; [exact Hsame|]. split; [|split].
    + apply (Hreject) with (token := "good") (secret := "s3cret")
                           (decoded := JS.VObject [("sub", JS.VString "u1")]).
      * simpl. intros [H|[H|[]]]; discriminate.
      * reflexivity.
      * reflexivity.
      * reflexivity.
    + apply Hempty; [reflexivity | right; reflexivity | reflexivity].
    + apply (Hjwt (Auth.mkRequest [("x-api-key", ""); ("authorization", "Bearer good")])
               "Bearer good" "good" "s3cret");
        try reflexivity; discriminate.
Defined.

(** C10, the case that fails: with an X-API-KEY header that is present
    but empty the Authorization header is evaluated: the same empty key
    (which no whitelist holds) is let through with a Bearer token that
    verifies, and answered 403 without one. *)
Lemma empty_apiKey_defers_to_bearer :
  let req := Auth.mkRequest [("x-api-key", ""); ("authorization", "Bearer good")] in
  let req' := Auth.mkRequest [("x-api-key", "")] in
  let keys := Auth.API_KEYS Auth.sample_env in
  Auth.header req "X-API-KEY" = Some "" /\
  Auth.header req' "X-API-KEY" = Some "" /\
  ~ In "" keys /\
  Auth.authenticateRequest Auth.sample_verify keys Auth.sample_env Auth.epoch req =
    Auth.Next (JS.VObject [("method", JS.VString "jwt");
                           ("user", JS.VObject [("sub", JS.VString "u1")])]) /\
  Auth.authenticateRequest Auth.sample_verify keys Auth.sample_env Auth.epoch req' =
    Auth.accessDenied Auth.epoch /\
  Auth.authenticateRequest Auth.sample_verify keys Auth.sample_env Auth.epoch req <>
    Auth.authenticateRequest Auth.sample_verify keys Auth.sample_env Auth.epoch req'.
Proof.
  repeat split.
  - intros H. apply API_KEYS_nonempty in H. congruence.
  - discriminate.
Qed.

(* ================================================================== *)
(** * Properties of the metrics module *)
(* ================================================================== *)

Section MetricsFacts.
Import JS Metrics.

Lemma success_range_iff (n : number) :
  ge n (Int 200) && lt n (Int 400) = true <-> inSuccessRange n.
Proof.
  destruct n as [q| |b]; unfold ge, lt, Int, inSuccessRange.
  - change (inject_Z 200) with 200%Q. change (inject_Z 400) with 400%Q.
    rewrite andb_true_iff, negb_true_iff, Qle_bool_iff.
    split; intros [H1 H2]; (split; [exact H1|]).
    + apply Qnot_le_lt. intros H. apply Qle_bool_iff in H.
      rewrite H in H2. discriminate.
    + apply not_true_is_false. intros H. apply Qle_bool_iff in H.
      exact (Qlt_not_le _ _ H2 H).
  - split; [discriminate | intros []].
  - destruct b; simpl; (split; [discriminate | intros []]).
Qed.

Lemma entrySuccess_logEntry req statusCode d now :
  entrySuccess (logEntry req statusCode d now) =
    ge statusCode (Int 200) && lt statusCode (Int 400).
Proof. reflexivity. Qed.

(** What one run of the listener does to the store. *)
Lemma onFinish_effect st req t0 t1 statusCode now :
  forall st' entry,
  onFinish st req t0 t1 statusCode now = (st', entry) ->
  entry = logEntry req statusCode (Z.quot (t1 - t0) 1000000) now /\
  totalRequests st' = totalRequests st /\
  successfulResponses st' =
    successfulResponses st + (if entrySuccess entry then 1 else 0) /\
  failedResponses st' =
    failedResponses st + (if entrySuccess entry then 0 else 1) /\
  requestLog st' =
    (if Z.of_nat (List.length (requestLog st ++ [entry])) >? MAX_LOG_ENTRIES
     then tl (requestLog st ++ [entry]) else requestLog st ++ [entry]).
Proof.
  intros st' entry H. unfold onFinish in H. injection H as <- <-.
  rewrite entrySuccess_logEntry. cbn [totalRequests successfulResponses failedResponses requestLog].
  destruct (ge statusCode (Int 200) && lt statusCode (Int 400));
    repeat split; try reflexivity; lia.
Qed.

Lemma successes_cons e l :
  successes (e :: l) = (if entrySuccess e then 1 else 0) + successes l.
Proof.
  unfold successes. cbn [filter]. destruct (entrySuccess e); cbn [List.length negb]; lia.
Qed.

Lemma failures_cons e l :
  failures (e :: l) = (if entrySuccess e then 0 else 1) + failures l.
Proof.
  unfold failures. cbn [filter]. destruct (entrySuccess e); cbn [List.length negb]; lia.
Qed.

Lemma successes_app l1 l2 : successes (l1 ++ l2) = successes l1 + successes l2.
Proof. unfold successes. rewrite filter_app, length_app. lia. Qed.

Lemma failures_app l1 l2 : failures (l1 ++ l2) = failures l1 + failures l2.
Proof. unfold failures. rewrite filter_app, length_app. lia. Qed.

Lemma successes_failures l :
  successes l + failures l = Z.of_nat (List.length l).
Proof.
  unfold successes, failures. rewrite <- (filter_length entrySuccess l). lia.
Qed.

Lemma runListeners_counters ls :
  forall st endTime statusCode now st' entries,
  runListeners ls st endTime statusCode now = (st', entries) ->
  totalRequests st' = totalRequests st /\
  successfulResponses st' = successfulResponses st + successes entries /\
  failedResponses st' = failedResponses st + failures entries /\
  List.length entries = List.length ls.
Proof.
  induction ls as [|l ls IH]; intros st endTime statusCode now st' entries H;
    cbn [runListeners] in H.
  - injection H as <- <-. unfold successes, failures. simpl. repeat split; lia.
  - destruct (onFinish st (l_req l) (l_startTime l) endTime statusCode now)
      as [st1 entry] eqn:E1.
    destruct (runListeners ls st1 endTime statusCode now) as [st2 rest] eqn:E2.
    injection H as <- <-.
    apply onFinish_effect in E1. destruct E1 as (_ & Ht & Hs & Hf & _).
    apply IH in E2. destruct E2 as (Ht2 & Hs2 & Hf2 & Hl2).
    rewrite successes_cons, failures_cons. cbn [List.length]. repeat split; lia.
Qed.

Lemma step_counters w e :
  forall w' logged,
  step w e = (w', logged) ->
  totalRequests (store w') = totalRequests (store w) + Z.of_nat (incoming [e]) /\
  successfulResponses (store w') = successfulResponses (store w) + successes logged /\
  failedResponses (store w') = failedResponses (store w) + failures logged /\
  (List.length (listeners w') + List.length logged =
   List.length (listeners w) + incoming [e])%nat.
Proof.
  intros w' logged H. destruct e as [elapsed res req | elapsed res statusCode now];
    cbn [step] in H.
  - injection H as <- <-. unfold metricsMiddleware, incoming, successes, failures.
    simpl. rewrite length_app. simpl. repeat split; lia.
  - unfold emitFinish, tick in H. cbn [store hrtime listeners] in H.
    destruct (runListeners _ (store w) _ statusCode now) as [st entries] eqn:E.
    injection H as <- <-. cbn [store hrtime listeners].
    apply runListeners_counters in E. destruct E as (Ht & Hs & Hf & Hl).
    unfold incoming. simpl. repeat split; try lia.
    rewrite Hl. rewrite <- (filter_length (fun l => Nat.eqb (l_res l) res) (listeners w)).
    lia.
Qed.

Lemma incoming_cons e es : incoming (e :: es) = (incoming [e] + incoming es)%nat.
Proof. unfold incoming. simpl. destruct e; reflexivity. Qed.

Lemma run_counters es :
  forall w w' logged,
  run w es = (w', logged) ->
  totalRequests (store w') = totalRequests (store w) + Z.of_nat (incoming es) /\
  successfulResponses (store w') = successfulResponses (store w) + successes logged /\
  failedResponses (store w') = failedResponses (store w) + failures logged /\
  (List.length (listeners w') + List.length logged =
   List.length (listeners w) + incoming es)%nat.
Proof.
  induction es as [|e es IH]; intros w w' logged H; cbn [run] in H.
  - injection H as <- <-. unfold incoming, successes, failures. simpl.
    repeat split; lia.
  - destruct (step w e) as [w1 logged1] eqn:E1.
    destruct (run w1 es) as [w2 logged2] eqn:E2.
    injection H as <- <-.
    apply step_counters in E1. destruct E1 as (Ht & Hs & Hf & Hl).
    apply IH in E2. destruct E2 as (Ht2 & Hs2 & Hf2 & Hl2).
    rewrite successes_app, failures_app, length_app, incoming_cons.
    repeat split; lia.
Qed.

(** ** The bounded log *)

Lemma tl_skipn {A : Type} (k : nat) (l : list A) : tl (skipn k l) = skipn (S k) l.
Proof.
  revert l. induction k as [|k IH]; intros [|x l]; try reflexivity.
  exact (IH l).
Qed.

Lemma evict_lastn {A : Type} (hist : list A) (e : A) :
  (if Z.of_nat (List.length (lastn 1000 hist ++ [e])) >? MAX_LOG_ENTRIES
   then tl (lastn 1000 hist ++ [e]) else lastn 1000 hist ++ [e])
  = lastn 1000 (hist ++ [e]).
Proof.
  unfold lastn, MAX_LOG_ENTRIES.
  rewrite !length_app, length_skipn, Z.gtb_ltb. cbn [List.length].
  destruct (Nat.le_gt_cases 1000 (List.length hist)) as [Hge|Hlt].
  - replace (1000 <? Z.of_nat (List.length hist - (List.length hist - 1000) + 1))
      with true by (symmetry; apply Z.ltb_lt; lia).
    replace (List.length hist + 1 - 1000)%nat with (S (List.length hist - 1000)) by lia.
    rewrite <- tl_skipn, skipn_app.
    replace (List.length hist - 1000 - List.length hist)%nat with O by lia.
    reflexivity.
  - replace (1000 <? Z.of_nat (List.length hist - (List.length hist - 1000) + 1))
      with false by (symmetry; apply Z.ltb_ge; lia).
    replace (List.length hist - 1000)%nat with O by lia.
    replace (List.length hist + 1 - 1000)%nat with O by lia.
    reflexivity.
Qed.

Lemma runListeners_log ls :
  forall st endTime statusCode now st' entries hist,
  requestLog st = lastn 1000 hist ->
  runListeners ls st endTime statusCode now = (st', entries) ->
  requestLog st' = lastn 1000 (hist ++ entries).
Proof.
  induction ls as [|l ls IH]; intros st endTime statusCode now st' entries hist Hlog H;
    cbn [runListeners] in H.
  - injection H as <- <-. now rewrite app_nil_r.
  - destruct (onFinish st (l_req l) (l_startTime l) endTime statusCode now)
      as [st1 entry] eqn:E1.
    destruct (runListeners ls st1 endTime statusCode now) as [st2 rest] eqn:E2.
    injection H as <- <-.
    apply onFinish_effect in E1. destruct E1 as (_ & _ & _ & _ & Hl).
    rewrite Hlog, evict_lastn in Hl.
    rewrite (IH _ _ _ _ _ _ _ Hl E2), <- app_assoc. reflexivity.
Qed.

Lemma run_log es :
  forall w w' logged hist,
  requestLog (store w) = lastn 1000 hist ->
  run w es = (w', logged) ->
  requestLog (store w') = lastn 1000 (hist ++ logged).
Proof.
  induction es as [|e es IH]; intros w w' logged hist Hlog H; cbn [run] in H.
  - injection H as <- <-. now rewrite app_nil_r.
  - destruct (step w e) as [w1 logged1] eqn:E1.
    destruct (run w1 es) as [w2 logged2] eqn:E2.
    injection H as <- <-.
    assert (H1 : requestLog (store w1) = lastn 1000 (hist ++ logged1)).
    { destruct e as [elapsed res req | elapsed res statusCode now]; cbn [step] in E1.
      - injection E1 as <- <-. rewrite app_nil_r. exact Hlog.
      - unfold emitFinish, tick in E1. cbn [store hrtime listeners] in E1.
        destruct (runListeners _ (store w) _ statusCode now) as [st entries] eqn:E.
        injection E1 as <- <-. cbn [store].
        exact (runListeners_log _ _ _ _ _ _ _ _ Hlog E). }
    rewrite (IH _ _ _ _ H1 E2), <- app_assoc. reflexivity.
Qed.

Lemma lastn_length {A : Type} (n : nat) (l : list A) :
  (List.length (lastn n l) <= n)%nat.
Proof. unfold lastn. rewrite length_skipn. lia. Qed.

(** ** The entries *)

Lemma logEntry_wellFormed req statusCode startTime endTime now :
  startTime <= endTime ->
  wellFormedEntry (logEntry req statusCode (Z.quot (endTime - startTime) 1000000) now).
Proof.
  intros H. exists (method req), (originalUrl req), (toISOString now), statusCode,
    (Z.quot (endTime - startTime) 1000000).
  split; [reflexivity|]. split.
  - apply Z.quot_pos; lia.
  - apply toISOString_isISO8601.
Qed.

Lemma runListeners_entries ls :
  forall st endTime statusCode now st' entries,
  Forall (fun l => l_startTime l <= endTime) ls ->
  runListeners ls st endTime statusCode now = (st', entries) ->
  Forall wellFormedEntry entries /\
  Forall (fun e => prop "timestamp" e = Some (VString (toISOString now)) /\
                   prop "status" e = Some (VNumber statusCode)) entries.
Proof.
  induction ls as [|l ls IH]; intros st endTime statusCode now st' entries Hc H;
    cbn [runListeners] in H.
  - injection H as <- <-. split; constructor.
  - destruct (onFinish st (l_req l) (l_startTime l) endTime statusCode now)
      as [st1 entry] eqn:E1.
    destruct (runListeners ls st1 endTime statusCode now) as [st2 rest] eqn:E2.
    injection H as <- <-. inversion Hc as [|? ? Hl Hrest]; subst.
    apply onFinish_effect in E1. destruct E1 as (-> & _).
    destruct (IH _ _ _ _ _ _ Hrest E2) as [IH1 IH2].
    split; constructor; try assumption.
    + now apply logEntry_wellFormed.
    + split; reflexivity.
Qed.

Lemma Forall_filter {A : Type} (P : A -> Prop) (f : A -> bool) (l : list A) :
  Forall P l -> Forall P (filter f l).
Proof.
  intros H. apply Forall_forall. intros x Hx. apply filter_In in Hx.
  rewrite Forall_forall in H. apply H, Hx.
Qed.

Lemma tick_clockInv w elapsed : clockInv w -> clockInv (tick w elapsed).
Proof.
  unfold clockInv, tick. cbn [listeners hrtime]. intros H.
  eapply Forall_impl; [|exact H]. cbn beta. intros l Hl. lia.
Qed.

Lemma step_entries w e :
  forall w' logged,
  clockInv w ->
  step w e = (w', logged) ->
  clockInv w' /\ Forall wellFormedEntry logged.
Proof.
  intros w' logged Hc H. apply (tick_clockInv w
    match e with Incoming el _ _ => el | Finish el _ _ _ => el end) in Hc.
  destruct e as [elapsed res req | elapsed res statusCode now]; cbn [step] in H.
  - injection H as <- <-. split; [|constructor].
    unfold clockInv, metricsMiddleware. cbn [listeners hrtime].
    apply Forall_app. split; [exact Hc|].
    constructor; [cbn; lia | constructor].
  - unfold emitFinish in H.
    destruct (runListeners _ (store (tick w elapsed)) _ statusCode now)
      as [st entries] eqn:E.
    injection H as <- <-. split.
    + unfold clockInv. cbn [listeners hrtime]. apply Forall_filter. exact Hc.
    + eapply runListeners_entries; [|exact E]. apply Forall_filter. exact Hc.
Qed.

Lemma run_entries es :
  forall w w' logged,
  clockInv w ->
  run w es = (w', logged) ->
  clockInv w' /\ Forall wellFormedEntry logged.
Proof.
  induction es as [|e es IH]; intros w w' logged Hc H; cbn [run] in H.
  - injection H as <- <-. split; [exact Hc | constructor].
  - destruct (step w e) as [w1 logged1] eqn:E1.
    destruct (run w1 es) as [w2 logged2] eqn:E2.
    injection H as <- <-.
    destruct (step_entries _ _ _ _ Hc E1) as [Hc1 Hw1].
    destruct (IH _ _ _ Hc1 E2) as [Hc2 Hw2].
    split; [exact Hc2|]. apply Forall_app. split; assumption.
Qed.

Lemma reachable_clockInv es w logged :
  run initial es = (w, logged) -> clockInv w /\ Forall wellFormedEntry logged.
Proof.
  intros H. apply (run_entries es initial w logged); [constructor | exact H].
Qed.

End MetricsFacts.

(** C3: for every sequence of requests that have all completed (no
    listener is left waiting), with N the number of requests:
    [successfulResponses + failedResponses = N = totalRequests]; the
    completions whose status code lies in [200,400) are the ones counted
    in [successfulResponses], all the others are counted in
    [failedResponses]; and one completion increments exactly one of the
    two, according to its status code. *)
Theorem counters_balance_after_completion
    (es : list Metrics.Event) (w : Metrics.World) (logged : list JS.JSValue) :
  Metrics.run Metrics.initial es = (w, logged) ->
  Metrics.listeners w = [] ->
  let N := Z.of_nat (Metrics.incoming es) in
  let st := Metrics.store w in
  Metrics.successfulResponses st + Metrics.failedResponses st = N
  /\ N = Metrics.totalRequests st
  /\ Z.of_nat (List.length logged) = N
  /\ Metrics.successfulResponses st = Metrics.successes logged
  /\ Metrics.failedResponses st = Metrics.failures logged
  /\ (forall st0 req t0 t1 statusCode now,
        let st1 := fst (Metrics.onFinish st0 req t0 t1 statusCode now) in
        (Metrics.inSuccessRange statusCode ->
           Metrics.successfulResponses st1 = Metrics.successfulResponses st0 + 1 /\
           Metrics.failedResponses st1 = Metrics.failedResponses st0)
        /\
        (~ Metrics.inSuccessRange statusCode ->
           Metrics.successfulResponses st1 = Metrics.successfulResponses st0 /\
           Metrics.failedResponses st1 = Metrics.failedResponses st0 + 1)).
Proof.
  intros Hrun Hdone N st.
  destruct (run_counters es _ _ _ Hrun) as (Ht & Hs & Hf & Hl).
  rewrite Hdone in Hl. cbn in Ht, Hs, Hf, Hl.
  pose proof (successes_failures logged) as Hsf.
  subst N st.
  split; [lia|]. split; [lia|]. split; [lia|]. split; [lia|]. split; [lia|].
  intros st0 req t0 t1 statusCode now st1. subst st1. cbn.
  destruct (JS.ge statusCode (JS.Int 200) && JS.lt statusCode (JS.Int 400)) eqn:E.
  - split; [intros _; split; reflexivity|].
    intros Hout. apply success_range_iff in E. contradiction.
  - split; [|intros _; split; reflexivity].
    intros Hin. apply success_range_iff in Hin. congruence.
Qed.

Lemma counters_balance_after_completion_witness :
  let st := Metrics.store (fst Metrics.sample_run) in
  Metrics.listeners (fst Metrics.sample_run) = [] /\
  Z.of_nat (Metrics.incoming Metrics.sample_trace) = 3 /\
  Metrics.successfulResponses st = 2 /\
  Metrics.failedResponses st = 1 /\
  Metrics.successfulResponses st + Metrics.failedResponses st =
    Z.of_nat (Metrics.incoming Metrics.sample_trace) /\
  Z.of_nat (Metrics.incoming Metrics.sample_trace) = Metrics.totalRequests st.
Proof.
  assert (Hrun : Metrics.run Metrics.initial Metrics.sample_trace =
                 (fst Metrics.sample_run, snd Metrics.sample_run))
    by (vm_compute; reflexivity).
  assert (Hdone : Metrics.listeners (fst Metrics.sample_run) = [])
    by (vm_compute; reflexivity).
  destruct (counters_balance_after_completion _ _ _ Hrun Hdone) as (H1 & H2 & _).
  split; [exact Hdone|].
  split; [vm_compute; reflexivity|].
  split; [vm_compute; reflexivity|].
  split; [vm_compute; reflexivity|].
  split; [exact H1 | exact H2].
Defined.

(** C4: after every sequence of events the log holds at most 1000
    entries; it holds the last 1000 of the entries logged so far, in the
    order they were logged; so once 1001 entries have been appended it
    holds the most recent 1000, the oldest being the one dropped. *)
Theorem requestLog_bounded_fifo
    (es : list Metrics.Event) (w : Metrics.World) (logged : list JS.JSValue) :
  Metrics.run Metrics.initial es = (w, logged) ->
  let log := Metrics.requestLog (Metrics.store w) in
  (List.length log <= 1000)%nat
  /\ log = Metrics.lastn 1000 logged
  /\ (List.length logged = 1001%nat ->
       log = tl logged /\ List.length log = 1000%nat).
Proof.
  intros Hrun log.
  assert (Hlog : log = Metrics.lastn 1000 logged).
  { subst log. exact (run_log es Metrics.initial w logged [] eq_refl Hrun). }
  split; [|split].
  - rewrite Hlog. apply lastn_length.
  - exact Hlog.
  - intros H1001. rewrite Hlog. unfold Metrics.lastn. rewrite H1001.
    change (1001 - 1000)%nat with 1%nat. split.
    + destruct logged; reflexivity.
    + rewrite length_skipn, H1001. reflexivity.
Qed.

Lemma requestLog_bounded_fifo_witness :
  let log := Metrics.requestLog (Metrics.store (fst Metrics.sample_run)) in
  List.length (snd Metrics.sample_run) = 3%nat /\
  (List.length log <= 1000)%nat /\
  log = Metrics.lastn 1000 (snd Metrics.sample_run).
Proof.
  assert (Hrun : Metrics.run Metrics.initial Metrics.sample_trace =
                 (fst Metrics.sample_run, snd Metrics.sample_run))
    by (vm_compute; reflexivity).
  destruct (requestLog_bounded_fifo _ _ _ Hrun) as (Hle & Hlast & _).
  split; [vm_compute; reflexivity|].
  split; [exact Hle | exact Hlast].
Defined.

(** The log on 1001 requests run one after the other: the entry of the
    first request is gone, the 1000 others are there in their order. *)
Example requestLog_after_1001 :
  let r := Metrics.run Metrics.initial (Metrics.burst 1001) in
  List.length (snd r) = 1001%nat /\
  Metrics.requestLog (Metrics.store (fst r)) = tl (snd r) /\
  List.length (Metrics.requestLog (Metrics.store (fst r))) = 1000%nat.
Proof. vm_compute. repeat split. Qed.

(** C9 (as amended): in every run, the entries logged and the requests
    still in flight add up to the requests that came in: a request has
    no entry until its response finishes and exactly one afterwards.
    The entry is created when the response finishes: a request coming in
    logs nothing and leaves the log as it is, while a response that
    finishes logs one entry per listener registered on it, with the
    status code and the date of that moment.  Every entry has exactly the
    properties [method], [path], [status], [durationMs], [timestamp] (the
    status code is the property [status]), with a duration that is not
    negative and an ISO-8601 timestamp. *)
Theorem one_logEntry_per_completion
    (es : list Metrics.Event) (w : Metrics.World) (logged : list JS.JSValue) :
  Metrics.run Metrics.initial es = (w, logged) ->
  (List.length logged + List.length (Metrics.listeners w) = Metrics.incoming es)%nat
  /\ Forall Metrics.wellFormedEntry logged
  /\ Forall (fun e => JS.shape e =
                       ["method"; "path"; "status"; "durationMs"; "timestamp"]) logged
  /\ (forall elapsed res req,
        let '(w', logged') := Metrics.step w (Metrics.Incoming elapsed res req) in
        logged' = [] /\
        Metrics.requestLog (Metrics.store w') = Metrics.requestLog (Metrics.store w))
  /\ (forall elapsed res statusCode now,
        let '(w', logged') := Metrics.step w (Metrics.Finish elapsed res statusCode now) in
        List.length logged' =
          List.length (filter (fun l => Nat.eqb (Metrics.l_res l) res) (Metrics.listeners w))
        /\ Forall Metrics.wellFormedEntry logged'
        /\ Forall (fun e =>
                     JS.prop "timestamp" e = Some (JS.VString (JS.toISOString now)) /\
                     JS.prop "status" e = Some (JS.VNumber statusCode)) logged').
Proof.
  intros Hrun.
  destruct (run_counters es _ _ _ Hrun) as (_ & _ & _ & Hl).
  destruct (reachable_clockInv es w logged Hrun) as [Hc Hwf].
  split; [cbn in Hl; lia|]. split; [exact Hwf|]. split; [|split].
  - eapply Forall_impl; [|exact Hwf].
    intros e (m & p & t & sc & d & -> & _). reflexivity.
  - intros elapsed res req. cbn. split; reflexivity.
  - intros elapsed res statusCode now. cbn [Metrics.step].
    unfold Metrics.emitFinish.
    destruct (Metrics.runListeners _ (Metrics.store (Metrics.tick w elapsed)) _ statusCode now)
      as [st entries] eqn:E.
    destruct (runListeners_counters _ _ _ _ _ _ _ E) as (_ & _ & _ & Hlen).
    split; [exact Hlen|].
    eapply runListeners_entries; [|exact E].
    apply Forall_filter. apply (tick_clockInv w elapsed Hc).
Qed.

Lemma one_logEntry_per_completion_witness :
  (List.length (snd Metrics.sample_run)
   + List.length (Metrics.listeners (fst Metrics.sample_run))
   = Metrics.incoming Metrics.sample_trace)%nat /\
  Metrics.incoming Metrics.sample_trace = 3%nat /\
  List.length (snd Metrics.sample_run) = 3%nat /\
  Forall Metrics.wellFormedEntry (snd Metrics.sample_run).
Proof.
  assert (Hrun : Metrics.run Metrics.initial Metrics.sample_trace =
                 (fst Metrics.sample_run, snd Metrics.sample_run))
    by (vm_compute; reflexivity).
  destruct (one_logEntry_per_completion _ _ _ Hrun) as (Hcount & Hwf & _).
  split; [exact Hcount|].
  split; [vm_compute; reflexivity|].
  split; [vm_compute; reflexivity|].
  exact Hwf.
Defined.

(** C9, the case that fails: the entries of the log have no property
    [statusCode]; the status code is stored under [status]. *)
Lemma logEntry_has_no_statusCode :
  map JS.shape (snd Metrics.sample_run) =
    repeat ["method"; "path"; "status"; "durationMs"; "timestamp"] 3
  /\ ~ In ["method"; "path"; "statusCode"; "durationMs"; "timestamp"]
          (map JS.shape (snd Metrics.sample_run))
  /\ map (JS.prop "statusCode") (snd Metrics.sample_run) = [None; None; None]
  /\ map (JS.prop "status") (snd Metrics.sample_run) =
       [Some (JS.VNumber (JS.Int 400)); Some (JS.VNumber (JS.Int 200));
        Some (JS.VNumber (JS.Int 304))].
Proof.
  assert (H : map JS.shape (snd Metrics.sample_run) =
              repeat ["method"; "path"; "status"; "durationMs"; "timestamp"] 3)
    by (vm_compute; reflexivity).
  split; [exact H|]. split; [|split; vm_compute; reflexivity].
  rewrite H. cbn [repeat]. intros [E|[E|[E|[]]]]; discriminate E.
Qed.

(* ================================================================== *)
(** * The last requests *)
(* ================================================================== *)

Section LastRequestsFacts.
Import JS Metrics.

(** [slice(-k)] keeps the last [k] elements. *)
Lemma slice_neg_Int {A : Type} (k : Z) (l : list A) :
  0 < k -> slice (neg (Int k)) l = lastn (Z.to_nat k) l.
Proof.
  intros Hk. unfold slice, neg, Int, truncate, lastn, inject_Z, Qopp.
  cbn [Qnum Qden]. rewrite Z.quot_1_r.
  replace (- k <? 0) with true by (symmetry; apply Z.ltb_lt; lia).
  f_equal. lia.
Qed.

(** The result for a limit whose effective value is the positive
    integer [k]. *)
Lemma getLastRequests_effective (st : MetricsStore) (limit : JSValue) (parsed : number) (k : Z) :
  parseInt (match limit with VUndefined => VNumber (Int 10) | v => v end) = Some parsed ->
  Math_max (Int 1) (or_else parsed (Int 10)) = Int k ->
  0 < k ->
  getLastRequests st limit = Some (rev (lastn (Z.to_nat k) (requestLog st))).
Proof.
  intros Hp He Hk. unfold getLastRequests. rewrite Hp, He.
  destruct (requestLog st) as [|e log] eqn:E.
  - unfold lastn. rewrite skipn_nil. reflexivity.
  - rewrite slice_neg_Int by exact Hk. reflexivity.
Qed.

End LastRequestsFacts.



(* ================================================================== *)
(** * Properties of the validator *)
(* ================================================================== *)

Section ValidacionFacts.
Import JS Validacion.

Lemma trim_empty : trim "" = "".
Proof. reflexivity. Qed.

(** A string that is not empty once trimmed is a valid field. *)
Lemma invalid_string (s : string) :
  trim s <> "" -> invalid (VString s) = false.
Proof.
  intros H. unfold invalid. cbn [truthy typeof].
  assert (Hs : string_truthy s = true).
  { destruct s; [exfalso; apply H; exact trim_empty | reflexivity]. }
  rewrite Hs. cbn [negb orb]. change (String.eqb "string" "string") with true.
  cbn [negb orb]. apply String.eqb_neq. exact H.
Qed.

End ValidacionFacts.

(** C6 (as amended): the two required fields are named [usuarioId] and
    [mensajeUsuario].  The body [{usuarioId: "u1", mensajeUsuario: ""}] is
    rejected with 400 and [details.parameter === "mensajeUsuario"]; every
    body in which [usuarioId] and [mensajeUsuario] are strings that are
    not empty once trimmed goes on to the next handler. *)
Theorem validarInteraccion_required_fields (now : JS.TimeValue) :
  (let o := Validacion.validarInteraccion now
              (JS.VObject [("usuarioId", JS.VString "u1");
                           ("mensajeUsuario", JS.VString "")]) in
   Validacion.status_of o = Some 400 /\
   Validacion.details_parameter o = Some (JS.VString "mensajeUsuario"))
  /\
  (forall (props : list (string * JS.JSValue)) (u m : string),
      JS.lookup "usuarioId" props = Some (JS.VString u) ->
      JS.lookup "mensajeUsuario" props = Some (JS.VString m) ->
      JS.trim u <> "" ->
      JS.trim m <> "" ->
      Validacion.validarInteraccion now (JS.VObject props) = Validacion.Next).
Proof.
  split.
  - split; reflexivity.
  - intros props u m Hu Hm Htu Htm.
    unfold Validacion.validarInteraccion, Validacion.field.
    rewrite Hu, Hm, (invalid_string u Htu), (invalid_string m Htm). reflexivity.
Qed.

Lemma validarInteraccion_required_fields_witness :
  JS.trim "u1" <> "" /\ JS.trim " hi " <> "" /\
  Validacion.validarInteraccion Auth.epoch
    (JS.VObject [("mensajeUsuario", JS.VString " hi "); ("usuarioId", JS.VString "u1")])
  = Validacion.Next.
Proof.
  split; [discriminate|]. split; [discriminate|].
  apply (proj2 (validarInteraccion_required_fields Auth.epoch)) with (u := "u1") (m := " hi ").
  - reflexivity.
  - reflexivity.
  - discriminate.
  - discriminate.
Defined.

(** C6, the case that fails: the validator does not read the fields
    [userId] and [userMessage].  The body [{userId: "u1", userMessage: ""}]
    is rejected with [details.parameter === "usuarioId"], and the body
    [{userId: "u1", userMessage: "hi"}] is rejected too. *)
Lemma validarInteraccion_ignores_userMessage :
  let o1 := Validacion.validarInteraccion Auth.epoch
              (JS.VObject [("userId", JS.VString "u1"); ("userMessage", JS.VString "")]) in
  let o2 := Validacion.validarInteraccion Auth.epoch
              (JS.VObject [("userId", JS.VString "u1"); ("userMessage", JS.VString "hi")]) in
  Validacion.status_of o1 = Some 400
  /\ Validacion.details_parameter o1 = Some (JS.VString "usuarioId")
  /\ Validacion.details_parameter o1 <> Some (JS.VString "userMessage")
  /\ Validacion.status_of o2 = Some 400
  /\ o2 <> Validacion.Next.
Proof.
  repeat split; discriminate.
Qed.

(* ================================================================== *)
(** * Properties of the application errors *)
(* ================================================================== *)

Section ErroresFacts.
Import JS Errores.

(** A number that passes the check of [Custom] is [NaN] or lies in
    [100, 600). *)
Lemma outOfRange_false (n : number) :
  outOfRange n = false -> n = NaN \/ inRange (VNumber n).
Proof.
  unfold outOfRange, inRange. destruct n as [q| |b]; cbn [lt ge Int].
  - change (inject_Z 100) with 100%Q. change (inject_Z 600) with 600%Q.
    rewrite orb_false_iff, negb_false_iff. intros [H1 H2]. right. split.
    + apply Qle_bool_iff. exact H1.
    + apply Qnot_le_lt. intros H. apply Qle_bool_iff in H. congruence.
  - intros _. left. reflexivity.
  - destruct b; discriminate.
Qed.

(** The code of the error [Custom] returns: 500, or the code of the
    caller when that is a number the check lets through. *)
Lemma Custom_code now message code details shouldLog e console :
  Custom now message code details shouldLog = Returned e console ->
  Errores.code e = VNumber (Int 500) \/
  exists n, code = VNumber n /\ outOfRange n = false /\ Errores.code e = VNumber n.
Proof.
  unfold Custom. destruct message as [| | | |m|]; try discriminate.
  destruct (String.eqb (trim m) ""); [discriminate|].
  destruct code as [| | |n| |]; cbn [newAppError];
    try (intros H; injection H as <- _; left; reflexivity).
  destruct (outOfRange n) eqn:E; intros H; injection H as <- _.
  - left. reflexivity.
  - right. exists n. repeat split. exact E.
Qed.

(** Apart from [NaN], every code [Custom] returns lies in [100, 600). *)
Lemma Custom_code_inRange_unless_NaN now message code details shouldLog e console :
  Custom now message code details shouldLog = Returned e console ->
  Errores.code e = VNumber NaN \/ inRange (Errores.code e).
Proof.
  intros H. destruct (Custom_code _ _ _ _ _ _ _ H) as [E | (n & _ & Hn & E)]; rewrite E.
  - right. unfold inRange, Int. change (inject_Z 500) with 500%Q.
    split; [apply Qle_bool_iff | apply Qlt_alt]; reflexivity.
  - destruct (outOfRange_false n Hn) as [-> | Hr]; [left; reflexivity | right; exact Hr].
Qed.

(** [Errores.Custom("x", 999)]: the code is 500 and a warning is written. *)
Lemma Custom_999 now :
  Custom now (VString "x") (VNumber (Int 999)) VUndefined VUndefined =
    Returned (mkAppError "AppError" "x" (VNumber (Int 500)) (VObject []) (toISOString now))
             [ConsoleWarn (VNumber (Int 999))].
Proof. reflexivity. Qed.

End ErroresFacts.

(** C7, at the input that fails: [Errores.Custom("x", NaN)] returns an
    error whose code is [NaN], which is not in [100, 600), and writes no
    warning: [NaN] is a number and both comparisons of the check are
    false on it. *)
Theorem Custom_NaN_code_not_sanitized (now : JS.TimeValue) :
  Errores.Custom now (JS.VString "x") (JS.VNumber JS.NaN) JS.VUndefined JS.VUndefined =
    Errores.Returned
      (Errores.mkAppError "AppError" "x" (JS.VNumber JS.NaN) (JS.VObject [])
         (JS.toISOString now))
      []
  /\ ~ Errores.inRange (JS.VNumber JS.NaN)
  /\ JS.typeof (JS.VNumber JS.NaN) = "number".
Proof.
  split; [reflexivity|]. split; [intros []|reflexivity].
Qed.

(** ** What JSON keeps of a value *)

Section JSONFacts.
Import JS.












End JSONFacts.




(* ================================================================== *)
(** * More on the authentication middleware *)
(* ================================================================== *)

Section AuthMoreFacts.
Import JS Auth.

Lemma opt_eqb_eq (o : option string) (s : string) :
  opt_eqb o s = true <-> o = Some s.
Proof.
  destruct o as [x|]; simpl.
  - rewrite String.eqb_eq. split; [intros ->; reflexivity | intros H; now injection H].
  - split; discriminate.
Qed.

Lemma string_truthy_iff (s : string) : string_truthy s = true <-> s <> "".
Proof. destruct s; simpl; split; congruence. Qed.

(** The pieces of [split] hold no separator. *)
Lemma split_no_separator (c : ascii) (s w : string) :
  In w (split c s) -> hasChar c w = false.
Proof.
  revert w. induction s as [|a s IH]; intros w Hin; cbn [split] in Hin.
  - destruct Hin as [<-|[]]. reflexivity.
  - destruct (Ascii.eqb a c) eqn:E.
    + destruct Hin as [<-|Hin]; [reflexivity | now apply IH].
    + destruct (split c s) as [|w0 ws] eqn:Es.
      * destruct Hin as [<-|[]]. cbn [hasChar]. rewrite E. reflexivity.
      * destruct Hin as [<-|Hin].
        -- cbn [hasChar]. rewrite E. apply IH. left. reflexivity.
        -- apply IH. right. exact Hin.
Qed.

(** [split] on a text that holds no separator up to a first one. *)
Lemma split_first (c : ascii) (t rest : string) :
  hasChar c t = false ->
  split c (t ++ String c rest)%string = t :: split c rest.
Proof.
  induction t as [|a t IH]; intros H; cbn [append split].
  - rewrite Ascii.eqb_refl. reflexivity.
  - cbn [hasChar] in H. apply orb_false_iff in H. destruct H as [Ha Ht].
    rewrite Ha, (IH Ht). reflexivity.
Qed.

Lemma split_none (c : ascii) (t : string) :
  hasChar c t = false -> split c t = [t].
Proof.
  induction t as [|a t IH]; intros H; cbn [split]; [reflexivity|].
  cbn [hasChar] in H. apply orb_false_iff in H. destruct H as [Ha Ht].
  rewrite Ha, (IH Ht). reflexivity.
Qed.

Lemma split_Bearer (rest : string) :
  split " " ("Bearer " ++ rest)%string = "Bearer" :: split " " rest.
Proof. exact (split_first " " "Bearer" rest eq_refl). Qed.

Lemma startsWith_Bearer (rest : string) :
  startsWith ("Bearer " ++ rest)%string "Bearer " = true.
Proof. unfold startsWith. cbn. destruct rest; reflexivity. Qed.

End AuthMoreFacts.

(** X1: loading the module ends the process, with exit code 1, exactly
    when [NODE_ENV] is ["production"] and [JWT_SECRET] is missing, empty
    or the development placeholder; it never exits with another code. *)
Theorem loadModule_exit_iff (env : Auth.ProcessEnv) (code : Z) :
  Auth.loadModule env = Auth.ProcessExit code <->
  code = 1 /\
  Auth.env_NODE_ENV env = Some "production" /\
  (JS.opt_truthy (Auth.env_JWT_SECRET env) = false \/
   Auth.env_JWT_SECRET env = Some Auth.DEFAULT_DEV_JWT_SECRET).
Proof.
  unfold Auth.loadModule. split.
  - intros H.
    destruct (negb (JS.opt_truthy (Auth.env_JWT_SECRET env))
              || Auth.opt_eqb (Auth.env_JWT_SECRET env) Auth.DEFAULT_DEV_JWT_SECRET)
      eqn:Es; [|discriminate].
    destruct (Auth.opt_eqb (Auth.env_NODE_ENV env) "production") eqn:Ep.
    + injection H as <-. split; [reflexivity|]. split; [now apply opt_eqb_eq|].
      apply orb_true_iff in Es. destruct Es as [Es|Es].
      * left. now apply negb_true_iff.
      * right. now apply opt_eqb_eq.
    + destruct (negb (JS.opt_truthy (Auth.env_JWT_SECRET env))); discriminate.
  - intros (-> & Hp & Hs).
    apply opt_eqb_eq in Hp. rewrite Hp.
    replace (negb (JS.opt_truthy (Auth.env_JWT_SECRET env))
             || Auth.opt_eqb (Auth.env_JWT_SECRET env) Auth.DEFAULT_DEV_JWT_SECRET)
      with true; [reflexivity|].
    symmetry. apply orb_true_iff. destruct Hs as [Hs|Hs].
    + left. now apply negb_true_iff.
    + right. now apply opt_eqb_eq.
Qed.

Lemma loadModule_exit_iff_witness :
  Auth.loadModule (Auth.mkEnv (Some "k1") None (Some "production")) = Auth.ProcessExit 1
  /\ Auth.loadModule
       (Auth.mkEnv None (Some Auth.DEFAULT_DEV_JWT_SECRET) (Some "production"))
     = Auth.ProcessExit 1.
Proof.
  split.
  - apply (proj2 (loadModule_exit_iff
                    (Auth.mkEnv (Some "k1") None (Some "production")) 1)).
    split; [reflexivity|]. split; [reflexivity|]. left. reflexivity.
  - apply (proj2 (loadModule_exit_iff
                    (Auth.mkEnv None (Some Auth.DEFAULT_DEV_JWT_SECRET) (Some "production")) 1)).
    split; [reflexivity|]. split; [reflexivity|]. right. reflexivity.
Defined.

(** X2: when the module loads, the whitelist is the one computed from
    [API_KEYS], [process.env.JWT_SECRET] is set afterwards, and the
    environment is left as it was but for a missing or empty secret,
    which is replaced by the development placeholder; in production the
    secret that is left is not the placeholder. *)
Theorem loadModule_loaded (env env' : Auth.ProcessEnv) (keys : list string) :
  Auth.loadModule env = Auth.Loaded keys env' ->
  keys = Auth.API_KEYS env
  /\ Auth.env_API_KEYS env' = Auth.env_API_KEYS env
  /\ Auth.env_NODE_ENV env' = Auth.env_NODE_ENV env
  /\ JS.opt_truthy (Auth.env_JWT_SECRET env') = true
  /\ (JS.opt_truthy (Auth.env_JWT_SECRET env) = true -> env' = env)
  /\ (JS.opt_truthy (Auth.env_JWT_SECRET env) = false ->
      Auth.env_JWT_SECRET env' = Some Auth.DEFAULT_DEV_JWT_SECRET)
  /\ (Auth.env_NODE_ENV env = Some "production" ->
      Auth.env_JWT_SECRET env' <> Some Auth.DEFAULT_DEV_JWT_SECRET).
Proof.
  unfold Auth.loadModule. intros H.
  destruct (JS.opt_truthy (Auth.env_JWT_SECRET env)) eqn:Et; cbn [negb orb] in H.
  - assert (E : keys = Auth.API_KEYS env /\ env' = env).
    { destruct (Auth.opt_eqb (Auth.env_JWT_SECRET env) Auth.DEFAULT_DEV_JWT_SECRET);
        [destruct (Auth.opt_eqb (Auth.env_NODE_ENV env) "production");
           [discriminate|]|];
        injection H as <- <-; split; reflexivity. }
    destruct E as [-> ->]. repeat split; try assumption; try discriminate.
    intros Hp Hd. apply opt_eqb_eq in Hp, Hd. rewrite Hp, Hd in H. discriminate.
  - destruct (Auth.opt_eqb (Auth.env_NODE_ENV env) "production") eqn:Ep;
      [discriminate|].
    injection H as <- <-. cbn. repeat split; try discriminate.
    intros Hp. apply opt_eqb_eq in Hp. congruence.
Qed.

Lemma loadModule_loaded_witness :
  let env := Auth.mkEnv (Some "a,b") (Some "") (Some "development") in
  Auth.loadModule env =
    Auth.Loaded ["a"; "b"]
      (Auth.mkEnv (Some "a,b") (Some Auth.DEFAULT_DEV_JWT_SECRET) (Some "development"))
  /\ JS.opt_truthy
       (Auth.env_JWT_SECRET
          (Auth.mkEnv (Some "a,b") (Some Auth.DEFAULT_DEV_JWT_SECRET) (Some "development")))
     = true.
Proof.
  split; [reflexivity|].
  apply (loadModule_loaded
           (Auth.mkEnv (Some "a,b") (Some "") (Some "development"))
           (Auth.mkEnv (Some "a,b") (Some Auth.DEFAULT_DEV_JWT_SECRET) (Some "development"))
           ["a"; "b"] eq_refl).
Defined.

(** X3: the whitelist holds exactly the non-empty pieces of [API_KEYS]
    between commas, as they are written (nothing is trimmed); so no key of
    the whitelist is empty or holds a comma, and without [API_KEYS] the
    whitelist is empty. *)
Theorem API_KEYS_members (env : Auth.ProcessEnv) (k : string) :
  (In k (Auth.API_KEYS env) <->
   exists s, Auth.env_API_KEYS env = Some s /\ In k (JS.split "," s) /\ k <> "")
  /\ (In k (Auth.API_KEYS env) -> JS.hasChar "," k = false)
  /\ (Auth.env_API_KEYS env = None -> Auth.API_KEYS env = []).
Proof.
  unfold Auth.API_KEYS.
  destruct (Auth.env_API_KEYS env) as [s|]; repeat split.
  - intros H. apply filter_In in H. destruct H as [Hin Ht].
    exists s. repeat split; [exact Hin | now apply string_truthy_iff].
  - intros (s' & Hs & Hin & Hne). injection Hs as <-.
    apply filter_In. split; [exact Hin | now apply string_truthy_iff].
  - intros H. apply filter_In in H. destruct H as [Hin _].
    exact (split_no_separator _ _ _ Hin).
  - discriminate.
  - intros [].
  - intros (s & Hs & _). discriminate.
  - intros [].
Qed.

Lemma API_KEYS_members_witness :
  In "otherkey" (Auth.API_KEYS Auth.sample_env)
  /\ JS.hasChar "," "otherkey" = false.
Proof.
  assert (H : In "otherkey" (Auth.API_KEYS Auth.sample_env)).
  { apply (proj2 (proj1 (API_KEYS_members Auth.sample_env "otherkey"))).
    exists "validkey123,,otherkey". split; [reflexivity|].
    split; [simpl; auto | discriminate]. }
  split; [exact H|].
  exact (proj1 (proj2 (API_KEYS_members Auth.sample_env "otherkey")) H).
Defined.

Section AuthOutcomes.
Import JS Auth.

Variable jwt_verify : string -> string -> VerifyResult.
Variable keys : list string.

(** The outcome of the Bearer branch, case by case. *)
Lemma verifyBearer_cases (env : ProcessEnv) (now : TimeValue) (h : string) :
  (exists token, nth_error (split " " h) 1 = Some token /\ token <> "" /\
     exists secret, env_JWT_SECRET env = Some secret /\ secret <> "" /\
       verifyBearer jwt_verify env now h =
         match jwt_verify token secret with
         | Verified decoded =>
             Next (VObject [("method", VString "jwt"); ("user", decoded)])
         | VerifyThrows name _ =>
             Respond 401
               (errorBody 401
                  (if String.eqb name "TokenExpiredError" then
                     "Token expirado. Por favor, vuelva a autenticarse."
                   else if String.eqb name "JsonWebTokenError" then
                     "Token JWT mal formado o inválido."
                   else "Token inválido.") now)
         end)
  \/ verifyBearer jwt_verify env now h =
       Respond 401 (errorBody 401 "Token de autenticación no proporcionado." now)
  \/ verifyBearer jwt_verify env now h =
       Respond 500
         (errorBody 500
            "Error de configuración del servidor: clave secreta JWT no disponible." now).
Proof.
  destruct (nth_error (split " " h) 1) as [token|] eqn:Et.
  - destruct (string_truthy token) eqn:Ett.
    + destruct (env_JWT_SECRET env) as [secret|] eqn:Es.
      * destruct (string_truthy secret) eqn:Est.
        -- left. exists token. apply string_truthy_iff in Ett, Est.
           split; [reflexivity|]. split; [exact Ett|].
           exists secret. split; [reflexivity|]. split; [exact Est|].
           exact (bearer_verified jwt_verify env now h token secret Et Ett Es Est).
        -- right. right. unfold verifyBearer. rewrite Et, Ett, Es, Est. reflexivity.
      * right. right. unfold verifyBearer. rewrite Et, Ett, Es. reflexivity.
    + right. left. unfold verifyBearer. rewrite Et, Ett. reflexivity.
  - right. left. unfold verifyBearer. rewrite Et. reflexivity.
Qed.

End AuthOutcomes.

(** X4: the middleware calls [next()] in two cases only: the X-API-KEY
    header holds a key of the whitelist, and [req.auth] is
    [{method: "apiKey", apiKey}]; or there is no usable X-API-KEY, the
    Authorization header is [Bearer <token>] with a non-empty token that
    [jwt.verify] accepts under the secret of the environment, and
    [req.auth] is [{method: "jwt", user}] with the decoded claims. *)
Theorem proceeds_only_when_authenticated
    (jwt_verify : string -> string -> Auth.VerifyResult) (keys : list string)
    (env : Auth.ProcessEnv) (now : JS.TimeValue) (req : Auth.Request)
    (auth : JS.JSValue) :
  Auth.authenticateRequest jwt_verify keys env now req = Auth.Next auth ->
  (exists k,
      Auth.header req "X-API-KEY" = Some k /\ k <> "" /\ In k keys /\
      auth = JS.VObject [("method", JS.VString "apiKey"); ("apiKey", JS.VString k)])
  \/
  (exists h token secret decoded,
      JS.opt_truthy (Auth.header req "X-API-KEY") = false /\
      Auth.header req "Authorization" = Some h /\
      JS.startsWith h "Bearer " = true /\
      nth_error (JS.split " " h) 1 = Some token /\ token <> "" /\
      Auth.env_JWT_SECRET env = Some secret /\ secret <> "" /\
      jwt_verify token secret = Auth.Verified decoded /\
      auth = JS.VObject [("method", JS.VString "jwt"); ("user", decoded)]).
Proof.
  intros H.
  destruct (JS.opt_truthy (Auth.header req "X-API-KEY")) eqn:Ek.
  - left. destruct (Auth.header req "X-API-KEY") as [k|] eqn:Hk; [|discriminate].
    simpl in Ek. apply string_truthy_iff in Ek. exists k.
    rewrite (apiKey_branch jwt_verify keys env now req k Hk Ek) in H.
    destruct (existsb (String.eqb k) keys) eqn:E; [|discriminate].
    apply includes_In in E. injection H as <-. auto.
  - right. rewrite (no_apiKey_branch jwt_verify keys env now req Ek) in H.
    destruct (Auth.header req "Authorization") as [h|] eqn:Ha; [|discriminate].
    destruct (JS.startsWith h "Bearer ") eqn:Eb; [|discriminate].
    destruct (verifyBearer_cases jwt_verify env now h)
      as [(token & Ht & Hne & secret & Hs & Hsne & Hv) | [Hv | Hv]];
      rewrite Hv in H; try discriminate.
    destruct (jwt_verify token secret) as [decoded|name msg] eqn:Everify;
      [|discriminate].
    injection H as <-. exists h, token, secret, decoded. auto 10.
Qed.

Lemma proceeds_only_when_authenticated_witness :
  let req := Auth.mkRequest [("authorization", "Bearer good")] in
  let auth := JS.VObject [("method", JS.VString "jwt");
                          ("user", JS.VObject [("sub", JS.VString "u1")])] in
  Auth.authenticateRequest Auth.sample_verify [] Auth.sample_env Auth.epoch req =
    Auth.Next auth
  /\ ((exists k,
         Auth.header req "X-API-KEY" = Some k /\ k <> "" /\ In k [] /\
         auth = JS.VObject [("method", JS.VString "apiKey"); ("apiKey", JS.VString k)])
      \/
      (exists h token secret decoded,
         JS.opt_truthy (Auth.header req "X-API-KEY") = false /\
         Auth.header req "Authorization" = Some h /\
         JS.startsWith h "Bearer " = true /\
         nth_error (JS.split " " h) 1 = Some token /\ token <> "" /\
         Auth.env_JWT_SECRET Auth.sample_env = Some secret /\ secret <> "" /\
         Auth.sample_verify token secret = Auth.Verified decoded /\
         auth = JS.VObject [("method", JS.VString "jwt"); ("user", decoded)])).
Proof.
  split; [reflexivity|].
  exact (proceeds_only_when_authenticated Auth.sample_verify [] Auth.sample_env
           Auth.epoch (Auth.mkRequest [("authorization", "Bearer good")]) _ eq_refl).
Defined.

(** X5: without a usable X-API-KEY header, a request whose Authorization
    header is [Bearer <token>] with a non-empty token that [jwt.verify]
    accepts under the secret of the environment goes on to the next
    handler with [req.auth = {method: "jwt", user: <decoded claims>}]. *)
Theorem bearer_verified_proceeds
    (jwt_verify : string -> string -> Auth.VerifyResult) (keys : list string)
    (env : Auth.ProcessEnv) (now : JS.TimeValue) (req : Auth.Request)
    (h token secret : string) (decoded : JS.JSValue) :
  JS.opt_truthy (Auth.header req "X-API-KEY") = false ->
  Auth.header req "Authorization" = Some h ->
  JS.startsWith h "Bearer " = true ->
  nth_error (JS.split " " h) 1 = Some token -> token <> "" ->
  Auth.env_JWT_SECRET env = Some secret -> secret <> "" ->
  jwt_verify token secret = Auth.Verified decoded ->
  Auth.authenticateRequest jwt_verify keys env now req =
    Auth.Next (JS.VObject [("method", JS.VString "jwt"); ("user", decoded)]).
Proof.
  intros Hk Ha Hb Ht Hne Hs Hsne Hv.
  rewrite (no_apiKey_branch jwt_verify keys env now req Hk), Ha, Hb.
  rewrite (bearer_verified jwt_verify env now h token secret Ht Hne Hs Hsne), Hv.
  reflexivity.
Qed.

Lemma bearer_verified_proceeds_witness :
  Auth.sample_verify "good" "s3cret" = Auth.Verified (JS.VObject [("sub", JS.VString "u1")])
  /\ Auth.authenticateRequest Auth.sample_verify (Auth.API_KEYS Auth.sample_env)
       Auth.sample_env Auth.epoch
       (Auth.mkRequest [("x-api-key", ""); ("authorization", "Bearer good")]) =
     Auth.Next (JS.VObject [("method", JS.VString "jwt");
                            ("user", JS.VObject [("sub", JS.VString "u1")])]).
Proof.
  split; [reflexivity|].
  apply (bearer_verified_proceeds Auth.sample_verify (Auth.API_KEYS Auth.sample_env)
           Auth.sample_env Auth.epoch
           (Auth.mkRequest [("x-api-key", ""); ("authorization", "Bearer good")])
           "Bearer good" "good" "s3cret");
    try reflexivity; discriminate.
Defined.

(** X6: without a usable X-API-KEY header, an Authorization header that
    is ["Bearer "] followed by nothing, or by a further space, is rejected
    with 401 and "Token de autenticación no proporcionado.", whatever the
    secret and the verifier: nothing is verified. *)
Theorem bearer_without_token
    (jwt_verify : string -> string -> Auth.VerifyResult) (keys : list string)
    (env : Auth.ProcessEnv) (now : JS.TimeValue) (req : Auth.Request)
    (rest : string) :
  JS.opt_truthy (Auth.header req "X-API-KEY") = false ->
  Auth.header req "Authorization" = Some ("Bearer " ++ rest)%string ->
  (rest = "" \/ exists r, rest = String " " r) ->
  Auth.authenticateRequest jwt_verify keys env now req =
    Auth.Respond 401
      (Auth.errorBody 401 "Token de autenticación no proporcionado." now).
Proof.
  intros Hk Ha Hrest.
  rewrite (no_apiKey_branch jwt_verify keys env now req Hk), Ha, startsWith_Bearer.
  unfold Auth.verifyBearer. rewrite split_Bearer.
  destruct Hrest as [-> | [r ->]]; reflexivity.
Qed.

Lemma bearer_without_token_witness :
  Auth.authenticateRequest Auth.sample_verify (Auth.API_KEYS Auth.sample_env)
    Auth.sample_env Auth.epoch (Auth.mkRequest [("authorization", "Bearer  good")]) =
  Auth.Respond 401
    (Auth.errorBody 401 "Token de autenticación no proporcionado." Auth.epoch).
Proof.
  apply (bearer_without_token Auth.sample_verify (Auth.API_KEYS Auth.sample_env)
           Auth.sample_env Auth.epoch
           (Auth.mkRequest [("authorization", "Bearer  good")]) " good").
  - reflexivity.
  - reflexivity.
  - right. exists "good". reflexivity.
Defined.

(** X7: without a usable X-API-KEY header, when the Authorization header
    is [Bearer <token>] with a non-empty token and
    [process.env.JWT_SECRET] is missing or empty at the time of the
    request, the answer is 500, whatever the token: the verifier is not
    asked. *)
Theorem bearer_without_secret
    (jwt_verify : string -> string -> Auth.VerifyResult) (keys : list string)
    (env : Auth.ProcessEnv) (now : JS.TimeValue) (req : Auth.Request)
    (h token : string) :
  JS.opt_truthy (Auth.header req "X-API-KEY") = false ->
  Auth.header req "Authorization" = Some h ->
  JS.startsWith h "Bearer " = true ->
  nth_error (JS.split " " h) 1 = Some token -> token <> "" ->
  JS.opt_truthy (Auth.env_JWT_SECRET env) = false ->
  Auth.authenticateRequest jwt_verify keys env now req =
    Auth.Respond 500
      (Auth.errorBody 500
         "Error de configuración del servidor: clave secreta JWT no disponible." now).
Proof.
  intros Hk Ha Hb Ht Hne Hs.
  rewrite (no_apiKey_branch jwt_verify keys env now req Hk), Ha, Hb.
  unfold Auth.verifyBearer. rewrite Ht, (string_truthy_nonempty token Hne).
  destruct (Auth.env_JWT_SECRET env) as [secret|]; [|reflexivity].
  simpl in Hs. rewrite Hs. reflexivity.
Qed.

Lemma bearer_without_secret_witness :
  Auth.authenticateRequest Auth.sample_verify [] (Auth.mkEnv None None None) Auth.epoch
    (Auth.mkRequest [("authorization", "Bearer good")]) =
  Auth.Respond 500
    (Auth.errorBody 500
       "Error de configuración del servidor: clave secreta JWT no disponible." Auth.epoch).
Proof.
  apply (bearer_without_secret Auth.sample_verify [] (Auth.mkEnv None None None)
           Auth.epoch (Auth.mkRequest [("authorization", "Bearer good")])
           "Bearer good" "good");
    try reflexivity; discriminate.
Defined.

(** X8: whatever error [jwt.verify] throws, the request is rejected with
    401; an error that is neither a [TokenExpiredError] nor a
    [JsonWebTokenError] (a [NotBeforeError], say) gets the message
    "Token inválido.". *)
Theorem bearer_failure_is_401
    (jwt_verify : string -> string -> Auth.VerifyResult) (keys : list string)
    (env : Auth.ProcessEnv) (now : JS.TimeValue) (req : Auth.Request)
    (h token secret name message : string) :
  JS.opt_truthy (Auth.header req "X-API-KEY") = false ->
  Auth.header req "Authorization" = Some h ->
  JS.startsWith h "Bearer " = true ->
  nth_error (JS.split " " h) 1 = Some token -> token <> "" ->
  Auth.env_JWT_SECRET env = Some secret -> secret <> "" ->
  jwt_verify token secret = Auth.VerifyThrows name message ->
  (exists m, Auth.authenticateRequest jwt_verify keys env now req =
               Auth.Respond 401 (Auth.errorBody 401 m now))
  /\ (name <> "TokenExpiredError" -> name <> "JsonWebTokenError" ->
      Auth.authenticateRequest jwt_verify keys env now req =
        Auth.Respond 401 (Auth.errorBody 401 "Token inválido." now)).
Proof.
  intros Hk Ha Hb Ht Hne Hs Hsne Hv.
  rewrite (no_apiKey_branch jwt_verify keys env now req Hk), Ha, Hb.
  rewrite (bearer_verified jwt_verify env now h token secret Ht Hne Hs Hsne), Hv.
  split; [eexists; reflexivity|].
  intros H1 H2. apply String.eqb_neq in H1, H2. rewrite H1, H2. reflexivity.
Qed.

Lemma bearer_failure_is_401_witness :
  let verify := fun _ _ : string => Auth.VerifyThrows "NotBeforeError" "jwt not active" in
  Auth.authenticateRequest verify [] Auth.sample_env Auth.epoch
    (Auth.mkRequest [("authorization", "Bearer early")]) =
  Auth.Respond 401 (Auth.errorBody 401 "Token inválido." Auth.epoch).
Proof.
  apply (bearer_failure_is_401
           (fun _ _ : string => Auth.VerifyThrows "NotBeforeError" "jwt not active")
           [] Auth.sample_env Auth.epoch
           (Auth.mkRequest [("authorization", "Bearer early")])
           "Bearer early" "early" "s3cret" "NotBeforeError" "jwt not active");
    try reflexivity; discriminate.
Defined.

(** X9: every response the middleware sends has the status 401, 403 or
    500 and the body [{status: "error", code, message, timestamp}] whose
    [code] is the status of the response and whose timestamp is the date
    of the moment. *)
Theorem rejections_are_uniform
    (jwt_verify : string -> string -> Auth.VerifyResult) (keys : list string)
    (env : Auth.ProcessEnv) (now : JS.TimeValue) (req : Auth.Request)
    (status : Z) (body : JS.JSValue) :
  Auth.authenticateRequest jwt_verify keys env now req = Auth.Respond status body ->
  (status = 401 \/ status = 403 \/ status = 500)
  /\ (exists message, body = Auth.errorBody status message now)
  /\ JS.shape body = ["status"; "code"; "message"; "timestamp"]
  /\ JS.prop "status" body = Some (JS.VString "error")
  /\ JS.prop "code" body = Some (JS.VNumber (JS.Int status))
  /\ JS.prop "timestamp" body = Some (JS.VString (JS.toISOString now)).
Proof.
  intros H.
  assert (E : (status = 401 \/ status = 403 \/ status = 500)
              /\ exists message, body = Auth.errorBody status message now).
  { destruct (JS.opt_truthy (Auth.header req "X-API-KEY")) eqn:Ek.
    - destruct (Auth.header req "X-API-KEY") as [k|] eqn:Hk; [|discriminate].
      simpl in Ek. apply string_truthy_iff in Ek.
      rewrite (apiKey_branch jwt_verify keys env now req k Hk Ek) in H.
      destruct (existsb (String.eqb k) keys); [discriminate|].
      injection H as <- <-. split; [auto | eexists; reflexivity].
    - rewrite (no_apiKey_branch jwt_verify keys env now req Ek) in H.
      assert (Hd : Auth.accessDenied now = Auth.Respond status body ->
                   (status = 401 \/ status = 403 \/ status = 500)
                   /\ exists message, body = Auth.errorBody status message now).
      { intros Hd. injection Hd as <- <-. split; [auto | eexists; reflexivity]. }
      destruct (Auth.header req "Authorization") as [h|]; [|exact (Hd H)].
      destruct (JS.startsWith h "Bearer "); [|exact (Hd H)].
      destruct (verifyBearer_cases jwt_verify env now h)
        as [(token & _ & _ & secret & _ & _ & Hv) | [Hv | Hv]];
        rewrite Hv in H.
      + destruct (jwt_verify token secret); [discriminate|].
        injection H as <- <-. split; [auto | eexists; reflexivity].
      + injection H as <- <-. split; [auto | eexists; reflexivity].
      + injection H as <- <-. split; [auto 6 | eexists; reflexivity]. }
  destruct E as [Hs [message ->]]. split; [exact Hs|].
  split; [exists message; reflexivity|]. repeat split.
Qed.

Lemma rejections_are_uniform_witness :
  let req := Auth.mkRequest [("x-api-key", "guess")] in
  Auth.authenticateRequest Auth.sample_verify (Auth.API_KEYS Auth.sample_env)
    Auth.sample_env Auth.epoch req =
    Auth.Respond 401 (Auth.errorBody 401 "API Key inválida." Auth.epoch)
  /\ JS.prop "code" (Auth.errorBody 401 "API Key inválida." Auth.epoch) =
       Some (JS.VNumber (JS.Int 401)).
Proof.
  split; [reflexivity|].
  apply (rejections_are_uniform Auth.sample_verify (Auth.API_KEYS Auth.sample_env)
           Auth.sample_env Auth.epoch (Auth.mkRequest [("x-api-key", "guess")])
           401 _ eq_refl).
Defined.

(** X10: the token that is verified is the text between ["Bearer "] and
    the next space: what follows that space is ignored, so the two
    headers [Bearer <token> <anything>] and [Bearer <token>] have the same
    outcome when the rest of the request is the same. *)
Theorem bearer_ignores_what_follows_the_token
    (jwt_verify : string -> string -> Auth.VerifyResult) (keys : list string)
    (env : Auth.ProcessEnv) (now : JS.TimeValue) (req req' : Auth.Request)
    (token junk : string) :
  JS.hasChar " " token = false ->
  Auth.header req "X-API-KEY" = Auth.header req' "X-API-KEY" ->
  Auth.header req "Authorization" =
    Some ("Bearer " ++ token ++ String " " junk)%string ->
  Auth.header req' "Authorization" = Some ("Bearer " ++ token)%string ->
  Auth.authenticateRequest jwt_verify keys env now req =
    Auth.authenticateRequest jwt_verify keys env now req'.
Proof.
  intros Ht Hk Ha Ha'.
  unfold Auth.authenticateRequest. rewrite Hk, Ha, Ha', !startsWith_Bearer.
  unfold Auth.verifyBearer.
  rewrite !split_Bearer, (split_first " " token junk Ht), (split_none " " token Ht).
  reflexivity.
Qed.

Lemma bearer_ignores_what_follows_the_token_witness :
  Auth.authenticateRequest Auth.sample_verify [] Auth.sample_env Auth.epoch
    (Auth.mkRequest [("authorization", "Bearer good and more")]) =
  Auth.authenticateRequest Auth.sample_verify [] Auth.sample_env Auth.epoch
    (Auth.mkRequest [("authorization", "Bearer good")]).
Proof.
  apply (bearer_ignores_what_follows_the_token Auth.sample_verify [] Auth.sample_env
           Auth.epoch
           (Auth.mkRequest [("authorization", "Bearer good and more")])
           (Auth.mkRequest [("authorization", "Bearer good")])
           "good" "and more"); reflexivity.
Defined.

(* ================================================================== *)
(** * More on the metrics module *)
(* ================================================================== *)

Section CountFacts.
Import JS Metrics.

Lemma lookup_eqb_refl {A : Type} (k : string) (v : A) (rest : list (string * A)) :
  lookup k ((k, v) :: rest) = Some v.
Proof. cbn [lookup]. rewrite String.eqb_refl. reflexivity. Qed.

(** What [count] does on a string that is not blank. *)
Lemma count_valid (st : MetricsStore) (name : string) :
  trim name <> "" ->
  exists m',
    count st (VString name) =
      (mkStore (totalRequests st) (successfulResponses st) (failedResponses st)
               m' (requestLog st), false)
    /\ (forall other,
          lookup other m' =
            if String.eqb other name
            then Some (match lookup name (customCounters st) with
                       | Some c => c + 1
                       | None => 1
                       end)
            else lookup other (customCounters st))
    /\ (NoDup (map fst (customCounters st)) -> NoDup (map fst m'))
    /\ (forall k, In k (map fst m') <-> k = name \/ In k (map fst (customCounters st))).
Proof.
  intros Hvalid. unfold count.
  apply String.eqb_neq in Hvalid. rewrite Hvalid.
  set (current := match lookup name (customCounters st) with
                  | Some c => if c =? 0 then 0 else c
                  | None => 0
                  end).
  assert (Hcur : current + 1 = match lookup name (customCounters st) with
                               | Some c => c + 1
                               | None => 1
                               end).
  { subst current. destruct (lookup name (customCounters st)) as [c|]; [|reflexivity].
    destruct (c =? 0) eqn:E; [apply Z.eqb_eq in E; subst|]; reflexivity. }
  rewrite <- Hcur. clear Hcur. generalize (current + 1). intros v.
  eexists. split; [reflexivity|].
  induction (customCounters st) as [|[k c] m IH].
  - split; [|split].
    + intros other. cbn [lookup]. reflexivity.
    + intros _. cbn. constructor; [intros [] | constructor].
    + intros k. cbn. intuition congruence.
  - destruct IH as (IH1 & IH2 & IH3).
    destruct (String.eqb k name) eqn:E.
    + apply String.eqb_eq in E. subst k. split; [|split].
      * intros other. cbn [lookup]. destruct (String.eqb other name); reflexivity.
      * intros H. exact H.
      * intros k. cbn. intuition congruence.
    + split; [|split].
      * intros other. cbn [lookup]. destruct (String.eqb other k) eqn:Eo.
        -- apply String.eqb_eq in Eo. subst other. rewrite E. reflexivity.
        -- apply IH1.
      * intros H. cbn [map fst] in *. inversion H as [|? ? Hnotin Hnd]; subst.
        constructor; [|now apply IH2].
        intros Hin. apply IH3 in Hin. destruct Hin as [->|Hin].
        -- rewrite String.eqb_refl in E. discriminate.
        -- contradiction.
      * intros k0. cbn [map fst In]. rewrite IH3. intuition congruence.
Qed.

(** What [count] does on anything else. *)
Lemma count_invalid (st : MetricsStore) (v : JSValue) :
  match v with VString s => trim s = "" | _ => True end ->
  count st v = (st, true).
Proof.
  destruct v as [| | | |s|]; try reflexivity.
  intros H. unfold count. rewrite H. reflexivity.
Qed.

Lemma timesCalled_cons (name : string) (v : JSValue) (names : list JSValue) :
  timesCalled name (v :: names) =
    (match v with VString s => if String.eqb s name then 1 else 0 | _ => 0 end)
    + timesCalled name names.
Proof.
  unfold timesCalled. cbn [filter].
  destruct v as [| | | |s|]; try lia.
  destruct (String.eqb s name); cbn [List.length]; lia.
Qed.

Lemma timesCalled_nonneg (name : string) (names : list JSValue) :
  0 <= timesCalled name names.
Proof. unfold timesCalled. lia. Qed.

(** The counter of [name] after a series of calls. *)
Lemma countAll_lookup (names : list JSValue) :
  forall (st : MetricsStore) (name : string),
  trim name <> "" ->
  lookup name (customCounters (countAll st names)) =
    match lookup name (customCounters st) with
    | Some c => Some (c + timesCalled name names)
    | None => if timesCalled name names =? 0 then None
              else Some (timesCalled name names)
    end.
Proof.
  induction names as [|v names IH]; intros st name Hvalid.
  - cbn. destruct (lookup name (customCounters st)); [f_equal; lia | reflexivity].
  - unfold countAll in *. cbn [fold_left]. rewrite (IH _ name Hvalid).
    rewrite timesCalled_cons. pose proof (timesCalled_nonneg name names) as Hnn.
    destruct v as [| | | |s|];
      try (rewrite count_invalid by exact I; cbn [fst];
           destruct (lookup name (customCounters st)); reflexivity).
    destruct (String.eqb (trim s) "") eqn:Eblank.
    + apply String.eqb_eq in Eblank.
      rewrite (count_invalid st (VString s)) by exact Eblank. cbn [fst].
      assert (Hne : String.eqb s name = false).
      { apply String.eqb_neq. intros ->. contradiction. }
      rewrite Hne. destruct (lookup name (customCounters st)); reflexivity.
    + apply String.eqb_neq in Eblank.
      destruct (count_valid st s Eblank) as (m' & Hc & Hl & _).
      rewrite Hc. cbn [fst customCounters]. rewrite (Hl name).
      rewrite (String.eqb_sym name s).
      destruct (String.eqb s name) eqn:E.
      * apply String.eqb_eq in E. subst s.
        destruct (lookup name (customCounters st)) as [c|].
        -- f_equal. lia.
        -- replace (1 + timesCalled name names =? 0) with false
             by (symmetry; apply Z.eqb_neq; lia).
           reflexivity.
      * destruct (lookup name (customCounters st)); reflexivity.
Qed.

Lemma countAll_NoDup (names : list JSValue) :
  forall st, NoDup (map fst (customCounters st)) ->
             NoDup (map fst (customCounters (countAll st names))).
Proof.
  induction names as [|v names IH]; intros st H; [exact H|].
  unfold countAll in *. cbn [fold_left]. apply IH.
  destruct v as [| | | |s|]; try (rewrite count_invalid by exact I; exact H).
  destruct (String.eqb (trim s) "") eqn:Eblank.
  - apply String.eqb_eq in Eblank.
    rewrite (count_invalid st (VString s)) by exact Eblank. exact H.
  - apply String.eqb_neq in Eblank.
    destruct (count_valid st s Eblank) as (m' & Hc & _ & Hnd & _).
    rewrite Hc. cbn [fst customCounters]. now apply Hnd.
Qed.


(** Own properties after [obj[k] = v]. *)
Lemma lookup_setProp (k other : string) (v : JSValue) (props : list (string * JSValue)) :
  lookup other (setProp k v props) =
    if String.eqb other k then Some v else lookup other props.
Proof.
  induction props as [|[k' v'] rest IH]; cbn [setProp lookup].
  - reflexivity.
  - destruct (String.eqb k' k) eqn:E.
    + apply String.eqb_eq in E. subst k'. cbn [lookup].
      destruct (String.eqb other k); reflexivity.
    + cbn [lookup]. destruct (String.eqb other k') eqn:Eo.
      * apply String.eqb_eq in Eo. subst other. rewrite E. reflexivity.
      * exact IH.
Qed.

Lemma lookup_not_in {A : Type} (k : string) (m : list (string * A)) :
  ~ In k (map fst m) -> lookup k m = None.
Proof.
  induction m as [|[k' v] m IH]; intros H; [reflexivity|].
  cbn [lookup]. destruct (String.eqb k k') eqn:E.
  - apply String.eqb_eq in E. subst. exfalso. apply H. left. reflexivity.
  - apply IH. intros Hin. apply H. right. exact Hin.
Qed.

(** The object made of a map of counters: a counter is there under its
    name, but for the name [__proto__], which is never there. *)
Lemma customCountersObject_lookup (m : list (string * Z)) :
  NoDup (map fst m) ->
  forall name,
  lookup name (customCountersObject m) =
    if String.eqb name "__proto__" then None
    else option_map (fun c => VNumber (Int c)) (lookup name m).
Proof.
  unfold customCountersObject. intros Hnd name.
  assert (G : forall acc,
             lookup name
               (fold_left (fun obj kv => assign obj (fst kv) (VNumber (Int (snd kv)))) m acc)
             = if String.eqb name "__proto__" then lookup name acc
               else match lookup name m with
                    | Some c => Some (VNumber (Int c))
                    | None => lookup name acc
                    end).
  { induction m as [|[k c] m IH]; intros acc.
    - cbn. destruct (String.eqb name "__proto__"); reflexivity.
    - inversion Hnd as [|? ? Hnotin Hnd']; subst.
      cbn [fold_left fst snd]. rewrite (IH Hnd'). unfold assign.
      destruct (String.eqb name "__proto__") eqn:Ep.
      + destruct (String.eqb k "__proto__") eqn:Ek; [reflexivity|].
        rewrite lookup_setProp.
        apply String.eqb_eq in Ep. subst name. rewrite String.eqb_sym, Ek. reflexivity.
      + cbn [lookup]. destruct (String.eqb name k) eqn:E.
        * apply String.eqb_eq in E. subst k. rewrite Ep.
          rewrite (lookup_not_in name m Hnotin), lookup_setProp, String.eqb_refl.
          reflexivity.
        * destruct (lookup name m); [reflexivity|].
          destruct (String.eqb k "__proto__"); [reflexivity|].
          rewrite lookup_setProp, E. reflexivity. }
  rewrite G. cbn [lookup].
  destruct (String.eqb name "__proto__"); [reflexivity|].
  destruct (lookup name m); reflexivity.
Qed.

End CountFacts.

Section RunMoreFacts.
Import JS Metrics.

Lemma runListeners_customCounters ls :
  forall st endTime statusCode now st' entries,
  runListeners ls st endTime statusCode now = (st', entries) ->
  customCounters st' = customCounters st.
Proof.
  induction ls as [|l ls IH]; intros st endTime statusCode now st' entries H;
    cbn [runListeners] in H.
  - injection H as <- _. reflexivity.
  - destruct (onFinish st (l_req l) (l_startTime l) endTime statusCode now)
      as [st1 entry] eqn:E1.
    destruct (runListeners ls st1 endTime statusCode now) as [st2 rest] eqn:E2.
    injection H as <- _. rewrite (IH _ _ _ _ _ _ E2).
    unfold onFinish in E1. injection E1 as <- _. reflexivity.
Qed.

Lemma run_customCounters es :
  forall w w' logged,
  run w es = (w', logged) ->
  customCounters (store w') = customCounters (store w).
Proof.
  induction es as [|e es IH]; intros w w' logged H; cbn [run] in H.
  - injection H as <- _. reflexivity.
  - destruct (step w e) as [w1 logged1] eqn:E1.
    destruct (run w1 es) as [w2 logged2] eqn:E2.
    injection H as <- _. rewrite (IH _ _ _ E2).
    destruct e as [elapsed res req | elapsed res statusCode now]; cbn [step] in E1.
    + injection E1 as <- _. reflexivity.
    + unfold emitFinish, tick in E1. cbn [store hrtime listeners] in E1.
      destruct (runListeners _ (store w) _ statusCode now) as [st entries] eqn:E.
      injection E1 as <- _. cbn [store].
      exact (runListeners_customCounters _ _ _ _ _ _ _ E).
Qed.

Lemma run_app es1 :
  forall es2 w,
  run w (es1 ++ es2) =
    let '(w1, logged1) := run w es1 in
    let '(w2, logged2) := run w1 es2 in
    (w2, logged1 ++ logged2).
Proof.
  induction es1 as [|e es1 IH]; intros es2 w; cbn [run app].
  - destruct (run w es2) as [w2 logged2]. reflexivity.
  - destruct (step w e) as [w1 logged1]. rewrite IH.
    destruct (run w1 es1) as [w1' logged1'].
    destruct (run w1' es2) as [w2 logged2].
    rewrite app_assoc. reflexivity.
Qed.

Lemma filter_filter_neq (res r : nat) (ls : list Listener) :
  Nat.eqb r res = false ->
  filter (fun l => Nat.eqb (l_res l) res)
         (filter (fun l => negb (Nat.eqb (l_res l) r)) ls)
  = filter (fun l => Nat.eqb (l_res l) res) ls.
Proof.
  intros Hne. induction ls as [|l ls IH]; [reflexivity|].
  cbn [filter]. destruct (Nat.eqb (l_res l) r) eqn:E1; cbn [negb].
  - apply Nat.eqb_eq in E1. rewrite E1, Hne. exact IH.
  - cbn [filter]. rewrite IH. reflexivity.
Qed.

(** Events about other responses leave the listeners of [res] as they
    are, and move the clock by the time they take. *)
Lemma run_untouched (res : nat) es :
  forall w w' logged,
  forallb (fun e => negb (touches res e)) es = true ->
  run w es = (w', logged) ->
  filter (fun l => Nat.eqb (l_res l) res) (listeners w')
    = filter (fun l => Nat.eqb (l_res l) res) (listeners w)
  /\ hrtime w' = hrtime w + elapsedTotal es.
Proof.
  induction es as [|e es IH]; intros w w' logged Hes H; cbn [run] in H.
  - injection H as <- _. cbn. split; [reflexivity | lia].
  - destruct (step w e) as [w1 logged1] eqn:E1.
    destruct (run w1 es) as [w2 logged2] eqn:E2.
    injection H as <- _. cbn [forallb] in Hes. apply andb_true_iff in Hes.
    destruct Hes as [He Hes]. apply negb_true_iff in He.
    destruct (IH _ _ _ Hes E2) as [IHl IHt]. rewrite IHl, IHt.
    cbn [elapsedTotal fold_right]. fold (elapsedTotal es).
    destruct e as [elapsed r req | elapsed r statusCode now];
      cbn [step touches elapsedOf] in *.
    + injection E1 as <- _. unfold metricsMiddleware, tick. cbn [listeners hrtime].
      rewrite filter_app. cbn [filter l_res]. rewrite He, app_nil_r.
      split; [reflexivity | lia].
    + unfold emitFinish, tick in E1. cbn [store hrtime listeners] in E1.
      destruct (runListeners _ (store w) _ statusCode now) as [st entries].
      injection E1 as <- _. cbn [listeners hrtime].
      rewrite (filter_filter_neq res r (listeners w) He).
      split; [reflexivity | lia].
Qed.

End RunMoreFacts.

(** X11: at every point of a run, the requests that came in are those
    counted as successful, those counted as failed and those whose
    response has not finished; the two counters of responses add up to
    the number of entries logged, and never to more than
    [totalRequests]. *)
Theorem requests_are_accounted_for
    (es : list Metrics.Event) (w : Metrics.World) (logged : list JS.JSValue) :
  Metrics.run Metrics.initial es = (w, logged) ->
  let st := Metrics.store w in
  Metrics.totalRequests st =
    Metrics.successfulResponses st + Metrics.failedResponses st
    + Z.of_nat (List.length (Metrics.listeners w))
  /\ Metrics.successfulResponses st + Metrics.failedResponses st
     = Z.of_nat (List.length logged)
  /\ 0 <= Metrics.successfulResponses st
  /\ 0 <= Metrics.failedResponses st
  /\ Metrics.successfulResponses st + Metrics.failedResponses st
     <= Metrics.totalRequests st.
Proof.
  intros Hrun st. subst st.
  destruct (run_counters es _ _ _ Hrun) as (Ht & Hs & Hf & Hl).
  cbn in Ht, Hs, Hf, Hl.
  pose proof (successes_failures logged) as Hsf.
  assert (0 <= Metrics.successes logged) by (unfold Metrics.successes; lia).
  assert (0 <= Metrics.failures logged) by (unfold Metrics.failures; lia).
  repeat split; lia.
Qed.

Lemma requests_are_accounted_for_witness :
  let es := [ Metrics.Incoming 5 1 (Metrics.mkRequest "GET" "/a");
              Metrics.Incoming 5 2 (Metrics.mkRequest "GET" "/b");
              Metrics.Finish 7 1 (JS.Int 500) Metrics.sample_time ] in
  let w := fst (Metrics.run Metrics.initial es) in
  List.length (Metrics.listeners w) = 1%nat
  /\ Metrics.totalRequests (Metrics.store w) =
       Metrics.successfulResponses (Metrics.store w)
       + Metrics.failedResponses (Metrics.store w)
       + Z.of_nat (List.length (Metrics.listeners w)).
Proof.
  split; [vm_compute; reflexivity|].
  apply (requests_are_accounted_for _ _ _ (surjective_pairing _)).
Defined.

(** X12: handling requests never lowers a counter of the store and never
    touches the custom counters, from whatever state it starts. *)
Theorem requests_only_increment
    (es : list Metrics.Event) (w w' : Metrics.World) (logged : list JS.JSValue) :
  Metrics.run w es = (w', logged) ->
  Metrics.totalRequests (Metrics.store w) <= Metrics.totalRequests (Metrics.store w')
  /\ Metrics.successfulResponses (Metrics.store w)
     <= Metrics.successfulResponses (Metrics.store w')
  /\ Metrics.failedResponses (Metrics.store w)
     <= Metrics.failedResponses (Metrics.store w')
  /\ Metrics.customCounters (Metrics.store w') = Metrics.customCounters (Metrics.store w).
Proof.
  intros Hrun.
  destruct (run_counters es _ _ _ Hrun) as (Ht & Hs & Hf & _).
  assert (0 <= Metrics.successes logged) by (unfold Metrics.successes; lia).
  assert (0 <= Metrics.failures logged) by (unfold Metrics.failures; lia).
  repeat split; try lia.
  exact (run_customCounters es _ _ _ Hrun).
Qed.

Lemma requests_only_increment_witness :
  let w := Metrics.mkWorld
             (Metrics.mkStore 7 4 3 [("login_exitoso", 2)] []) 100 [] in
  let w' := fst (Metrics.run w Metrics.sample_trace) in
  Metrics.totalRequests (Metrics.store w') = 10
  /\ 7 <= Metrics.totalRequests (Metrics.store w')
  /\ Metrics.customCounters (Metrics.store w') = [("login_exitoso", 2)].
Proof.
  split; [vm_compute; reflexivity|].
  destruct (requests_only_increment Metrics.sample_trace
              (Metrics.mkWorld (Metrics.mkStore 7 4 3 [("login_exitoso", 2)] []) 100 [])
              _ _ (surjective_pairing _)) as (Ht & _ & _ & Hc).
  split; [exact Ht | exact Hc].
Defined.

(** X13: [count] writes its warning exactly when the event name is not a
    string or is blank once trimmed, and then the store is left as it
    is; in every case the counters of requests and the log are
    untouched. *)
Theorem count_warns_iff_invalid
    (st st' : Metrics.MetricsStore) (eventName : JS.JSValue) (warned : bool) :
  Metrics.count st eventName = (st', warned) ->
  (warned = true <->
   match eventName with JS.VString s => JS.trim s = "" | _ => True end)
  /\ (warned = true -> st' = st)
  /\ Metrics.totalRequests st' = Metrics.totalRequests st
  /\ Metrics.successfulResponses st' = Metrics.successfulResponses st
  /\ Metrics.failedResponses st' = Metrics.failedResponses st
  /\ Metrics.requestLog st' = Metrics.requestLog st.
Proof.
  intros H.
  assert (Hcases :
            (match eventName with JS.VString s => JS.trim s = "" | _ => True end
             /\ st' = st /\ warned = true)
            \/ (exists s, eventName = JS.VString s /\ JS.trim s <> "" /\ warned = false
                /\ Metrics.totalRequests st' = Metrics.totalRequests st
                /\ Metrics.successfulResponses st' = Metrics.successfulResponses st
                /\ Metrics.failedResponses st' = Metrics.failedResponses st
                /\ Metrics.requestLog st' = Metrics.requestLog st)).
  { destruct eventName as [| | | |s|];
      try (left; rewrite count_invalid in H by exact I; injection H as <- <-; auto).
    destruct (String.eqb (JS.trim s) "") eqn:E.
    - apply String.eqb_eq in E. left.
      rewrite (count_invalid st (JS.VString s) E) in H. injection H as <- <-. auto.
    - apply String.eqb_neq in E. right. exists s.
      destruct (count_valid st s E) as (m' & Hc & _).
      rewrite Hc in H. injection H as <- <-. cbn. auto 10. }
  destruct Hcases as [(Hinv & -> & ->) | (s & -> & Hs & -> & H1 & H2 & H3 & H4)].
  - split; [split; auto|]. repeat split; auto.
  - split; [split; [discriminate | intros Hblank; contradiction]|].
    split; [discriminate|]. repeat split; assumption.
Qed.

Lemma count_warns_iff_invalid_witness :
  Metrics.count Metrics.metricsStore (JS.VString "   ") = (Metrics.metricsStore, true)
  /\ (true = true <-> JS.trim "   " = "").
Proof.
  split; [reflexivity|].
  exact (proj1 (count_warns_iff_invalid Metrics.metricsStore Metrics.metricsStore
                  (JS.VString "   ") true eq_refl)).
Defined.



(** X15: the snapshot of [getMetrics], taken after any series of calls of
    [count] on the fresh store, reports under [customCounters] each name
    that is not blank with the number of calls made with it, but for the
    name [__proto__]: calls with that name are counted in the store and
    never reported. *)
Theorem getMetrics_reports_custom_counters
    (names : list JS.JSValue) (uptime : Q) (memoryUsageMB : JS.JSValue)
    (now : JS.TimeValue) (name : string) :
  JS.trim name <> "" ->
  exists counters,
    JS.prop "customCounters"
      (Metrics.getMetrics (Metrics.countAll Metrics.metricsStore names)
         uptime memoryUsageMB now) = Some (JS.VObject counters)
    /\ (name <> "__proto__" ->
        JS.lookup name counters =
          if Metrics.timesCalled name names =? 0 then None
          else Some (JS.VNumber (JS.Int (Metrics.timesCalled name names))))
    /\ JS.lookup "__proto__" counters = None.
Proof.
  intros Hvalid. eexists. split; [reflexivity|].
  assert (Hnd : NoDup (map fst (Metrics.customCounters
                                  (Metrics.countAll Metrics.metricsStore names)))).
  { apply countAll_NoDup. constructor. }
  split.
  - intros Hne. rewrite (customCountersObject_lookup _ Hnd name).
    apply String.eqb_neq in Hne. rewrite Hne.
    rewrite (countAll_lookup names Metrics.metricsStore name Hvalid).
    cbn [Metrics.customCounters Metrics.metricsStore JS.lookup].
    destruct (Metrics.timesCalled name names =? 0); reflexivity.
  - rewrite (customCountersObject_lookup _ Hnd "__proto__"). reflexivity.
Qed.

Lemma getMetrics_reports_custom_counters_witness :
  let names := [JS.VString "__proto__"; JS.VString "login"; JS.VString "login"] in
  let st := Metrics.countAll Metrics.metricsStore names in
  JS.lookup "__proto__" (Metrics.customCounters st) = Some 1
  /\ exists counters,
       JS.prop "customCounters" (Metrics.getMetrics st 12.5 JS.VNull Auth.epoch)
         = Some (JS.VObject counters)
       /\ JS.lookup "login" counters = Some (JS.VNumber (JS.Int 2))
       /\ JS.lookup "__proto__" counters = None.
Proof.
  split; [reflexivity|].
  destruct (getMetrics_reports_custom_counters
              [JS.VString "__proto__"; JS.VString "login"; JS.VString "login"]
              12.5 JS.VNull Auth.epoch "login") as (counters & Hc & Hl & Hp).
  - discriminate.
  - exists counters. split; [exact Hc|]. split; [|exact Hp].
    apply Hl. discriminate.
Defined.

Section ParseIntFacts.
Import JS.

Lemma Qred_inject_Z (z : Z) : Qred (inject_Z z) = inject_Z z.
Proof.
  unfold Qred, inject_Z.
  pose proof (Z.ggcd_gcd z 1) as Hg.
  pose proof (Z.ggcd_correct_divisors z 1) as Hd.
  destruct (Z.ggcd z 1) as [g [a b]]. cbn [fst snd] in *.
  rewrite Z.gcd_1_r in Hg. subst g. destruct Hd as [Ha Hb].
  rewrite Z.mul_1_l in Ha, Hb. subst a b. reflexivity.
Qed.

(** The ten digits. *)
Lemma isDigit_cases (c : ascii) :
  isDigit c = true ->
  In c ["0"; "1"; "2"; "3"; "4"; "5"; "6"; "7"; "8"; "9"]%char.
Proof.
  unfold isDigit. intros H. apply andb_true_iff in H. destruct H as [H1 H2].
  apply Z.leb_le in H1, H2. rewrite <- (ascii_nat_embedding c).
  set (n := nat_of_ascii c) in *.
  assert (Hn : (n = 48 \/ n = 49 \/ n = 50 \/ n = 51 \/ n = 52 \/ n = 53 \/
                n = 54 \/ n = 55 \/ n = 56 \/ n = 57)%nat) by lia.
  clearbody n.
  destruct Hn as [->|[->|[->|[->|[->|[->|[->|[->|[->| ->]]]]]]]]]; cbn; auto 12.
Qed.

(** The text of a number starts with no white space. *)
Lemma strip_any_digit (c : ascii) (rest : string) :
  isDigit c = true \/ c = "-"%char ->
  strip_any whitespace (String c rest) = None.
Proof.
  intros [H | ->]; [|reflexivity].
  apply isDigit_cases in H. cbn [In] in H.
  destruct H as [<-|[<-|[<-|[<-|[<-|[<-|[<-|[<-|[<-|[<-|[]]]]]]]]]]]; reflexivity.
Qed.

Lemma trimStart_digit (c : ascii) (rest : string) :
  isDigit c = true \/ c = "-"%char ->
  trimStart (String c rest) = String c rest.
Proof.
  intros H. unfold trimStart. cbn [String.length trimStart_fuel].
  rewrite (strip_any_digit c rest H). reflexivity.
Qed.

(** Reading the digits of a decimal numeral gives its value. *)
Lemma leadingDigits_acc (d : Decimal.uint) :
  forall (acc : positive) (seen : bool),
  leadingDigits (NilEmpty.string_of_uint d) (Z.pos acc) seen =
    (Z.pos (Pos.of_uint_acc d acc),
     match d with Decimal.Nil => seen | _ => true end).
Proof.
  induction d as [|d IH|d IH|d IH|d IH|d IH|d IH|d IH|d IH|d IH|d IH];
    intros acc seen; cbn [NilEmpty.string_of_uint leadingDigits Pos.of_uint_acc];
    [reflexivity|..];
    match goal with
    | |- context [isDigit ?c] => change (isDigit c) with true; cbv iota
    end;
    match goal with
    | |- context [digitVal ?c] =>
        let x := eval vm_compute in (digitVal c) in change (digitVal c) with x
    end;
    match goal with
    | |- leadingDigits _ ?v true = (Z.pos (Pos.of_uint_acc _ ?p), _) =>
        replace v with (Z.pos p) by lia
    end;
    rewrite IH; destruct d; reflexivity.
Qed.

Lemma leadingDigits_uint (d : Decimal.uint) :
  forall seen : bool,
  leadingDigits (NilEmpty.string_of_uint d) 0 seen =
    (Z.of_N (Pos.of_uint d), match d with Decimal.Nil => seen | _ => true end).
Proof.
  induction d as [|d IH|d IH|d IH|d IH|d IH|d IH|d IH|d IH|d IH|d IH];
    intros seen; cbn [NilEmpty.string_of_uint leadingDigits Pos.of_uint];
    [reflexivity|..];
    match goal with
    | |- context [isDigit ?c] => change (isDigit c) with true; cbv iota
    end.
  - change (10 * 0 + digitVal "0") with 0. rewrite IH. destruct d; reflexivity.
  - change (10 * 0 + digitVal "1") with 1. rewrite leadingDigits_acc. destruct d; reflexivity.
  - change (10 * 0 + digitVal "2") with 2. rewrite leadingDigits_acc. destruct d; reflexivity.
  - change (10 * 0 + digitVal "3") with 3. rewrite leadingDigits_acc. destruct d; reflexivity.
  - change (10 * 0 + digitVal "4") with 4. rewrite leadingDigits_acc. destruct d; reflexivity.
  - change (10 * 0 + digitVal "5") with 5. rewrite leadingDigits_acc. destruct d; reflexivity.
  - change (10 * 0 + digitVal "6") with 6. rewrite leadingDigits_acc. destruct d; reflexivity.
  - change (10 * 0 + digitVal "7") with 7. rewrite leadingDigits_acc. destruct d; reflexivity.
  - change (10 * 0 + digitVal "8") with 8. rewrite leadingDigits_acc. destruct d; reflexivity.
  - change (10 * 0 + digitVal "9") with 9. rewrite leadingDigits_acc. destruct d; reflexivity.
Qed.

Lemma first_digit (d : Decimal.uint) :
  d <> Decimal.Nil ->
  exists c rest, NilEmpty.string_of_uint d = String c rest /\ isDigit c = true
                 /\ c <> "-"%char /\ c <> "+"%char.
Proof.
  intros H. destruct d; [contradiction|..]; cbn [NilEmpty.string_of_uint];
    eexists; eexists; (split; [reflexivity|]); (split; [reflexivity|]);
    split; discriminate.
Qed.

(** [parseInt] of the text of a positive numeral. *)
Lemma parseInt_string_uint (p : positive) :
  parseInt_string (NilEmpty.string_of_uint (Pos.to_uint p)) = Int (Z.pos p)
  /\ parseInt_string (String "-" (NilEmpty.string_of_uint (Pos.to_uint p)))
     = Int (Z.neg p).
Proof.
  pose proof (Unsigned.to_uint_nonnil p) as Hnn.
  pose proof (leadingDigits_uint (Pos.to_uint p) false) as Hl.
  rewrite DecimalPos.Unsigned.of_to in Hl.
  destruct (first_digit _ Hnn) as (c & rest & Hs & Hd & Hm & Hp).
  assert (Hflag : match Pos.to_uint p with Decimal.Nil => false | _ => true end = true)
    by (destruct (Pos.to_uint p); [contradiction|..]; reflexivity).
  rewrite Hflag in Hl. unfold parseInt_string. split.
  - rewrite Hs, (trimStart_digit c rest (or_introl Hd)).
    assert (E : match String c rest with
                | String "-" r => (true, r)
                | String "+" r => (false, r)
                | _ => (false, String c rest)
                end = (false, String c rest)).
    { apply isDigit_cases in Hd. cbn [In] in Hd.
      destruct Hd as [<-|[<-|[<-|[<-|[<-|[<-|[<-|[<-|[<-|[<-|[]]]]]]]]]]];
        reflexivity. }
    rewrite E, <- Hs, Hl. reflexivity.
  - rewrite (trimStart_digit "-" _ (or_intror eq_refl)). rewrite Hl. reflexivity.
Qed.

Lemma NilZero_nonnil (d : Decimal.uint) :
  d <> Decimal.Nil -> NilZero.string_of_uint d = NilEmpty.string_of_uint d.
Proof. destruct d; [contradiction|..]; reflexivity. Qed.

(** [parseInt(z, 10)] of an integer below 10^21 in magnitude is [z]. *)
Lemma parseInt_Int (z : Z) :
  Z.abs z < 10 ^ 21 -> parseInt (VNumber (Int z)) = Some (Int z).
Proof.
  intros Hz. unfold parseInt, ToString. unfold Int at 1. rewrite Qred_inject_Z.
  cbn [inject_Z Qnum Qden]. change (Z.pos 1 =? 1) with true.
  apply Z.ltb_lt in Hz. rewrite Hz. cbn [andb option_map]. f_equal.
  destruct z as [|p|p]; cbn [Z.to_int NilZero.string_of_int].
  - reflexivity.
  - rewrite (NilZero_nonnil _ (Unsigned.to_uint_nonnil p)).
    exact (proj1 (parseInt_string_uint p)).
  - rewrite (NilZero_nonnil _ (Unsigned.to_uint_nonnil p)).
    exact (proj2 (parseInt_string_uint p)).
Qed.

(** [parseInt] gives an integer or [NaN]. *)
Lemma parseInt_string_cases (s : string) :
  parseInt_string s = NaN \/ exists n, parseInt_string s = Int n.
Proof.
  unfold parseInt_string.
  destruct (match trimStart s with
            | String "-" rest => (true, rest)
            | String "+" rest => (false, rest)
            | _ => (false, trimStart s)
            end) as [negative body].
  destruct (leadingDigits body 0 false) as [n [|]]; [right; eexists; reflexivity | left; reflexivity].
Qed.

(** The effective limit for a parsed integer. *)
Lemma effectiveLimit_Int (z : Z) :
  Math_max (Int 1) (or_else (Int z) (Int 10)) =
    Int (if z =? 0 then 10 else Z.max 1 z).
Proof.
  unfold or_else, number_truthy, Int, Qeq_bool, inject_Z. cbn [Qnum Qden].
  rewrite !Z.mul_1_r. cbn [Z.mul].
  destruct (z =? 0) eqn:E0; cbn [negb].
  - reflexivity.
  - unfold Math_max, lt, Qle_bool. cbn [Qnum Qden]. rewrite !Z.mul_1_r.
    destruct (z <=? 1) eqn:E1; cbn [negb].
    + apply Z.leb_le in E1. apply Z.eqb_neq in E0. f_equal. f_equal. lia.
    + apply Z.leb_gt in E1. f_equal. f_equal. lia.
Qed.

Lemma effectiveLimit_NaN : Math_max (Int 1) (or_else NaN (Int 10)) = Int 10.
Proof. reflexivity. Qed.

End ParseIntFacts.

Section LastRequestsMoreFacts.
Import JS Metrics.

Lemma lastn_lastn {A : Type} (a b : nat) (l : list A) :
  lastn a (lastn b l) = lastn (Nat.min a b) l.
Proof.
  unfold lastn. rewrite length_skipn, skipn_skipn. f_equal. lia.
Qed.

Lemma lastn_length_min {A : Type} (k : nat) (l : list A) :
  List.length (lastn k l) = Nat.min k (List.length l).
Proof. unfold lastn. rewrite length_skipn. lia. Qed.

Lemma hd_rev_lastn {A : Type} (k : nat) (l : list A) :
  (1 <= k)%nat -> hd_error (rev (lastn k l)) = hd_error (rev l).
Proof.
  intros Hk. destruct l as [|y l'] using rev_ind; [reflexivity|].
  unfold lastn. rewrite length_app, skipn_app. cbn [List.length].
  replace (List.length l' + 1 - k - List.length l')%nat with 0%nat by lia.
  cbn [skipn]. rewrite !rev_app_distr. reflexivity.
Qed.

Lemma getLastRequests_Int (st : MetricsStore) (z : Z) :
  Z.abs z < 10 ^ 21 ->
  getLastRequests st (VNumber (Int z)) =
    Some (rev (lastn (Z.to_nat (if z =? 0 then 10 else Z.max 1 z)) (requestLog st))).
Proof.
  intros Hz. apply (getLastRequests_effective st _ (Int z)).
  - exact (parseInt_Int z Hz).
  - apply effectiveLimit_Int.
  - destruct (z =? 0); lia.
Qed.

(** [ToString] converts the limits of the model. *)
Lemma modelledLimit_ToString (limit : JSValue) :
  modelledLimit limit ->
  exists s, ToString match limit with
                     | VUndefined => VNumber (Int 10)
                     | v => v
                     end = Some s.
Proof.
  destruct limit as [| |b|[q| |neg]|s|props]; cbn [modelledLimit];
    try (intros _; eexists; reflexivity).
  - intros (z & Hq & Hz). cbn [ToString].
    rewrite (Qred_complete _ _ Hq), Qred_inject_Z. cbn [inject_Z Qnum Qden].
    change (Z.pos 1 =? 1) with true. apply Z.ltb_lt in Hz. rewrite Hz.
    eexists. reflexivity.
  - intros [].
Qed.

(** The result for a limit of the model: the [k] latest entries, for
    some [k] that is at least 1. *)
Lemma getLastRequests_modelled (st : MetricsStore) (limit : JSValue) :
  modelledLimit limit ->
  exists z, 1 <= z /\
    getLastRequests st limit = Some (rev (lastn (Z.to_nat z) (requestLog st))).
Proof.
  intros Hm. destruct (modelledLimit_ToString limit Hm) as [s Hs].
  assert (Ep : parseInt match limit with
                        | VUndefined => VNumber (Int 10)
                        | v => v
                        end = Some (parseInt_string s)).
  { unfold parseInt. rewrite Hs. reflexivity. }
  destruct (parseInt_string_cases s) as [E | [n E]]; rewrite E in Ep.
  - exists 10. split; [lia|].
    apply (getLastRequests_effective st limit NaN 10 Ep effectiveLimit_NaN). lia.
  - exists (if n =? 0 then 10 else Z.max 1 n).
    split; [destruct (n =? 0); lia|].
    apply (getLastRequests_effective st limit (Int n) _ Ep (effectiveLimit_Int n)).
    destruct (n =? 0); lia.
Qed.

End LastRequestsMoreFacts.

(** X16: a request comes in on a response that has no listener yet,
    events about other responses follow, and the response finishes: the
    run logs, after the entries of the other responses, exactly one entry
    for the request, with its method, its [originalUrl] as [path], the
    status code of the response, and as [durationMs] the time the clock
    advanced since the request came in, in nanoseconds, divided by
    1000000 and truncated to a whole number. *)
Theorem logged_duration_is_elapsed_time
    (w : Metrics.World) (res : nat) (req : Metrics.Request)
    (elapsed elapsed' : N) (es : list Metrics.Event)
    (statusCode : JS.number) (now : JS.TimeValue) :
  filter (fun l => Nat.eqb (Metrics.l_res l) res) (Metrics.listeners w) = [] ->
  forallb (fun e => negb (Metrics.touches res e)) es = true ->
  snd (Metrics.run w
         (Metrics.Incoming elapsed res req
            :: es ++ [Metrics.Finish elapsed' res statusCode now])) =
  snd (Metrics.run (Metrics.metricsMiddleware (Metrics.tick w elapsed) res req) es)
  ++ [ JS.VObject
         [ ("method", JS.VString (Metrics.method req));
           ("path", JS.VString (Metrics.originalUrl req));
           ("status", JS.VNumber statusCode);
           ("durationMs",
            JS.VNumber
              (JS.Int (Z.quot (Metrics.elapsedTotal es + Z.of_N elapsed') 1000000)));
           ("timestamp", JS.VString (JS.toISOString now)) ] ].
Proof.
  intros Hfresh Hes. cbn [Metrics.run Metrics.step app].
  rewrite run_app.
  destruct (Metrics.run (Metrics.metricsMiddleware (Metrics.tick w elapsed) res req) es)
    as [w1 logged1] eqn:E1.
  destruct (run_untouched res es _ _ _ Hes E1) as [Hl Ht].
  cbn [Metrics.run Metrics.step]. unfold Metrics.emitFinish.
  cbn [Metrics.tick Metrics.listeners Metrics.store Metrics.hrtime].
  rewrite Hl. unfold Metrics.metricsMiddleware at 1.
  cbn [Metrics.listeners Metrics.tick]. rewrite filter_app, Hfresh.
  cbn [filter Metrics.l_res app]. rewrite Nat.eqb_refl.
  cbn [Metrics.runListeners Metrics.l_req Metrics.l_startTime].
  unfold Metrics.onFinish, Metrics.logEntry. cbn [snd fst app].
  rewrite Ht. cbn [Metrics.metricsMiddleware Metrics.hrtime Metrics.tick].
  replace (Metrics.hrtime w + Z.of_N elapsed + Metrics.elapsedTotal es
           + Z.of_N elapsed' - (Metrics.hrtime w + Z.of_N elapsed))
    with (Metrics.elapsedTotal es + Z.of_N elapsed') by lia.
  reflexivity.
Qed.

Lemma logged_duration_is_elapsed_time_witness :
  snd (Metrics.run Metrics.initial
         [ Metrics.Incoming 10 1 (Metrics.mkRequest "GET" "/a?x=1");
           Metrics.Incoming 400000 2 (Metrics.mkRequest "GET" "/b");
           Metrics.Finish 2599999 1 (JS.Int 200) Metrics.sample_time ]) =
  [ JS.VObject
      [ ("method", JS.VString "GET");
        ("path", JS.VString "/a?x=1");
        ("status", JS.VNumber (JS.Int 200));
        ("durationMs", JS.VNumber (JS.Int 2));
        ("timestamp", JS.VString "2025-07-05T18:30:00.000Z") ] ].
Proof.
  refine (eq_trans
            (logged_duration_is_elapsed_time Metrics.initial 1
               (Metrics.mkRequest "GET" "/a?x=1") 10 2599999
               [Metrics.Incoming 400000 2 (Metrics.mkRequest "GET" "/b")]
               (JS.Int 200) Metrics.sample_time eq_refl eq_refl) _).
  vm_compute. reflexivity.
Defined.

(** X17: for an integer limit [z] below 10^21 in magnitude,
    [getLastRequests(z)] returns the [k] latest entries of the log (all
    of them when there are fewer), the latest first, where [k] is 10 when
    [z] is 0, 1 when [z] is negative, and [z] otherwise. *)
Theorem getLastRequests_integer_limit (st : Metrics.MetricsStore) (z : Z) :
  Z.abs z < 10 ^ 21 ->
  let k := Z.to_nat (if z =? 0 then 10 else Z.max 1 z) in
  Metrics.getLastRequests st (JS.VNumber (JS.Int z)) =
    Some (rev (Metrics.lastn k (Metrics.requestLog st)))
  /\ option_map (@List.length JS.JSValue)
       (Metrics.getLastRequests st (JS.VNumber (JS.Int z)))
     = Some (Nat.min k (List.length (Metrics.requestLog st))).
Proof.
  intros Hz k.
  pose proof (getLastRequests_Int st z Hz) as H. fold k in H.
  split; [exact H|].
  rewrite H. cbn [option_map]. rewrite length_rev, lastn_length_min. reflexivity.
Qed.

Lemma getLastRequests_integer_limit_witness :
  let st := Metrics.mkStore 5 5 0 []
              [JS.VString "A"; JS.VString "B"; JS.VString "C"; JS.VString "D";
               JS.VString "E"] in
  Z.abs 3 < 10 ^ 21
  /\ Metrics.getLastRequests st (JS.VNumber (JS.Int 3)) =
       Some [JS.VString "E"; JS.VString "D"; JS.VString "C"].
Proof.
  split; [reflexivity|].
  exact (proj1 (getLastRequests_integer_limit
                  (Metrics.mkStore 5 5 0 []
                     [JS.VString "A"; JS.VString "B"; JS.VString "C"; JS.VString "D";
                      JS.VString "E"]) 3 eq_refl)).
Defined.

(** X18: for every limit of the model (a primitive value: [undefined],
    [null], a boolean, a string, [NaN], an infinity, or an integer below
    10^21 in magnitude), [getLastRequests] returns the [k] latest entries
    of the log, the latest first, for some [k] that is at least 1: the
    result is never longer than the log, and on a log that is not empty
    it is never empty and starts with the latest entry. *)
Theorem getLastRequests_latest_first
    (st : Metrics.MetricsStore) (limit : JS.JSValue) :
  Metrics.modelledLimit limit ->
  exists (result : list JS.JSValue) (k : nat),
    Metrics.getLastRequests st limit = Some result
    /\ (1 <= k)%nat
    /\ result = rev (Metrics.lastn k (Metrics.requestLog st))
    /\ List.length result = Nat.min k (List.length (Metrics.requestLog st))
    /\ hd_error result = hd_error (rev (Metrics.requestLog st))
    /\ (Metrics.requestLog st <> [] -> result <> []).
Proof.
  intros Hm. destruct (getLastRequests_modelled st limit Hm) as (z & Hz & H).
  exists (rev (Metrics.lastn (Z.to_nat z) (Metrics.requestLog st))), (Z.to_nat z).
  split; [exact H|]. split; [lia|]. split; [reflexivity|].
  split; [rewrite length_rev; apply lastn_length_min|].
  split; [apply hd_rev_lastn; lia|].
  intros Hlog Hnil.
  apply (f_equal (@List.length _)) in Hnil.
  rewrite length_rev, lastn_length_min in Hnil. cbn [List.length] in Hnil.
  destruct (Metrics.requestLog st) as [|x l]; [congruence|].
  cbn [List.length] in Hnil. lia.
Qed.

Lemma getLastRequests_latest_first_witness :
  let st := Metrics.mkStore 3 3 0 [] [JS.VString "A"; JS.VString "B"; JS.VString "C"] in
  Metrics.modelledLimit (JS.VString " -7 items")
  /\ Metrics.getLastRequests st (JS.VString " -7 items") = Some [JS.VString "C"]
  /\ exists (result : list JS.JSValue) (k : nat),
       Metrics.getLastRequests st (JS.VString " -7 items") = Some result
       /\ (1 <= k)%nat
       /\ result = rev (Metrics.lastn k (Metrics.requestLog st))
       /\ List.length result = Nat.min k (List.length (Metrics.requestLog st))
       /\ hd_error result = hd_error (rev (Metrics.requestLog st))
       /\ (Metrics.requestLog st <> [] -> result <> []).
Proof.
  split; [exact I|]. split; [vm_compute; reflexivity|].
  apply (getLastRequests_latest_first
           (Metrics.mkStore 3 3 0 [] [JS.VString "A"; JS.VString "B"; JS.VString "C"])
           (JS.VString " -7 items")).
  exact I.
Defined.

(** X19: after any run on the fresh store, [getLastRequests(k)] for an
    integer [k] from 1 to just below 10^21 returns the [min(k, 1000)]
    latest of the entries logged so far, the latest first: what the log
    evicted is never returned. *)
Theorem getLastRequests_after_run
    (es : list Metrics.Event) (w : Metrics.World) (logged : list JS.JSValue) (k : Z) :
  Metrics.run Metrics.initial es = (w, logged) ->
  1 <= k < 10 ^ 21 ->
  Metrics.getLastRequests (Metrics.store w) (JS.VNumber (JS.Int k)) =
    Some (rev (Metrics.lastn (Nat.min (Z.to_nat k) 1000) logged)).
Proof.
  intros Hrun Hk.
  rewrite (getLastRequests_Int (Metrics.store w) k) by lia.
  replace (k =? 0) with false by (symmetry; apply Z.eqb_neq; lia).
  rewrite Z.max_r by lia.
  rewrite (run_log es Metrics.initial w logged [] eq_refl Hrun).
  cbn [app]. rewrite lastn_lastn. reflexivity.
Qed.

Lemma getLastRequests_after_run_witness :
  1 <= 2 < 10 ^ 21
  /\ Metrics.getLastRequests (Metrics.store (fst Metrics.sample_run))
       (JS.VNumber (JS.Int 2)) =
     Some (rev (Metrics.lastn (Nat.min (Z.to_nat 2) 1000) (snd Metrics.sample_run))).
Proof.
  split; [split; [lia | reflexivity]|].
  assert (Hrun : Metrics.run Metrics.initial Metrics.sample_trace =
                 (fst Metrics.sample_run, snd Metrics.sample_run))
    by (vm_compute; reflexivity).
  apply (getLastRequests_after_run _ _ _ 2 Hrun).
  split; [lia | reflexivity].
Defined.

(* ================================================================== *)
(** * More on the validator *)
(* ================================================================== *)

Section ValidacionMoreFacts.
Import JS Validacion.

(** A field passes the check exactly when it is a string that is not
    blank once trimmed. *)
Lemma invalid_false_iff (v : JSValue) :
  invalid v = false <-> exists s, v = VString s /\ trim s <> "".
Proof.
  split.
  - destruct v as [| | | |s|]; unfold invalid; cbn [truthy typeof];
      try (rewrite ?orb_true_r; cbn; discriminate);
      try (destruct b; cbn; discriminate);
      try (destruct (number_truthy n); cbn; discriminate).
    intros H. exists s. split; [reflexivity|].
    apply orb_false_iff in H. destruct H as [_ H]. now apply String.eqb_neq.
  - intros (s & -> & Hs). now apply invalid_string.
Qed.

Lemma invalid_true_iff (v : JSValue) :
  invalid v = true <-> forall s, v = VString s -> trim s = "".
Proof.
  split.
  - intros H s ->. destruct (String.eqb (trim s) "") eqn:E.
    + now apply String.eqb_eq.
    + apply String.eqb_neq in E. rewrite (invalid_string s E) in H. discriminate.
  - intros H. destruct (invalid v) eqn:E; [reflexivity|].
    apply invalid_false_iff in E. destruct E as (s & -> & Hs).
    exfalso. apply Hs. now apply H.
Qed.

Lemma validarInteraccion_object (now : TimeValue) (body : JSValue) :
  body <> VUndefined -> body <> VNull ->
  validarInteraccion now body =
    if invalid (field body "usuarioId") then
      rejection "usuarioId"
        "El campo 'usuarioId' es obligatorio y debe ser una cadena válida no vacía." now
    else if invalid (field body "mensajeUsuario") then
      rejection "mensajeUsuario"
        "El campo 'mensajeUsuario' es obligatorio y debe ser una cadena válida no vacía."
        now
    else Next.
Proof.
  intros H1 H2. destruct body; try reflexivity; contradiction.
Qed.

End ValidacionMoreFacts.

(** X20: the validator lets a request through exactly when [usuarioId]
    and [mensajeUsuario] both are strings that are not blank once
    trimmed; it throws (a [TypeError], and sends nothing) exactly when
    the body is [undefined] or [null]; and every response it sends has the
    status 400. *)
Theorem validarInteraccion_outcomes (now : JS.TimeValue) (body : JS.JSValue) :
  (Validacion.validarInteraccion now body = Validacion.Next <->
   exists u m,
     Validacion.field body "usuarioId" = JS.VString u /\ JS.trim u <> "" /\
     Validacion.field body "mensajeUsuario" = JS.VString m /\ JS.trim m <> "")
  /\ (Validacion.validarInteraccion now body = Validacion.Throws "TypeError" <->
      body = JS.VUndefined \/ body = JS.VNull)
  /\ (forall error, Validacion.validarInteraccion now body = Validacion.Throws error ->
                    error = "TypeError")
  /\ (forall status response,
        Validacion.validarInteraccion now body = Validacion.Respond status response ->
        status = 400).
Proof.
  assert (Hcases : body = JS.VUndefined \/ body = JS.VNull
                   \/ (body <> JS.VUndefined /\ body <> JS.VNull)).
  { destruct body; auto; right; right; split; discriminate. }
  destruct Hcases as [-> | [-> | [H1 H2]]].
  - cbn. repeat split; try discriminate; auto.
    + intros (u & m & Hu & _). discriminate.
    + intros error H. now injection H.
  - cbn. repeat split; try discriminate; auto.
    + intros (u & m & Hu & _). discriminate.
    + intros error H. now injection H.
  - rewrite (validarInteraccion_object now body H1 H2).
    destruct (Validacion.invalid (Validacion.field body "usuarioId")) eqn:Eu;
      [|destruct (Validacion.invalid (Validacion.field body "mensajeUsuario")) eqn:Em].
    + repeat split; try discriminate.
      * intros (u & m & Hu & Htu & _).
        rewrite Hu, (invalid_string u Htu) in Eu. discriminate.
      * intros [H|H]; contradiction.
      * intros status response H. now injection H.
    + repeat split; try discriminate.
      * intros (u & m & _ & _ & Hm & Htm).
        rewrite Hm, (invalid_string m Htm) in Em. discriminate.
      * intros [H|H]; contradiction.
      * intros status response H. now injection H.
    + apply invalid_false_iff in Eu, Em.
      destruct Eu as (u & Hu & Htu). destruct Em as (m & Hm & Htm).
      repeat split; try discriminate.
      * intros _. exists u, m. auto.
      * intros [H|H]; contradiction.
Qed.

Lemma validarInteraccion_outcomes_witness :
  Validacion.validarInteraccion Auth.epoch JS.VNull = Validacion.Throws "TypeError"
  /\ Validacion.validarInteraccion Auth.epoch
       (JS.VObject [("usuarioId", JS.VString "u1"); ("mensajeUsuario", JS.VString "hola")])
     = Validacion.Next.
Proof.
  split.
  - apply (proj2 (proj1 (proj2 (validarInteraccion_outcomes Auth.epoch JS.VNull)))).
    right. reflexivity.
  - apply (proj2 (proj1 (validarInteraccion_outcomes Auth.epoch
             (JS.VObject [("usuarioId", JS.VString "u1");
                          ("mensajeUsuario", JS.VString "hola")])))).
    exists "u1", "hola". repeat split; discriminate.
Defined.

(** X21: the first field that fails is the one named: when [usuarioId] is
    not a string, or is blank once trimmed, the response is 400 with
    [details.parameter === "usuarioId"] whatever [mensajeUsuario] is;
    when [usuarioId] is a string that is not blank and [mensajeUsuario] is
    not one, it is 400 with [details.parameter === "mensajeUsuario"]. *)
Theorem validarInteraccion_names_first_failure (now : JS.TimeValue) (body : JS.JSValue) :
  body <> JS.VUndefined -> body <> JS.VNull ->
  ((forall s, Validacion.field body "usuarioId" = JS.VString s -> JS.trim s = "") ->
   Validacion.status_of (Validacion.validarInteraccion now body) = Some 400 /\
   Validacion.details_parameter (Validacion.validarInteraccion now body)
     = Some (JS.VString "usuarioId"))
  /\
  ((exists u, Validacion.field body "usuarioId" = JS.VString u /\ JS.trim u <> "") ->
   (forall s, Validacion.field body "mensajeUsuario" = JS.VString s -> JS.trim s = "") ->
   Validacion.status_of (Validacion.validarInteraccion now body) = Some 400 /\
   Validacion.details_parameter (Validacion.validarInteraccion now body)
     = Some (JS.VString "mensajeUsuario")).
Proof.
  intros H1 H2. rewrite (validarInteraccion_object now body H1 H2). split.
  - intros Hu. apply invalid_true_iff in Hu. rewrite Hu. split; reflexivity.
  - intros Hu Hm. apply invalid_false_iff in Hu. apply invalid_true_iff in Hm.
    rewrite Hu, Hm. split; reflexivity.
Qed.

Lemma validarInteraccion_names_first_failure_witness :
  let both := JS.VObject [("usuarioId", JS.VNumber (JS.Int 7));
                          ("mensajeUsuario", JS.VString "  ")] in
  let second := JS.VObject [("usuarioId", JS.VString "u1");
                            ("mensajeUsuario", JS.VBool true)] in
  Validacion.details_parameter (Validacion.validarInteraccion Auth.epoch both)
    = Some (JS.VString "usuarioId")
  /\ Validacion.details_parameter (Validacion.validarInteraccion Auth.epoch second)
     = Some (JS.VString "mensajeUsuario").
Proof.
  split.
  - apply (proj1 (validarInteraccion_names_first_failure Auth.epoch
             (JS.VObject [("usuarioId", JS.VNumber (JS.Int 7));
                          ("mensajeUsuario", JS.VString "  ")])
             ltac:(discriminate) ltac:(discriminate))).
    intros s H. discriminate H.
  - apply (proj2 (validarInteraccion_names_first_failure Auth.epoch
             (JS.VObject [("usuarioId", JS.VString "u1");
                          ("mensajeUsuario", JS.VBool true)])
             ltac:(discriminate) ltac:(discriminate))).
    + exists "u1". split; [reflexivity | discriminate].
    + intros s H. discriminate H.
Defined.

(** X22: the validator looks at nothing but the two fields: two bodies
    (neither [undefined] nor [null]) in which [usuarioId] and
    [mensajeUsuario] read the same have the same outcome, whatever else
    they hold. *)
Theorem validarInteraccion_reads_two_fields
    (now : JS.TimeValue) (body body' : JS.JSValue) :
  body <> JS.VUndefined -> body <> JS.VNull ->
  body' <> JS.VUndefined -> body' <> JS.VNull ->
  Validacion.field body "usuarioId" = Validacion.field body' "usuarioId" ->
  Validacion.field body "mensajeUsuario" = Validacion.field body' "mensajeUsuario" ->
  Validacion.validarInteraccion now body = Validacion.validarInteraccion now body'.
Proof.
  intros H1 H2 H1' H2' Hu Hm.
  rewrite (validarInteraccion_object now body H1 H2),
          (validarInteraccion_object now body' H1' H2'), Hu, Hm.
  reflexivity.
Qed.

Lemma validarInteraccion_reads_two_fields_witness :
  Validacion.validarInteraccion Auth.epoch
    (JS.VObject [("admin", JS.VBool true); ("usuarioId", JS.VString "u1");
                 ("mensajeUsuario", JS.VString "hola"); ("lang", JS.VString "es")])
  = Validacion.validarInteraccion Auth.epoch
      (JS.VObject [("mensajeUsuario", JS.VString "hola"); ("usuarioId", JS.VString "u1")]).
Proof.
  apply validarInteraccion_reads_two_fields; try discriminate; reflexivity.
Defined.

(* ================================================================== *)
(** * More on the application errors *)
(* ================================================================== *)

Section ErroresMoreFacts.
Import JS Errores.

(** [Custom] on a message that is a string and is not blank. *)
Lemma Custom_returns (now : TimeValue) (m : string) (code details shouldLog : JSValue) :
  trim m <> "" ->
  let code0 := match code with VUndefined => VNumber (Int 500) | c => c end in
  let invalidCode := match code0 with VNumber n => outOfRange n | _ => true end in
  let e := mkAppError "AppError" m
             (if invalidCode then VNumber (Int 500) else code0)
             (match details with VUndefined => VObject [] | d => d end)
             (toISOString now) in
  Custom now (VString m) code details shouldLog =
    Returned e
      ((if invalidCode then [ConsoleWarn code0] else [])
       ++ (if truthy (match shouldLog with VUndefined => VBool false | v => v end)
           then [ConsoleError e] else [])).
Proof.
  intros Hm. unfold Custom. apply String.eqb_neq in Hm. rewrite Hm. reflexivity.
Qed.

Lemma selectMessage_plain (es en : string) (language : string) :
  existsb (String.eqb language) inheritedNames = false ->
  selectMessage es en (Some language) =
    Some (if String.eqb language "en" then en else es).
Proof.
  intros H. unfold selectMessage. rewrite H.
  destruct (String.eqb language "es") eqn:E1.
  - apply String.eqb_eq in E1. subst. reflexivity.
  - destruct (String.eqb language "en"); reflexivity.
Qed.

End ErroresMoreFacts.

(** X23: [Errores.Custom] returns an error exactly when its message is a
    string that is not blank once trimmed; otherwise it throws, whatever
    the other arguments, and writes nothing. *)
Theorem Custom_returns_iff_message
    (now : JS.TimeValue) (message code details shouldLog : JS.JSValue) :
  ((exists e console,
      Errores.Custom now message code details shouldLog = Errores.Returned e console)
   <-> exists m, message = JS.VString m /\ JS.trim m <> "")
  /\ ((forall m, message = JS.VString m -> JS.trim m = "") ->
      Errores.Custom now message code details shouldLog =
        Errores.Threw "❌ 'message' debe ser una cadena no vacía para Errores.Custom.").
Proof.
  split; [split|].
  - intros (e & console & H). unfold Errores.Custom in H.
    destruct message as [| | | |m|]; try discriminate.
    exists m. split; [reflexivity|].
    destruct (String.eqb (JS.trim m) "") eqn:E; [discriminate|].
    now apply String.eqb_neq.
  - intros (m & -> & Hm).
    rewrite (Custom_returns now m code details shouldLog Hm).
    eexists. eexists. reflexivity.
  - intros H. unfold Errores.Custom.
    destruct message as [| | | |m|]; try reflexivity.
    rewrite (H m eq_refl). reflexivity.
Qed.

Lemma Custom_returns_iff_message_witness :
  Errores.Custom Auth.epoch (JS.VString "  ") (JS.VNumber (JS.Int 404))
    JS.VUndefined (JS.VBool true) =
  Errores.Threw "❌ 'message' debe ser una cadena no vacía para Errores.Custom.".
Proof.
  apply (proj2 (Custom_returns_iff_message Auth.epoch (JS.VString "  ")
                  (JS.VNumber (JS.Int 404)) JS.VUndefined (JS.VBool true))).
  intros m H. injection H as <-. reflexivity.
Defined.

(** X24: the code of the error [Errores.Custom] returns.  A code that is
    left out is 500, without a warning; a code that is given and is not a
    number (the string ["404"], [null]) is replaced by 500 with a
    warning; a number in [100, 600) is kept as it is, without a
    warning. *)
Theorem Custom_code_coercion
    (now : JS.TimeValue) (m : string) (code details shouldLog : JS.JSValue)
    (e : Errores.AppError) (console : list Errores.ConsoleLine) :
  Errores.Custom now (JS.VString m) code details shouldLog = Errores.Returned e console ->
  (code = JS.VUndefined ->
   Errores.code e = JS.VNumber (JS.Int 500) /\
   forall c, ~ In (Errores.ConsoleWarn c) console)
  /\ (code <> JS.VUndefined -> JS.typeof code <> "number" ->
      Errores.code e = JS.VNumber (JS.Int 500) /\
      In (Errores.ConsoleWarn code) console)
  /\ (Errores.inRange code ->
      Errores.code e = code /\ forall c, ~ In (Errores.ConsoleWarn c) console).
Proof.
  intros H.
  assert (Hm : JS.trim m <> "").
  { unfold Errores.Custom in H.
    destruct (String.eqb (JS.trim m) "") eqn:E; [discriminate|].
    now apply String.eqb_neq. }
  rewrite (Custom_returns now m code details shouldLog Hm) in H.
  injection H as <- <-.
  assert (Hlog : forall c l,
            ~ In (Errores.ConsoleWarn c)
                ([] ++ if JS.truthy match shouldLog with
                                    | JS.VUndefined => JS.VBool false
                                    | v => v
                                    end
                       then [Errores.ConsoleError l] else [])).
  { intros c l. destruct (JS.truthy _); cbn; [intros [Hc|[]]; discriminate | intros []]. }
  split; [|split].
  - intros ->. cbn [Errores.code]. split; [reflexivity|]. intros c. apply Hlog.
  - intros Hu Ht. destruct code as [| | |n| |]; try contradiction;
      try (exfalso; apply Ht; reflexivity);
      (split; [reflexivity | left; reflexivity]).
  - intros Hr. destruct code as [| | |n| |]; try contradiction.
    destruct n as [q| |b]; try contradiction. destruct Hr as [Hlo Hhi].
    assert (Hout : Errores.outOfRange (JS.Finite q) = false).
    { unfold Errores.outOfRange, JS.lt, JS.ge, JS.Int.
      change (inject_Z 100) with 100%Q. change (inject_Z 600) with 600%Q.
      apply orb_false_iff. split.
      - apply negb_false_iff. now apply Qle_bool_iff.
      - apply not_true_is_false. intros Hc. apply Qle_bool_iff in Hc.
        exact (Qlt_not_le _ _ Hhi Hc). }
    cbn [Errores.code]. rewrite Hout. split; [reflexivity|]. intros c. apply Hlog.
Qed.

Lemma Custom_code_coercion_witness :
  let r := Errores.Custom Auth.epoch (JS.VString "x") (JS.VString "404")
             JS.VUndefined JS.VUndefined in
  exists e console,
    r = Errores.Returned e console
    /\ Errores.code e = JS.VNumber (JS.Int 500)
    /\ In (Errores.ConsoleWarn (JS.VString "404")) console.
Proof.
  eexists. eexists. split; [reflexivity|].
  apply (proj1 (proj2 (Custom_code_coercion Auth.epoch "x" (JS.VString "404")
                         JS.VUndefined JS.VUndefined _ _ eq_refl))).
  - discriminate.
  - discriminate.
Defined.

(** X25: the error [Errores.Custom] returns carries the message as the
    caller wrote it (not trimmed), the details of the caller ([{}] when
    they are left out), the name [AppError] and the date of the moment;
    it is written to the console exactly when [shouldLog] is truthy, as
    the last line (after the warning if there is one); no other error is
    written, and at most two lines are. *)
Theorem Custom_fields_and_logging
    (now : JS.TimeValue) (m : string) (code details shouldLog : JS.JSValue)
    (e : Errores.AppError) (console : list Errores.ConsoleLine) :
  Errores.Custom now (JS.VString m) code details shouldLog = Errores.Returned e console ->
  Errores.message e = m
  /\ Errores.name e = "AppError"
  /\ Errores.timestamp e = JS.toISOString now
  /\ Errores.details e = (match details with JS.VUndefined => JS.VObject [] | d => d end)
  /\ (In (Errores.ConsoleError e) console <-> JS.truthy shouldLog = true)
  /\ (forall e', In (Errores.ConsoleError e') console -> e' = e)
  /\ (JS.truthy shouldLog = true ->
      last console (Errores.ConsoleWarn JS.VUndefined) = Errores.ConsoleError e)
  /\ (List.length console <= 2)%nat.
Proof.
  intros H.
  assert (Hm : JS.trim m <> "").
  { unfold Errores.Custom in H.
    destruct (String.eqb (JS.trim m) "") eqn:E; [discriminate|].
    now apply String.eqb_neq. }
  rewrite (Custom_returns now m code details shouldLog Hm) in H.
  injection H as <- <-. cbn [Errores.message Errores.name Errores.timestamp Errores.details].
  repeat (split; [reflexivity|]).
  set (e := Errores.mkAppError _ _ _ _ _).
  replace (JS.truthy match shouldLog with
                     | JS.VUndefined => JS.VBool false
                     | v => v
                     end) with (JS.truthy shouldLog)
    by (destruct shouldLog; reflexivity).
  set (warned := if match match code with
                           | JS.VUndefined => JS.VNumber (JS.Int 500)
                           | c => c
                           end with
                     | JS.VNumber n => Errores.outOfRange n
                     | _ => true
                     end
                 then [Errores.ConsoleWarn match code with
                                            | JS.VUndefined => JS.VNumber (JS.Int 500)
                                            | c => c
                                            end]
                 else []).
  assert (Hw : forall x, In x warned -> exists c, x = Errores.ConsoleWarn c).
  { intros x Hx. subst warned.
    destruct (match match code with
                    | JS.VUndefined => JS.VNumber (JS.Int 500)
                    | c => c
                    end with
              | JS.VNumber n => Errores.outOfRange n
              | _ => true
              end); [|destruct Hx].
    destruct Hx as [<-|[]]. eexists. reflexivity. }
  assert (Hlen : (List.length warned <= 1)%nat).
  { subst warned.
    destruct (match match code with
                    | JS.VUndefined => JS.VNumber (JS.Int 500)
                    | c => c
                    end with
              | JS.VNumber n => Errores.outOfRange n
              | _ => true
              end); cbn; lia. }
  clearbody warned.
  assert (Hnot : forall e', ~ In (Errores.ConsoleError e') warned).
  { intros e' Hin. destruct (Hw _ Hin) as [c Hc]. discriminate Hc. }
  destruct (JS.truthy shouldLog).
  - split; [split; [reflexivity | intros _; apply in_or_app; right; left; reflexivity]|].
    split; [|split].
    + intros e' Hin. apply in_app_or in Hin. destruct Hin as [Hin|[Hin|[]]].
      * exfalso. exact (Hnot e' Hin).
      * now injection Hin.
    + intros _. apply last_last.
    + rewrite length_app. cbn. lia.
  - rewrite app_nil_r. split; [split; [intros Hin; exfalso; exact (Hnot e Hin) | discriminate]|].
    split; [|split].
    + intros e' Hin. exfalso. exact (Hnot e' Hin).
    + discriminate.
    + lia.
Qed.

Lemma Custom_fields_and_logging_witness :
  exists e,
    Errores.Custom Auth.epoch (JS.VString " sin saldo ") (JS.VNumber (JS.Int 402))
      (JS.VObject [("saldo", JS.VNumber (JS.Int 0))]) (JS.VString "yes")
    = Errores.Returned e [Errores.ConsoleError e]
    /\ Errores.message e = " sin saldo "
    /\ Errores.details e = JS.VObject [("saldo", JS.VNumber (JS.Int 0))].
Proof.
  eexists. split; [reflexivity|].
  destruct (Custom_fields_and_logging Auth.epoch " sin saldo " (JS.VNumber (JS.Int 402))
              (JS.VObject [("saldo", JS.VNumber (JS.Int 0))]) (JS.VString "yes")
              _ _ eq_refl) as (H1 & _ & _ & H4 & _).
  split; [exact H1 | exact H4].
Defined.

(** X26: the language of the fixed errors.  For a language that is not
    the name of a property of [Object.prototype]: [Unauthorized],
    [Forbidden] and [InternalServerError] give the English message when
    the language is ["en"] and the Spanish one for every other language,
    known or not; the codes are 401, 403 and 500; the first two write
    nothing to the console and [InternalServerError] writes the error it
    returns, once. *)
Theorem fixed_errors_language
    (now : JS.TimeValue) (language : string) (originalError : JS.JSValue) :
  existsb (String.eqb language) Errores.inheritedNames = false ->
  exists e401 e403 e500,
    Errores.Unauthorized now (Some language) = Some (e401, [])
    /\ Errores.Forbidden now (Some language) = Some (e403, [])
    /\ Errores.InternalServerError now originalError (Some language)
       = Some (e500, [Errores.ConsoleError e500])
    /\ Errores.code e401 = JS.VNumber (JS.Int 401)
    /\ Errores.code e403 = JS.VNumber (JS.Int 403)
    /\ Errores.code e500 = JS.VNumber (JS.Int 500)
    /\ Errores.message e401 =
         (if String.eqb language "en"
          then "Unauthorized access. Valid authentication is required."
          else "Acceso no autorizado. Se requiere autenticación válida.")
    /\ Errores.message e403 =
         (if String.eqb language "en"
          then "Access denied. You do not have the necessary permissions to perform this action."
          else "Acceso denegado. No tiene los permisos necesarios para realizar esta acción.")
    /\ Errores.message e500 =
         (if String.eqb language "en"
          then "An unexpected server error occurred."
          else "Ocurrió un error inesperado en el servidor.").
Proof.
  intros H. unfold Errores.Unauthorized, Errores.Forbidden, Errores.InternalServerError.
  rewrite !(selectMessage_plain _ _ language H). cbn [option_map Errores.newAppError].
  eexists. eexists. eexists.
  repeat (split; [reflexivity|]). reflexivity.
Qed.

Lemma fixed_errors_language_witness :
  exists e,
    Errores.Forbidden Auth.epoch (Some "fr") = Some (e, [])
    /\ Errores.message e =
         "Acceso denegado. No tiene los permisos necesarios para realizar esta acción.".
Proof.
  destruct (fixed_errors_language Auth.epoch "fr" JS.VUndefined eq_refl)
    as (e401 & e403 & e500 & _ & H403 & _ & _ & _ & _ & _ & Hm & _).
  exists e403. split; [exact H403 | exact Hm].
Defined.

(** X27: the details of [InternalServerError] carry the [message] and the
    [stack] of the error that was caught when that is an object; when
    what was caught is not an object (a thrown string, a number, [null],
    [undefined]) both are [undefined], so the text of a thrown string is
    not kept; and the envelope of the error, which [toJSON] makes for the
    client, holds these details with the code 500. *)
Theorem InternalServerError_details (now : JS.TimeValue) (originalError : JS.JSValue) :
  exists e,
    Errores.InternalServerError now originalError None = Some (e, [Errores.ConsoleError e])
    /\ JS.prop "type" (Errores.details e) = Some (JS.VString "internal_server_error")
    /\ JS.prop "originalMessage" (Errores.details e)
       = Some (JS.optionalProp originalError "message")
    /\ JS.prop "stack" (Errores.details e) = Some (JS.optionalProp originalError "stack")
    /\ ((forall props, originalError <> JS.VObject props) ->
        JS.prop "originalMessage" (Errores.details e) = Some JS.VUndefined /\
        JS.prop "stack" (Errores.details e) = Some JS.VUndefined)
    /\ JS.prop "code" (Errores.toJSON e) = Some (JS.VNumber (JS.Int 500))
    /\ JS.prop "details" (Errores.toJSON e) = Some (Errores.details e).
Proof.
  eexists. split; [reflexivity|]. cbn.
  repeat (split; [reflexivity|]). split; [|split; reflexivity].
  intros Hne. destruct originalError; try (split; reflexivity).
  exfalso. apply (Hne props). reflexivity.
Qed.

Lemma InternalServerError_details_witness :
  exists e,
    Errores.InternalServerError Auth.epoch (JS.VString "boom") None
      = Some (e, [Errores.ConsoleError e])
    /\ JS.prop "originalMessage" (Errores.details e) = Some JS.VUndefined.
Proof.
  destruct (InternalServerError_details Auth.epoch (JS.VString "boom"))
    as (e & He & _ & _ & _ & Hlost & _).
  exists e. split; [exact He|].
  apply Hlost. intros props H. discriminate H.
Defined.

(* ================================================================== *)
(** * The routes *)
(* ================================================================== *)

Section RutasFacts.
Import JS Rutas.

Lemma passInternalServerError_spec (now : TimeValue) (err : JSValue) :
  exists e,
    passInternalServerError now err = NextError e [Errores.ConsoleError e]
    /\ Errores.code e = VNumber (Int 500)
    /\ Errores.message e = "Ocurrió un error inesperado en el servidor."
    /\ prop "originalMessage" (Errores.details e) = Some (optionalProp err "message")
    /\ prop "stack" (Errores.details e) = Some (optionalProp err "stack").
Proof.
  eexists. split; [reflexivity|]. repeat split.
Qed.

End RutasFacts.



(** X29: on [POST /interactuar], when the rate limiter ends the request
    its outcome is the outcome of the route.  When it lets the request
    through and the validator accepts the body: if the controller
    resolves, the response is 200 with
    [{status: "success", data, timestamp}], [data] being what the
    controller gave; if it rejects, no response is sent: an error with
    the code 500 and the fixed Spanish message is passed to [next], it is
    written to the console once, and its details carry the message and
    the stack of what the controller threw. *)
Theorem postInteractuar_after_validation
    (manejarInteraccion : JS.JSValue -> Rutas.Settled)
    (now : JS.TimeValue) (body : JS.JSValue) :
  Validacion.validarInteraccion now body = Validacion.Next ->
  (forall outcome,
      Rutas.postInteractuar (Rutas.Ends outcome) manejarInteraccion now body = outcome)
  /\ (forall respuesta,
      manejarInteraccion body = Rutas.Resolved respuesta ->
      Rutas.postInteractuar Rutas.CallsNext manejarInteraccion now body =
        Rutas.Sent 200
          (JS.VObject [ ("status", JS.VString "success");
                        ("data", respuesta);
                        ("timestamp", JS.VString (JS.toISOString now)) ]))
  /\ (forall err,
        manejarInteraccion body = Rutas.Rejected err ->
        exists e,
          Rutas.postInteractuar Rutas.CallsNext manejarInteraccion now body =
            Rutas.NextError e [Errores.ConsoleError e]
          /\ Errores.code e = JS.VNumber (JS.Int 500)
          /\ Errores.message e = "Ocurrió un error inesperado en el servidor."
          /\ JS.prop "originalMessage" (Errores.details e)
             = Some (JS.optionalProp err "message")
          /\ JS.prop "stack" (Errores.details e) = Some (JS.optionalProp err "stack")).
Proof.
  intros Hv. split; [reflexivity|].
  unfold Rutas.postInteractuar, Rutas.interactuar. rewrite Hv. split.
  - intros respuesta Hr. rewrite Hr. reflexivity.
  - intros err Hr. rewrite Hr. apply passInternalServerError_spec.
Qed.

Lemma postInteractuar_after_validation_witness :
  let body := JS.VObject [("usuarioId", JS.VString "boom");
                          ("mensajeUsuario", JS.VString "hola")] in
  Validacion.validarInteraccion Auth.epoch body = Validacion.Next
  /\ Rutas.postInteractuar (Rutas.Ends (Rutas.Sent 429 JS.VNull))
       Rutas.sample_manejar Auth.epoch body = Rutas.Sent 429 JS.VNull
  /\ exists e,
       Rutas.postInteractuar Rutas.CallsNext Rutas.sample_manejar Auth.epoch body =
         Rutas.NextError e [Errores.ConsoleError e]
       /\ Errores.code e = JS.VNumber (JS.Int 500)
       /\ JS.prop "originalMessage" (Errores.details e) = Some (JS.VString "db down").
Proof.
  split; [reflexivity|].
  destruct (postInteractuar_after_validation Rutas.sample_manejar Auth.epoch
              (JS.VObject [("usuarioId", JS.VString "boom");
                           ("mensajeUsuario", JS.VString "hola")]) eq_refl)
    as (Hlimited & _ & Hrejected).
  split; [apply Hlimited|].
  destruct (Hrejected _ eq_refl) as (e & He & Hc & _ & Hm & _).
  exists e. split; [exact He|]. split; [exact Hc | exact Hm].
Defined.

(** X30: [GET /interactuar/historial/:usuarioId].  When the rate limiter
    ends the request its outcome is the outcome of the route, whatever
    the parameter and the controller.  When it lets the request through:
    if the parameter is not a string, or is blank once trimmed, an error
    with the code 400 and the details [{parameter: "usuarioId"}] is
    passed to [next], nothing is written to the console and the
    controller has no part in it; otherwise the controller is asked for
    the trimmed parameter: when it resolves the response is 200 and
    echoes the trimmed parameter with the history; when it rejects an
    error with the code 500 is passed to [next] and written to the
    console. *)
Theorem historial_outcomes
    (obtenerHistorial : string -> Rutas.Settled)
    (now : JS.TimeValue) (usuarioId : JS.JSValue) :
  (forall outcome,
      Rutas.getHistorial (Rutas.Ends outcome) obtenerHistorial now usuarioId = outcome)
  /\ ((forall s, usuarioId = JS.VString s -> JS.trim s = "") ->
   exists e,
     (forall obtenerHistorial',
         Rutas.getHistorial Rutas.CallsNext obtenerHistorial' now usuarioId =
           Rutas.NextError e [])
     /\ Errores.code e = JS.VNumber (JS.Int 400)
     /\ Errores.details e = JS.VObject [("parameter", JS.VString "usuarioId")])
  /\ (forall s, usuarioId = JS.VString s -> JS.trim s <> "" ->
      (forall h,
          obtenerHistorial (JS.trim s) = Rutas.Resolved h ->
          Rutas.getHistorial Rutas.CallsNext obtenerHistorial now usuarioId =
            Rutas.Sent 200
              (JS.VObject [ ("status", JS.VString "success");
                            ("usuarioId", JS.VString (JS.trim s));
                            ("historial", h);
                            ("timestamp", JS.VString (JS.toISOString now)) ]))
      /\ (forall err,
            obtenerHistorial (JS.trim s) = Rutas.Rejected err ->
            exists e,
              Rutas.getHistorial Rutas.CallsNext obtenerHistorial now usuarioId =
                Rutas.NextError e [Errores.ConsoleError e]
              /\ Errores.code e = JS.VNumber (JS.Int 500))).
Proof.
  split; [reflexivity|]. split.
  - intros Hbad.
    exists (Errores.mkAppError "AppError"
              "El parámetro 'usuarioId' es obligatorio y debe ser una cadena válida no vacía."
              (JS.VNumber (JS.Int 400))
              (JS.VObject [("parameter", JS.VString "usuarioId")])
              (JS.toISOString now)).
    split; [|split; reflexivity].
    intros obtenerHistorial'. unfold Rutas.getHistorial, Rutas.historial.
    destruct usuarioId as [| | | |s|]; try reflexivity.
    apply invalid_true_iff in Hbad. rewrite Hbad. reflexivity.
  - intros s -> Hs. unfold Rutas.getHistorial, Rutas.historial.
    rewrite (invalid_string s Hs). split.
    + intros h Hh. rewrite Hh. reflexivity.
    + intros err He. rewrite He.
      destruct (passInternalServerError_spec now err) as (e & Hp & Hc & _).
      exists e. split; assumption.
Qed.

Lemma historial_outcomes_witness :
  Rutas.getHistorial (Rutas.Ends (Rutas.Sent 429 JS.VNull))
    Rutas.sample_historial Auth.epoch (JS.VString "  u1 ") = Rutas.Sent 429 JS.VNull
  /\ Rutas.getHistorial Rutas.CallsNext Rutas.sample_historial Auth.epoch
       (JS.VString "  u1 ") =
    Rutas.Sent 200
      (JS.VObject [ ("status", JS.VString "success");
                    ("usuarioId", JS.VString "u1");
                    ("historial", JS.VObject [("de", JS.VString "u1")]);
                    ("timestamp", JS.VString "1970-01-01T00:00:00.000Z") ])
  /\ exists e,
       Rutas.getHistorial Rutas.CallsNext Rutas.sample_historial Auth.epoch
         (JS.VString "   ") = Rutas.NextError e []
       /\ Errores.code e = JS.VNumber (JS.Int 400).
Proof.
  split; [|split].
  - apply (proj1 (historial_outcomes Rutas.sample_historial Auth.epoch
                    (JS.VString "  u1 "))).
  - exact (proj1 (proj2 (proj2 (historial_outcomes Rutas.sample_historial Auth.epoch
                           (JS.VString "  u1 "))) "  u1 " eq_refl ltac:(discriminate))
             _ eq_refl).
  - destruct (proj1 (proj2 (historial_outcomes Rutas.sample_historial Auth.epoch
                       (JS.VString "   ")))) as (e & He & Hc & _).
    + intros s H. injection H as <-. reflexivity.
    + exists e. split; [apply He | exact Hc].
Defined.
